(** * SLMS, Phase 3.6 accounting test harness

    A shallow embedding of [PHASE_3.6_TEST_EXECUTION.py]: the result
    recorder ([TestResults]), the database readers ([get_account_id],
    [get_trial_balance]), the HTTP client ([APIClient]), the five
    scenarios of [Phase36Tester] with the cross-validation, and [main].

    Conventions of the embedding.
    - The amounts in the tables are NUMERIC: exact rationals ([Qc]),
      summed exactly by the query.  What the harness makes of them are
      Python floats: IEEE 754 binary64 numbers, with the arithmetic of
      [SpecFloat].  [float(d)] of a [Decimal] is the nearest double,
      [Decimal] subtraction rounds to the 28 significant digits of the
      default context, and the built-in [sum] adds from left to right
      (as CPython does up to version 3.11; later versions carry a
      compensation term, which is not modelled).
    - A table is the list of its rows in the order in which the
      database returns them to a query without ORDER BY.
    - The live system (PostgreSQL and the backend API) is a parameter:
      an [Environment] gives the type of its states and its reaction to
      every request the harness issues.
    - A Python call is a function from the harness state to an
      [outcome] (returned value or raised exception) and a new state.
    - [print] only writes to the console and is left out; the report of
      [print_summary] is returned as data.

    The pure functions of the two translation tools, [deep_merge] of
    [merge_translations.py] and [flatten_dict] and [unflatten_dict] of
    [check_arabic_translation.py], follow in the module
    [Translations]. *)

From Stdlib Require Import Ascii QArith Qround Qabs Qcanon SpecFloat.
From stdpp Require Import base numbers option list strings pretty gmap fin_maps.

Local Open Scope string_scope.
Local Open Scope list_scope.
Local Open Scope Z_scope.

(** ** Numbers *)

(** A Python [float]: sign, mantissa and exponent of a binary64 number,
    the two zeros, the two infinities, or NaN. *)
Definition float : Type := spec_float.

Module Float.

Definition prec : Z := 53.
Definition emax : Z := 1024.

(** The double nearest to the rational [q], ties to even; beyond the
    largest double it is an infinity.  This is [float(d)] for a
    [Decimal] [d], the value of a literal such as [0.01], [float(n)]
    for an int, and [a / b] for two ints whose quotient is in range. *)
Definition of_Q (q : Q) : float :=
  match Qnum q with
  | Z0 => S754_zero false
  | Zpos n =>
      SFdiv prec emax (S754_finite false n 0) (S754_finite false (Qden q) 0)
  | Zneg n =>
      SFdiv prec emax (S754_finite true n 0) (S754_finite false (Qden q) 0)
  end.

Definition of_Z (z : Z) : float := of_Q (inject_Z z).

Definition add : float → float → float := SFadd prec emax.
Definition sub : float → float → float := SFsub prec emax.
Definition mul : float → float → float := SFmul prec emax.

(** [abs(x)] and [x < y] *)
Definition abs : float → float := SFabs.
Definition ltb : float → float → bool := SFltb.

Definition sign (x : float) : bool :=
  match x with
  | S754_zero s | S754_infinity s | S754_finite s _ _ => s
  | S754_nan => false
  end.

(** Neither negative, nor [-0.0], nor NaN. *)
Definition nonnegative (x : float) : Prop :=
  match x with
  | S754_nan => False
  | _ => sign x = false
  end.

(** The rational a finite float stands for. *)
Definition to_Q (x : float) : Q :=
  match x with
  | S754_finite s m e =>
      let v := match e with
               | Zneg p => Zpos m # Pos.pow 2 p
               | _ => inject_Z (Zpos m * 2 ^ e)
               end in
      if s then Qopp v else v
  | _ => 0%Q
  end.

Definition value (x : float) : option Qc :=
  match x with
  | S754_nan | S754_infinity _ => None
  | _ => Some (Q2Qc (to_Q x))
  end.

End Float.

(** *** [Decimal] *)

(** [psycopg2] returns a NUMERIC as a [Decimal] with all its digits,
    and [Decimal] arithmetic rounds each result to the 28 significant
    digits of the default context, ties to even. *)

(** Rounding to the nearest integer, ties to even. *)
Definition round_half_even (q : Q) : Z :=
  let f := Qfloor q in
  match Qcompare (q - inject_Z f) (1 # 2) with
  | Lt => f
  | Gt => (f + 1)%Z
  | Eq => if Z.even f then f else (f + 1)%Z
  end.

Definition pow10 (e : Z) : Q :=
  match e with
  | Zneg p => 1 # Pos.pow 10 p
  | _ => inject_Z (10 ^ e)
  end.

(** [10 ^ e ≤ n / d] *)
Definition at_least_pow10 (n d : positive) (e : Z) : bool :=
  match e with
  | Zneg p => (Zpos d <=? Zpos n * 10 ^ Zpos p)%Z
  | _ => (Zpos d * 10 ^ e <=? Zpos n)%Z
  end.

(** The exponent of the leading decimal digit of [n / d]: the greatest
    [e] with [10 ^ e ≤ n / d], found from an estimate by binary
    logarithms that is at most four too small. *)
Definition adjusted (n d : positive) : Z :=
  let e0 := ((Z.log2 (Zpos n) - Z.log2 (Zpos d) - 1) * 30103 / 100000 - 1)%Z in
  if at_least_pow10 n d (e0 + 4) then (e0 + 4)%Z
  else if at_least_pow10 n d (e0 + 3) then (e0 + 3)%Z
  else if at_least_pow10 n d (e0 + 2) then (e0 + 2)%Z
  else if at_least_pow10 n d (e0 + 1) then (e0 + 1)%Z
  else e0.

Definition decimal_round (digits : Z) (q : Q) : Q :=
  match Qnum q with
  | Z0 => 0%Q
  | Zpos n =>
      let e := (adjusted n (Qden q) - (digits - 1))%Z in
      (inject_Z (round_half_even (q / pow10 e)) * pow10 e)%Q
  | Zneg n =>
      let e := (adjusted n (Qden q) - (digits - 1))%Z in
      (- (inject_Z (round_half_even (- q / pow10 e)) * pow10 e))%Q
  end.

(** [a - b] on two [Decimal]s *)
Definition decimal_sub (a b : Qc) : Qc := Q2Qc (decimal_round 28 (a - b)).

(** *** Formatting *)

(** A comma before every group of three digits, on the digits in
    reverse order. *)
Fixpoint commas (rev_digits : list ascii) : list ascii :=
  match rev_digits with
  | a :: b :: c :: ((_ :: _) as rest) =>
      a :: b :: c :: ","%char :: commas rest
  | _ => rev_digits
  end.

Definition with_commas (digits : string) : string :=
  String.string_of_list_ascii
    (rev (commas (rev (String.list_ascii_of_string digits)))).

(** The last [width] decimal digits of [n]. *)
Fixpoint zero_padded (width : nat) (n : Z) : string :=
  match width with
  | O => ""
  | S w => zero_padded w (n / 10) +:+ pretty (n mod 10)%Z
  end.

(** The formats [{x:.1f}] and [{x:,.2f}] of the f-strings: the exact
    value of the float rounded to so many decimals, ties to even, with
    or without commas between the thousands. *)
Definition format_f (decimals : nat) (grouping : bool) (x : float) : string :=
  match x with
  | S754_nan => "nan"
  | S754_infinity s => if s then "-inf" else "inf"
  | _ =>
      let scale := (10 ^ Z.of_nat decimals)%Z in
      let n := round_half_even (Qabs (Float.to_Q x) * inject_Z scale) in
      let int_part := pretty (n / scale)%Z in
      (if Float.sign x then "-" else "")
      +:+ (if grouping then with_commas int_part else int_part)
      +:+ "." +:+ zero_padded decimals (n mod scale)
  end.

Definition format_2f : float → string := format_f 2 true.

(** [0.01], the literal of every comparison. *)
Definition cent : float := Float.of_Q (1 # 100).

(** ** Python values *)

(** The values that cross the JSON boundary, and [None]. *)
#[warnings="-register-all"]
Inductive pyval : Type :=
  | PyNone
  | PyBool (b : bool)
  | PyInt (z : Z)
  | PyFloat (x : float)
  | PyStr (s : string)
  | PyList (l : list pyval)
  | PyDict (d : gmap string pyval).

(** Truth value testing, as used by [if x], [not x] and [x and y]. *)
Definition truthy (v : pyval) : bool :=
  match v with
  | PyNone => false
  | PyBool b => b
  | PyInt z => negb (z =? 0)
  | PyFloat x => match x with S754_zero _ => false | _ => true end
  | PyStr s => negb (bool_decide (s = ""))
  | PyList l => match l with [] => false | _ => true end
  | PyDict d => negb (bool_decide (d = ∅))
  end.

(** [x is None] *)
Definition is_None (v : pyval) : bool :=
  match v with PyNone => true | _ => false end.

(** The exceptions the harness can meet.  [SystemExit] is not a
    subclass of [Exception]; all the others are. *)
Inductive exn : Type :=
  | SystemExit (code : Z)
  | ZeroDivisionError
  | AttributeError
  | JSONDecodeError
  | RequestException
  | Psycopg2Error
  | OSError.

Definition is_Exception (e : exn) : bool :=
  match e with SystemExit _ => false | _ => true end.

Inductive outcome (A : Type) : Type :=
  | Returned (a : A)
  | Raised (e : exn).
Arguments Returned {A} a.
Arguments Raised {A} e.

(** [v.get(key, default)]: only a dict has the method. *)
Definition py_get (v : pyval) (key : string) (dflt : pyval) : outcome pyval :=
  match v with
  | PyDict d => Returned (default dflt (d !! key))
  | _ => Raised AttributeError
  end.

(** ** The persisted tables *)

Module DB.

Record chart_of_accounts_row := {
  coa_id : Z;
  coa_account_code : string;
  coa_company_id : Z;
  coa_deleted_at : option string
}.

Record journal_entries_row := {
  je_id : Z;
  je_company_id : Z;
  je_status : string;
  je_deleted_at : option string
}.

(** The columns of a detail line that the harness reads.  The sources
    show no soft-delete mark on this table, and the query filters on
    none. *)
Record journal_entry_details_row := {
  jed_company_id : Z;
  jed_journal_entry_id : Z;
  jed_account_id : Z;
  jed_debit_amount : Qc;
  jed_credit_amount : Qc
}.

Record database := {
  chart_of_accounts : list chart_of_accounts_row;
  journal_entries : list journal_entries_row;
  journal_entry_details : list journal_entry_details_row
}.

End DB.
Import DB.

Local Open Scope Qc_scope.

(** ** Database readers *)

Definition TEST_COMPANY_ID : Z := 1%Z.

(** One value of the dict returned by [get_trial_balance], and the
    dict: its items in insertion order, which is the order of the rows
    of the query. *)
Record tb_row := { debit : float; credit : float; balance : float }.

Definition trial_balance : Type := list (Z * tb_row).

(** [next((acc for acc_id, acc in tb.items() if acc_id == a), None)] *)
Definition row_for (tb : list (Z * tb_row)) (a : Z) : option tb_row :=
  snd <$> head (filter (λ item, item.1 = a) tb).

(** An exact sum over detail lines, as [SUM] computes it. *)
Definition sum_of (f : journal_entry_details_row → Qc)
    (ls : list journal_entry_details_row) : Qc :=
  foldr Qcplus 0 (f <$> ls).

(** The two queries of the harness, as functions of the tables. *)
Module SQL.

(** [get_account_id]: the first row of
    [SELECT id FROM chart_of_accounts WHERE account_code = %s
     AND company_id = %s AND deleted_at IS NULL], or [None]. *)
Definition get_account_id (db : database) (account_code : string)
    (company_id : Z) : option Z :=
  match filter (λ r, coa_account_code r = account_code
                     ∧ coa_company_id r = company_id
                     ∧ coa_deleted_at r = None)
               (chart_of_accounts db) with
  | r :: _ => Some (coa_id r)
  | [] => None
  end.

(** The sub-select of the trial-balance query:
    [SELECT id FROM journal_entries WHERE company_id = %s
     AND status = 'posted' AND deleted_at IS NULL]. *)
Definition posted_entry_ids (db : database) (company_id : Z) : list Z :=
  je_id <$> filter (λ e, je_company_id e = company_id
                         ∧ je_status e = "posted"
                         ∧ je_deleted_at e = None)
                   (journal_entries db).

(** The WHERE clause of the trial-balance query. *)
Definition selected_details (db : database) (company_id : Z)
    : list journal_entry_details_row :=
  filter (λ l, jed_company_id l = company_id
               ∧ jed_journal_entry_id l ∈ posted_entry_ids db company_id)
         (journal_entry_details db).

(** [CASE WHEN x > 0 THEN x ELSE 0 END] *)
Definition case_positive (x : Qc) : Qc :=
  if bool_decide (0 < x) then x else 0.

(** [GROUP BY account_id] with the two [SUM] aggregates: one row for
    each account that occurs among [rows], holding the sums over the
    lines of that account.  SQL leaves the order of the groups open;
    here it follows the order of the lines, each account standing
    where its last line stands. *)
Definition group_by_account (rows : list journal_entry_details_row)
    : list (Z * (Qc * Qc)) :=
  (λ a, let ls := filter (λ l, jed_account_id l = a) rows in
        (a, (sum_of (case_positive ∘ jed_debit_amount) ls,
             sum_of (case_positive ∘ jed_credit_amount) ls)))
  <$> remove_dups (jed_account_id <$> rows).

(** The dict entry [get_trial_balance] makes of a row:
    [float(debit or 0)], [float(credit or 0)] and
    [float((debit or 0) - (credit or 0))].  A zero [Decimal] is falsy
    and gives way to the int [0], which changes none of the three
    values. *)
Definition row_entry (row : Z * (Qc * Qc)) : Z * tb_row :=
  (row.1, {| debit := Float.of_Q row.2.1;
             credit := Float.of_Q row.2.2;
             balance := Float.of_Q (decimal_sub row.2.1 row.2.2) |}).

(** [get_trial_balance]: the rows of the query turned into a dict. *)
Definition get_trial_balance (db : database) (company_id : Z)
    : trial_balance :=
  row_entry <$> group_by_account (selected_details db company_id).

End SQL.

(** [sum(acc['debit'] for acc in tb.values())] and its credit twin:
    the values are added to the int [0] one after the other.  Of an
    empty dict the sum is the int [0], which compares, subtracts and
    prints like [0.0]. *)
Definition sum_values (f : tb_row → float) (tb : trial_balance) : float :=
  foldl Float.add (Float.of_Z 0) (f <$> tb.*2).

(** ** The live system *)

(** One element of ['details'] and the body of [POST /journals]. *)
Record detail_line := {
  account_id : Z;
  debit_amount : Z;
  credit_amount : Z;
  line_description : string
}.

Record entry_data := {
  entry_type : string;
  entry_date : string;
  posting_date : string;
  description : string;
  details : list detail_line
}.

(** What [requests] gives back: a response with its status code and,
    when the body parses, the value of [response.json()]; or no
    response at all, in which case [requests] raises. *)
Inductive http_reply : Type :=
  | Response (status_code : Z) (json : option pyval)
  | NoResponse.

(** The requests of [APIClient]; the bearer token travels with the two
    authenticated ones. *)
Inductive request : Type :=
  | LOGIN (email password : string)
  | CREATE (bearer : pyval) (entry : entry_data)
  | POST (bearer : pyval) (entry_id : pyval).

(** Everything outside the harness.  [system] is the state of the
    ledger (service and database together); a request may change it, a
    query only reads it.  [db_state] is [None] when executing a query
    raises [psycopg2.Error]. *)
Record Environment := {
  system : Type;
  TEST_DATE : string;
  psycopg2_connect : system → bool;
  db_state : system → option database;
  serve : request → system → http_reply * system;
  open_for_writing : system → bool;
  datetime_now : nat → string
}.

(** ** The result recorder *)

(** The dict appended by [add_test]. *)
Record test_record := {
  r_name : string;
  r_passed : pyval;
  r_details : string;
  r_entry_id : pyval;
  r_timestamp : string
}.

Record TestResults := {
  tests : list test_record;
  passed : nat;
  failed : nat
}.

(** [TestResults()] *)
Definition TestResults_init : TestResults :=
  {| tests := []; passed := 0; failed := 0 |}.

(** What [print_summary] prints, line by line. *)
Inductive report_line : Type :=
  | Line_passed (n total : nat)
  | Line_failed (n total : nat)
  | Line_success_rate (percent : string)
  | Line_test (ok : bool) (name : string)
  | Line_details (text : string)
  | Line_entry_id (v : pyval).

Definition test_lines (t : test_record) : list report_line :=
  [Line_test (truthy (r_passed t)) (r_name t)]
  ++ (if truthy (r_passed t) then [] else [Line_details (r_details t)])
  ++ (if truthy (r_entry_id t) then [Line_entry_id (r_entry_id t)] else []).

(** [self.passed / total * 100]: the true division of two ints, of
    which the first is at most the second, then a float
    multiplication. *)
Definition success_rate (passed_ total : nat) : outcome float :=
  if bool_decide (total = 0%nat) then Raised ZeroDivisionError
  else Returned (Float.mul
                   (Float.of_Q (Qc_of_Z (Z.of_nat passed_)
                                / Qc_of_Z (Z.of_nat total))%Qc)
                   (Float.of_Z 100)).

(** [TestResults.print_summary] *)
Definition print_summary (r : TestResults) : outcome (list report_line) :=
  let total := (passed r + failed r)%nat in
  match success_rate (passed r) total with
  | Raised e => Raised e
  | Returned rate =>
      Returned ([Line_passed (passed r) total;
                 Line_failed (failed r) total;
                 Line_success_rate (format_f 1 false rate)]
                ++ (tests r ≫= test_lines))
  end.

(** The result file: absent until [open(..., 'w')] creates or
    truncates it, then whatever [json.dump] wrote. *)
Inductive file_content : Type :=
  | Empty
  | JsonText (doc : list pyval).

(** The dict of one record as a JSON value: what a dump of the log
    would hold for it. *)
Definition record_json (t : test_record) : pyval :=
  PyDict (list_to_map [("name", PyStr (r_name t));
                       ("passed", r_passed t);
                       ("details", PyStr (r_details t));
                       ("entry_id", r_entry_id t);
                       ("timestamp", PyStr (r_timestamp t))]).

(** [json.load] of the result file. *)
Definition json_load (f : option file_content) : outcome (list pyval) :=
  match f with
  | None => Raised OSError
  | Some Empty => Raised JSONDecodeError
  | Some (JsonText doc) => Returned doc
  end.

(** [t.__dict__] for an element [t] of [tests].  The elements are the
    plain dicts built by [add_test], and a dict has no [__dict__]. *)
Definition dunder_dict (t : test_record) : outcome pyval :=
  Raised AttributeError.

(** ** The chart of accounts *)

Module ACCOUNTS.
Definition CASH := "1010".
Definition BANK := "1020".
Definition AR_CUSTOMERS := "1200".
Definition AP_SUPPLIERS := "2100".
Definition ACCRUED_EXPENSES := "2200".
Definition CAPITAL := "3100".
Definition RETAINED_EARNINGS := "3200".
Definition SALES_REVENUE := "4100".
Definition SERVICE_REVENUE := "4200".
Definition COGS := "5100".
Definition INVENTORY := "5200".
Definition SALARY_EXPENSE := "6100".
Definition UTILITIES_EXPENSE := "6200".
Definition RENT_EXPENSE := "6300".
Definition DEPRECIATION_EXPENSE := "6400".
End ACCOUNTS.

Module CONFIG.
Definition SUPER_ADMIN_EMAIL := "super_admin@slms.local".
Definition SUPER_ADMIN_PASSWORD := "SuperAdmin@123".
End CONFIG.

(** ** The harness *)

Section Harness.

Context {env : Environment}.

(** The state a run threads through: the live system, the attributes of
    the [APIClient] and of the [Phase36Tester], the requests sent so
    far, the number of clock readings and the result file. *)
Record hstate := {
  sys : system env;
  token : pyval;
  user_id : pyval;
  results : TestResults;
  sent : list request;
  clock : nat;
  results_file : option file_content
}.

Definition initial_state (s : system env) : hstate :=
  {| sys := s; token := PyNone; user_id := PyNone;
     results := TestResults_init; sent := []; clock := 0%nat;
     results_file := None |}.

Definition M (A : Type) : Type := hstate → outcome A * hstate.

Definition ret {A} (a : A) : M A := λ st, (Returned a, st).

Definition raise {A} (e : exn) : M A := λ st, (Raised e, st).

Definition lift {A} (o : outcome A) : M A := λ st, (o, st).

Definition bind {A B} (m : M A) (k : A → M B) : M B :=
  λ st, match m st with
        | (Returned a, st') => k a st'
        | (Raised e, st') => (Raised e, st')
        end.

Notation "'let!' x ':=' m 'in' k" := (bind m (λ x, k))
  (at level 10, x name, m at level 100, k at level 200).
Notation "'do!' m 'in' k" := (bind m (λ _, k))
  (at level 10, m at level 100, k at level 200).

(** [try: body except C: handler], where [catches] tells whether an
    exception is an instance of [C]. *)
Definition try_except {A} (catches : exn → bool) (body : M A)
    (handler : M A) : M A :=
  λ st, match body st with
        | (Raised e, st') =>
            if catches e then handler st' else (Raised e, st')
        | r => r
        end.

Definition is_psycopg2_Error (e : exn) : bool :=
  match e with Psycopg2Error => true | _ => false end.

(** *** Attribute assignments *)

Definition set_token (v : pyval) : M unit :=
  λ st, (Returned tt,
         {| sys := sys st; token := v; user_id := user_id st;
            results := results st; sent := sent st; clock := clock st;
            results_file := results_file st |}).

Definition set_user_id (v : pyval) : M unit :=
  λ st, (Returned tt,
         {| sys := sys st; token := token st; user_id := v;
            results := results st; sent := sent st; clock := clock st;
            results_file := results_file st |}).

Definition set_results (r : TestResults) : M unit :=
  λ st, (Returned tt,
         {| sys := sys st; token := token st; user_id := user_id st;
            results := r; sent := sent st; clock := clock st;
            results_file := results_file st |}).

Definition set_results_file (f : file_content) : M unit :=
  λ st, (Returned tt,
         {| sys := sys st; token := token st; user_id := user_id st;
            results := results st; sent := sent st; clock := clock st;
            results_file := Some f |}).

(** [datetime.now().isoformat()] *)
Definition now_isoformat : M string :=
  λ st, (Returned (datetime_now env (clock st)),
         {| sys := sys st; token := token st; user_id := user_id st;
            results := results st; sent := sent st;
            clock := S (clock st);
            results_file := results_file st |}).

(** *** [TestResults.add_test] *)

Definition add_test (name : string) (passed_ : pyval) (details_ : string)
    (entry_id : pyval) : M unit :=
  let! ts := now_isoformat in
  λ st,
    let r := results st in
    set_results
      {| tests := tests r ++ [{| r_name := name; r_passed := passed_;
                                 r_details := details_;
                                 r_entry_id := entry_id;
                                 r_timestamp := ts |}];
         passed := if truthy passed_ then S (passed r) else passed r;
         failed := if truthy passed_ then failed r else S (failed r) |}
      st.

(** *** Database utilities *)

(** [psycopg2.connect(...)] *)
Definition psycopg2_connect_call : M unit :=
  λ st, if psycopg2_connect env (sys st) then (Returned tt, st)
        else (Raised Psycopg2Error, st).

(** [sys.exit(code)] *)
Definition sys_exit {A} (code : Z) : M A := raise (SystemExit code).

Definition connect_db : M unit :=
  try_except is_psycopg2_Error psycopg2_connect_call (sys_exit 1).

(** [cur.execute(...)] followed by a fetch: the query sees the tables
    as they are now, or raises. *)
Definition cur_execute {A} (query : database → A) : M A :=
  λ st, match db_state env (sys st) with
        | Some db => (Returned (query db), st)
        | None => (Raised Psycopg2Error, st)
        end.

(** [get_account_id(conn, account_code, company_id)] and
    [get_trial_balance(conn, company_id)].  Every call of the harness
    leaves [company_id] to its default, [TEST_COMPANY_ID]. *)
Definition get_account_id (account_code : string) (company_id : Z)
    : M (option Z) :=
  cur_execute (λ db, SQL.get_account_id db account_code company_id).

Definition get_trial_balance (company_id : Z) : M trial_balance :=
  cur_execute (λ db, SQL.get_trial_balance db company_id).

(** *** [APIClient] *)

(** The state once request [r] has reached the system and has been
    answered. *)
Definition after_request (r : request) (st : hstate) : hstate :=
  {| sys := (serve env r (sys st)).2; token := token st;
     user_id := user_id st; results := results st;
     sent := sent st ++ [r]; clock := clock st;
     results_file := results_file st |}.

(** [requests.post(...)]: the request reaches the system, which
    answers; without an answer [requests] raises. *)
Definition requests_post (r : request) : M (Z * option pyval) :=
  λ st, match (serve env r (sys st)).1 with
        | Response code body => (Returned (code, body), after_request r st)
        | NoResponse => (Raised RequestException, after_request r st)
        end.

(** [response.json()] *)
Definition response_json (response : Z * option pyval) : M pyval :=
  match response.2 with
  | Some v => ret v
  | None => raise JSONDecodeError
  end.

Definition get_token : M pyval := λ st, (Returned (token st), st).

Definition login (email password : string) : M bool :=
  try_except is_Exception
    (let! response := requests_post (LOGIN email password) in
     if bool_decide (response.1 = 200%Z) then
       let! data := response_json response in
       let! d := lift (py_get data "data" (PyDict ∅)) in
       let! tok := lift (py_get d "accessToken" PyNone) in
       do! set_token tok in
       let! d' := lift (py_get data "data" (PyDict ∅)) in
       let! u := lift (py_get d' "user" (PyDict ∅)) in
       let! uid := lift (py_get u "id" PyNone) in
       do! set_user_id uid in
       ret true
     else ret false)
    (ret false).

Definition create_journal_entry (entry : entry_data) : M pyval :=
  try_except is_Exception
    (let! tok := get_token in
     let! response := requests_post (CREATE tok entry) in
     if bool_decide (response.1 ∈ [200%Z; 201%Z]) then
       let! data := response_json response in
       let! d := lift (py_get data "data" (PyDict ∅)) in
       lift (py_get d "id" PyNone)
     else ret PyNone)
    (ret PyNone).

Definition post_journal_entry (entry_id : pyval) : M bool :=
  try_except is_Exception
    (let! tok := get_token in
     let! response := requests_post (POST tok entry_id) in
     ret (bool_decide (response.1 = 200%Z)))
    (ret false).

(** *** [Phase36Tester] *)

(** A journal entry dated today, as every scenario builds it. *)
Definition journal (descr : string) (lines : list detail_line) : entry_data :=
  {| entry_type := "journal";
     entry_date := TEST_DATE env;
     posting_date := TEST_DATE env;
     description := descr;
     details := lines |}.

(** [not a or not b] on two results of [get_account_id]; an id is
    falsy when it is [None] or [0]. *)
Definition found (id : option Z) : bool :=
  match id with Some z => negb (z =? 0)%Z | None => false end.

Definition the (id : option Z) : Z := default 0%Z id.

Definition scenario_1_balanced_entry : M (pyval * pyval) :=
  let! cash_id := get_account_id ACCOUNTS.CASH TEST_COMPANY_ID in
  let! capital_id := get_account_id ACCOUNTS.CAPITAL TEST_COMPANY_ID in
  if negb (found cash_id) || negb (found capital_id) then
    do! add_test "Scenario 1: Basic Balanced Entry" (PyBool false)
          "Account IDs not found" PyNone in
    ret (PyBool false, PyNone)
  else
    let entry_data :=
      journal "Scenario 1: Initial Capital"
        [ {| account_id := the cash_id; debit_amount := 100000;
             credit_amount := 0;
             line_description := "Received initial capital" |};
          {| account_id := the capital_id; debit_amount := 0;
             credit_amount := 100000;
             line_description := "Initial capital contribution" |} ] in
    let! entry_id := create_journal_entry entry_data in
    if negb (truthy entry_id) then
      do! add_test "Scenario 1: Basic Balanced Entry" (PyBool false)
            "Failed to create entry" PyNone in
      ret (PyBool false, PyNone)
    else
      let! posted := post_journal_entry entry_id in
      if negb posted then
        do! add_test "Scenario 1: Basic Balanced Entry" (PyBool false)
              "Failed to post entry" PyNone in
        ret (PyBool false, entry_id)
      else
        let! tb := get_trial_balance TEST_COMPANY_ID in
        let total_debit := sum_values debit tb in
        let total_credit := sum_values credit tb in
        let is_balanced :=
          Float.ltb (Float.abs (Float.sub total_debit total_credit)) cent in
        do! add_test "Scenario 1: Basic Balanced Entry" (PyBool is_balanced)
              ("Debit: " +:+ format_2f total_debit
               +:+ " | Credit: " +:+ format_2f total_credit)
              entry_id in
        ret (PyBool is_balanced, entry_id).

Definition scenario_2_unbalanced_entry : M (pyval * pyval) :=
  let! cash_id := get_account_id ACCOUNTS.CASH TEST_COMPANY_ID in
  let! capital_id := get_account_id ACCOUNTS.CAPITAL TEST_COMPANY_ID in
  if negb (found cash_id) || negb (found capital_id) then
    do! add_test "Scenario 2: Unbalanced Entry Rejection" (PyBool false)
          "Account IDs not found" PyNone in
    ret (PyBool false, PyNone)
  else
    let entry_data :=
      journal "Scenario 2: Unbalanced Entry"
        [ {| account_id := the cash_id; debit_amount := 1000;
             credit_amount := 0;
             line_description := "Unbalanced debit" |};
          {| account_id := the capital_id; debit_amount := 0;
             credit_amount := 500;
             line_description := "Only partial credit" |} ] in
    let! entry_id := create_journal_entry entry_data in
    let test_passed := is_None entry_id in
    do! add_test "Scenario 2: Unbalanced Entry Rejection" (PyBool test_passed)
          (if test_passed then "System correctly rejected unbalanced entry"
           else "System incorrectly accepted unbalanced entry")
          entry_id in
    ret (PyBool test_passed, entry_id).

(** [not entry_id or not self.api.post_journal_entry(entry_id)]: the
    post request is only sent for a truthy id. *)
Definition not_created_or_not_posted (entry_id : pyval) : M bool :=
  if negb (truthy entry_id) then ret true
  else let! posted := post_journal_entry entry_id in ret (negb posted).

(** [row and abs(row[field] - amount) < 0.01]: [None] when the account
    has no row, a bool otherwise (a row is a non-empty dict). *)
Definition row_and_close (row : option tb_row) (field : tb_row → float)
    (amount : Z) : pyval :=
  match row with
  | None => PyNone
  | Some r =>
      PyBool (Float.ltb (Float.abs (Float.sub (field r) (Float.of_Z amount)))
                        cent)
  end.

(** [row[field] if row else 0]; the int [0] prints like [0.0]. *)
Definition field_or_0 (row : option tb_row) (field : tb_row → float)
    : float :=
  match row with Some r => field r | None => Float.of_Z 0 end.

Definition scenario_3_revenue_transaction : M (pyval * pyval) :=
  let! cash_id := get_account_id ACCOUNTS.CASH TEST_COMPANY_ID in
  let! revenue_id := get_account_id ACCOUNTS.SALES_REVENUE TEST_COMPANY_ID in
  if negb (found cash_id) || negb (found revenue_id) then
    do! add_test "Scenario 3: Revenue Transaction" (PyBool false)
          "Account IDs not found" PyNone in
    ret (PyBool false, PyNone)
  else
    let entry_data :=
      journal "Scenario 3: Sales Revenue"
        [ {| account_id := the cash_id; debit_amount := 50000;
             credit_amount := 0;
             line_description := "Cash received from sales" |};
          {| account_id := the revenue_id; debit_amount := 0;
             credit_amount := 50000;
             line_description := "Revenue from sales" |} ] in
    let! entry_id := create_journal_entry entry_data in
    let! unsuccessful := not_created_or_not_posted entry_id in
    if unsuccessful then
      do! add_test "Scenario 3: Revenue Transaction" (PyBool false)
            "Failed to create/post entry" PyNone in
      ret (PyBool false, entry_id)
    else
      let! tb := get_trial_balance TEST_COMPANY_ID in
      let revenue_balance := row_for tb (the revenue_id) in
      let test_passed := row_and_close revenue_balance credit 50000 in
      do! add_test "Scenario 3: Revenue Transaction" test_passed
            ("Revenue Credit: "
             +:+ format_2f (field_or_0 revenue_balance credit))
            entry_id in
      ret (test_passed, entry_id).

Definition scenario_4_expense_transaction : M (pyval * pyval) :=
  let! cash_id := get_account_id ACCOUNTS.CASH TEST_COMPANY_ID in
  let! salary_id := get_account_id ACCOUNTS.SALARY_EXPENSE TEST_COMPANY_ID in
  if negb (found cash_id) || negb (found salary_id) then
    do! add_test "Scenario 4: Expense Transaction" (PyBool false)
          "Account IDs not found" PyNone in
    ret (PyBool false, PyNone)
  else
    let entry_data :=
      journal "Scenario 4: Salary Expense"
        [ {| account_id := the salary_id; debit_amount := 20000;
             credit_amount := 0;
             line_description := "Monthly salary expense" |};
          {| account_id := the cash_id; debit_amount := 0;
             credit_amount := 20000;
             line_description := "Cash paid for salaries" |} ] in
    let! entry_id := create_journal_entry entry_data in
    let! unsuccessful := not_created_or_not_posted entry_id in
    if unsuccessful then
      do! add_test "Scenario 4: Expense Transaction" (PyBool false)
            "Failed to create/post entry" PyNone in
      ret (PyBool false, entry_id)
    else
      let! tb := get_trial_balance TEST_COMPANY_ID in
      let expense_balance := row_for tb (the salary_id) in
      let test_passed := row_and_close expense_balance debit 20000 in
      do! add_test "Scenario 4: Expense Transaction" test_passed
            ("Salary Expense Debit: "
             +:+ format_2f (field_or_0 expense_balance debit))
            entry_id in
      ret (test_passed, entry_id).

Definition scenario_5_cogs_transaction : M (pyval * pyval) :=
  let! cash_id := get_account_id ACCOUNTS.CASH TEST_COMPANY_ID in
  let! cogs_id := get_account_id ACCOUNTS.COGS TEST_COMPANY_ID in
  if negb (found cash_id) || negb (found cogs_id) then
    do! add_test "Scenario 5: COGS Transaction" (PyBool false)
          "Account IDs not found" PyNone in
    ret (PyBool false, PyNone)
  else
    let entry_data :=
      journal "Scenario 5: COGS Purchase"
        [ {| account_id := the cogs_id; debit_amount := 30000;
             credit_amount := 0;
             line_description := "Cost of goods sold" |};
          {| account_id := the cash_id; debit_amount := 0;
             credit_amount := 30000;
             line_description := "Cash paid for inventory" |} ] in
    let! entry_id := create_journal_entry entry_data in
    let! unsuccessful := not_created_or_not_posted entry_id in
    if unsuccessful then
      do! add_test "Scenario 5: COGS Transaction" (PyBool false)
            "Failed to create/post entry" PyNone in
      ret (PyBool false, entry_id)
    else
      let! tb := get_trial_balance TEST_COMPANY_ID in
      let cogs_balance := row_for tb (the cogs_id) in
      let test_passed := row_and_close cogs_balance debit 30000 in
      do! add_test "Scenario 5: COGS Transaction" test_passed
            ("COGS Debit: "
             +:+ format_2f (field_or_0 cogs_balance debit))
            entry_id in
      ret (test_passed, entry_id).

Definition cross_validation_trial_balance : M unit :=
  let! tb := get_trial_balance TEST_COMPANY_ID in
  let total_debit := sum_values debit tb in
  let total_credit := sum_values credit tb in
  let is_balanced :=
    Float.ltb (Float.abs (Float.sub total_debit total_credit)) cent in
  add_test "Cross-Validation: TB = GL" (PyBool is_balanced)
    ("Difference: "
     +:+ format_2f (Float.abs (Float.sub total_debit total_credit)))
    PyNone.

Definition get_results : M TestResults := λ st, (Returned (results st), st).

Definition run_all_scenarios : M bool :=
  do! scenario_1_balanced_entry in
  do! scenario_2_unbalanced_entry in
  do! scenario_3_revenue_transaction in
  do! scenario_4_expense_transaction in
  do! scenario_5_cogs_transaction in
  do! cross_validation_trial_balance in
  let! r := get_results in
  do! lift (print_summary r) in
  let! r' := get_results in
  ret (bool_decide (failed r' = 0%nat)).

(** *** [main] *)

(** [open(results_file, 'w')]: creates or truncates the file. *)
Definition open_w : M unit :=
  λ st, if open_for_writing env (sys st) then set_results_file Empty st
        else (Raised OSError, st).

(** [[f(t) for t in l]] *)
Fixpoint list_comprehension {A B} (f : A → outcome B) (l : list A)
    : outcome (list B) :=
  match l with
  | [] => Returned []
  | t :: l' =>
      match f t with
      | Raised e => Raised e
      | Returned b =>
          match list_comprehension f l' with
          | Raised e => Raised e
          | Returned bs => Returned (b :: bs)
          end
      end
  end.

(** [json.dump(doc, f, ...)] *)
Definition json_dump (doc : list pyval) : M unit :=
  set_results_file (JsonText doc).

(** [main]; the [finally: conn.close()] has no effect on what follows. *)
Definition main : M bool :=
  do! connect_db in
  try_except is_Exception
    (let! logged_in :=
       login CONFIG.SUPER_ADMIN_EMAIL CONFIG.SUPER_ADMIN_PASSWORD in
     if negb logged_in then ret false
     else
       do! set_results TestResults_init in
       let! success := run_all_scenarios in
       do! open_w in
       let! r := get_results in
       let! doc := lift (list_comprehension dunder_dict (tests r)) in
       do! json_dump doc in
       ret success)
    (ret false).

(** The module body: [success = main(); sys.exit(0 if success else 1)].
    An exception that leaves [main] ends the process with its exit
    code, [1] for anything but [SystemExit]. *)
Definition exit_code (s : system env) : Z * hstate :=
  match main (initial_state s) with
  | (Returned success, st) => (if success then 0%Z else 1%Z, st)
  | (Raised (SystemExit code), st) => (code, st)
  | (Raised _, st) => (1%Z, st)
  end.

End Harness.

Arguments hstate : clear implicits.
Arguments M : clear implicits.

(** ** A reference ledger *)

(** Modelled from the spec: the ledger service behind [POST /auth/login],
    [POST /journals] and [POST /journals/{id}/post] and its tables; the
    backend is not part of the sources of the harness.  An entry is
    created as a draft with its lines and becomes posted by the post
    request.  The flags make the ledger misbehave in the ways the
    harness has to cope with. *)
Module Ledger.

Record state := {
  tables : database;
  next_id : Z;
  enforces_balance : bool;
  status_on_create : Z;
  accepts_connections : bool;
  answers_queries : bool
}.

Definition bearer : pyval := PyStr "token-of-super-admin".

Definition login_body : pyval :=
  PyDict {[ "data" := PyDict {[ "accessToken" := bearer;
                                "user" := PyDict {[ "id" := PyInt 1 ]} ]} ]}.

Definition created_body (id : Z) : pyval :=
  PyDict {[ "data" := PyDict {[ "id" := PyInt id ]} ]}.

Definition total (f : detail_line → Z) (e : entry_data) : Z :=
  foldr Z.add 0%Z (f <$> details e).

Definition balanced (e : entry_data) : bool :=
  bool_decide (total debit_amount e = total credit_amount e).

Definition detail_row (id : Z) (l : detail_line) : journal_entry_details_row :=
  {| jed_company_id := TEST_COMPANY_ID;
     jed_journal_entry_id := id;
     jed_account_id := account_id l;
     jed_debit_amount := Qc_of_Z (debit_amount l);
     jed_credit_amount := Qc_of_Z (credit_amount l) |}.

Definition with_tables (s : state) (t : database) (n : Z) : state :=
  {| tables := t; next_id := n;
     enforces_balance := enforces_balance s;
     status_on_create := status_on_create s;
     accepts_connections := accepts_connections s;
     answers_queries := answers_queries s |}.

Definition create (e : entry_data) (s : state) : http_reply * state :=
  if enforces_balance s && negb (balanced e) then (Response 400 None, s)
  else
    let id := next_id s in
    let t := tables s in
    (Response (status_on_create s) (Some (created_body id)),
     with_tables s
       {| chart_of_accounts := chart_of_accounts t;
          journal_entries :=
            journal_entries t
            ++ [{| je_id := id; je_company_id := TEST_COMPANY_ID;
                   je_status := "draft"; je_deleted_at := None |}];
          journal_entry_details :=
            journal_entry_details t ++ (detail_row id <$> details e) |}
       (id + 1)%Z).

Definition mark_posted (id : Z) (e : journal_entries_row) : journal_entries_row :=
  if bool_decide (je_id e = id) then
    {| je_id := je_id e; je_company_id := je_company_id e;
       je_status := "posted"; je_deleted_at := je_deleted_at e |}
  else e.

Definition post (id : pyval) (s : state) : http_reply * state :=
  match id with
  | PyInt z =>
      if bool_decide (z ∈ je_id <$> journal_entries (tables s)) then
        let t := tables s in
        (Response 200 None,
         with_tables s
           {| chart_of_accounts := chart_of_accounts t;
              journal_entries := mark_posted z <$> journal_entries t;
              journal_entry_details := journal_entry_details t |}
           (next_id s))
      else (Response 404 None, s)
  | _ => (Response 404 None, s)
  end.

Definition authorized (tok : pyval) : bool :=
  match tok with
  | PyStr t => bool_decide (t = "token-of-super-admin")
  | _ => false
  end.

Definition answer (r : request) (s : state) : http_reply * state :=
  match r with
  | LOGIN email password =>
      if bool_decide (email = CONFIG.SUPER_ADMIN_EMAIL)
         && bool_decide (password = CONFIG.SUPER_ADMIN_PASSWORD)
      then (Response 200 (Some login_body), s)
      else (Response 401 None, s)
  | CREATE tok e =>
      if authorized tok then create e s else (Response 401 None, s)
  | POST tok id =>
      if authorized tok then post id s else (Response 401 None, s)
  end.

Definition environment : Environment :=
  {| system := state;
     TEST_DATE := "2025-01-15";
     psycopg2_connect := accepts_connections;
     db_state := λ s, if answers_queries s then Some (tables s) else None;
     serve := answer;
     open_for_writing := λ _, true;
     datetime_now := λ _, "2025-01-15T09:00:00" |}.

Definition account (id : Z) (code : string) : chart_of_accounts_row :=
  {| coa_id := id; coa_account_code := code;
     coa_company_id := TEST_COMPANY_ID; coa_deleted_at := None |}.

Definition chart : list chart_of_accounts_row :=
  [ account 1 ACCOUNTS.CASH; account 2 ACCOUNTS.CAPITAL;
    account 3 ACCOUNTS.SALES_REVENUE; account 4 ACCOUNTS.SALARY_EXPENSE;
    account 5 ACCOUNTS.COGS ].

(** A new tenant on a well-behaved ledger. *)
Definition fresh : state :=
  {| tables := {| chart_of_accounts := chart; journal_entries := [];
                  journal_entry_details := [] |};
     next_id := 1;
     enforces_balance := true;
     status_on_create := 201;
     accepts_connections := true;
     answers_queries := true |}.

(** The same ledger without the balance check at creation. *)
Definition lenient : state :=
  {| tables := tables fresh; next_id := 1;
     enforces_balance := false;
     status_on_create := 201;
     accepts_connections := true;
     answers_queries := true |}.

(** A ledger that answers [202 Accepted] to a creation. *)
Definition accepting_202 : state :=
  {| tables := tables fresh; next_id := 1;
     enforces_balance := true;
     status_on_create := 202;
     accepts_connections := true;
     answers_queries := true |}.


(** The database refuses the connection. *)
Definition unreachable : state :=
  {| tables := tables fresh; next_id := 1;
     enforces_balance := true;
     status_on_create := 201;
     accepts_connections := false;
     answers_queries := false |}.

(** The tenant after an earlier run: a sale of 50000 is already posted. *)
Definition after_a_sale : state :=
  {| tables :=
       {| chart_of_accounts := chart;
          journal_entries :=
            [{| je_id := 1; je_company_id := TEST_COMPANY_ID;
                je_status := "posted"; je_deleted_at := None |}];
          journal_entry_details :=
            [ {| jed_company_id := TEST_COMPANY_ID; jed_journal_entry_id := 1;
                 jed_account_id := 1; jed_debit_amount := Qc_of_Z 50000;
                 jed_credit_amount := 0 |};
              {| jed_company_id := TEST_COMPANY_ID; jed_journal_entry_id := 1;
                 jed_account_id := 3; jed_debit_amount := 0;
                 jed_credit_amount := Qc_of_Z 50000 |} ] |};
     next_id := 2;
     enforces_balance := true;
     status_on_create := 201;
     accepts_connections := true;
     answers_queries := true |}.

(** The harness right after a successful login on [s]. *)
Definition logged_in (s : state) : hstate environment :=
  @Build_hstate environment s bearer (PyInt 1) TestResults_init [] 0%nat None.

(** The state in which [main] leaves the harness on the new tenant. *)
Definition first_run : hstate environment :=
  (main (initial_state (env := environment) fresh)).2.

(** The record scenario 3 appends on the tenant that already holds a
    posted sale. *)
Definition second_sale_record : test_record :=
  {| r_name := "Scenario 3: Revenue Transaction";
     r_passed := PyBool false;
     r_details := "Revenue Credit: 100,000.00";
     r_entry_id := PyInt 2;
     r_timestamp := "2025-01-15T09:00:00" |}.

End Ledger.

(** ** The properties of the specification, stated on the model *)

(** *** Trial balance *)

(** Line [l] of tenant [c] belongs to a posted, non-deleted journal
    entry of [c]. *)
Definition posted_line (db : database) (c : Z)
    (l : journal_entry_details_row) : Prop :=
  jed_company_id l = c
  ∧ Exists (λ e, je_id e = jed_journal_entry_id l
                 ∧ je_company_id e = c
                 ∧ je_status e = "posted"
                 ∧ je_deleted_at e = None)
           (journal_entries db).

#[global] Instance posted_line_dec db c l : Decision (posted_line db c l).
Proof. unfold posted_line. apply _. Defined.

(** The posted lines of account [a]. *)
Definition posted_lines (db : database) (c a : Z)
    : list journal_entry_details_row :=
  filter (λ l, jed_account_id l = a ∧ posted_line db c l)
         (journal_entry_details db).


(** The dict entry made of the lines [ls] of one account: the sums of
    the positive debit and credit amounts as floats, and the float of
    their [Decimal] difference. *)
Definition row_of_lines (ls : list journal_entry_details_row) : tb_row :=
  let d := sum_of (SQL.case_positive ∘ jed_debit_amount) ls in
  let k := sum_of (SQL.case_positive ∘ jed_credit_amount) ls in
  {| debit := Float.of_Q d; credit := Float.of_Q k;
     balance := Float.of_Q (decimal_sub d k) |}.

(** One posted entry with three lines: on account 7 a debit of 100 and
    a reversal of 30 entered as a negative debit, on account 8 a debit
    of [2 ^ 53 + 1], which is no binary64 number. *)
Definition db_with_reversal : database :=
  {| chart_of_accounts := [];
     journal_entries :=
       [{| je_id := 1; je_company_id := 1; je_status := "posted";
           je_deleted_at := None |}];
     journal_entry_details :=
       [ {| jed_company_id := 1; jed_journal_entry_id := 1;
            jed_account_id := 7; jed_debit_amount := Qc_of_Z 100;
            jed_credit_amount := 0 |};
         {| jed_company_id := 1; jed_journal_entry_id := 1;
            jed_account_id := 7; jed_debit_amount := Qc_of_Z (-30);
            jed_credit_amount := 0 |};
         {| jed_company_id := 1; jed_journal_entry_id := 1;
            jed_account_id := 8;
            jed_debit_amount := Qc_of_Z 9007199254740993;
            jed_credit_amount := 0 |} ] |}.

(** *** Submission *)

Definition is_2xx (code : Z) : Prop := (200 ≤ code < 300)%Z.

(** The id of a well-formed body [{data: {id: ...}}]. *)
Definition body_id (body : option pyval) : option pyval :=
  match body with
  | Some (PyDict d) =>
      match d !! "data" with
      | Some (PyDict dd) => dd !! "id"
      | _ => None
      end
  | _ => None
  end.

(** What [create_journal_entry] makes of an answer. *)
Definition created_id (reply : http_reply) : pyval :=
  match reply with
  | Response code body =>
      if bool_decide (code ∈ [200%Z; 201%Z])
      then default PyNone (body_id body) else PyNone
  | NoResponse => PyNone
  end.

(** [submitEntry] as the specification words it: the id comes back
    on every 2xx answer that carries one, [None] on every other status
    and when there is no answer. *)
Definition submit_as_stated {env} (entry : entry_data) (st : hstate env)
    : Prop :=
  match (serve env (CREATE (token st) entry) (sys st)).1 with
  | Response code body =>
      (is_2xx code → ∀ id, body_id body = Some id →
         (create_journal_entry entry st).1 = Returned id)
      ∧ (¬ is_2xx code →
         (create_journal_entry entry st).1 = Returned PyNone)
  | NoResponse => (create_journal_entry entry st).1 = Returned PyNone
  end.

(** *** Scenarios *)





Definition sale_entry (env : Environment) (cash revenue : Z) : entry_data :=
  {| entry_type := "journal";
     entry_date := TEST_DATE env;
     posting_date := TEST_DATE env;
     description := "Scenario 3: Sales Revenue";
     details :=
       [ {| account_id := cash; debit_amount := 50000; credit_amount := 0;
            line_description := "Cash received from sales" |};
         {| account_id := revenue; debit_amount := 0;
            credit_amount := 50000;
            line_description := "Revenue from sales" |} ] |}.

(** Account [code] resolves to the usable id [id] in state [st]. *)
Definition resolves {env} (st : hstate env) (code : string) (id : Z) : Prop :=
  ∃ db, db_state env (sys st) = Some db
        ∧ SQL.get_account_id db code TEST_COMPANY_ID = Some id
        ∧ id ≠ 0%Z.



(** The trial balance a query in [st] returns, empty when the query
    fails, and its row for account [a]. *)
Definition trial_balance_in {env} (st : hstate env) : trial_balance :=
  match db_state env (sys st) with
  | Some db => SQL.get_trial_balance db TEST_COMPANY_ID
  | None => []
  end.





(** The five scenarios in the order of [run_all_scenarios]. *)
Definition scenario_set {env} : list (M env (pyval * pyval)) :=
  [ scenario_1_balanced_entry; scenario_2_unbalanced_entry;
    scenario_3_revenue_transaction; scenario_4_expense_transaction;
    scenario_5_cogs_transaction ].

(** *** Tolerance *)

(** The predicate of the specification and its default epsilon. *)
Definition withinTolerance (a b epsilon : float) : bool :=
  Float.ltb (Float.abs (Float.sub a b)) epsilon.

Definition DEFAULT_EPSILON : float := Float.of_Q (1 # 100).

(** The two shapes of comparison, through the predicate: global debit
    against global credit, and one field of one row against an amount
    (no row, no verdict). *)
Definition totals_within (tb : trial_balance) (epsilon : float) : pyval :=
  PyBool (withinTolerance (sum_values debit tb) (sum_values credit tb) epsilon).





(** *** What a creation may do to the tables *)

(** [db'] is [db] with new entries, none of them posted, and new lines,
    none of them a line of an entry that was there before. *)
Definition adds_unposted (db db' : database) : Prop :=
  ∃ es ls,
    journal_entries db' = journal_entries db ++ es
    ∧ journal_entry_details db' = journal_entry_details db ++ ls
    ∧ Forall (λ e, je_status e ≠ "posted") es
    ∧ Forall (λ l, jed_journal_entry_id l
                   ∉ je_id <$> journal_entries db) ls.

Definition is_post_request (r : request) : Prop :=
  match r with POST _ _ => True | _ => False end.

(** A creation request received by the system in state [s] leaves the
    posted entries alone: whenever the tables can be read before and
    after, they are unchanged or extended with unposted material. *)
Definition creation_leaves_posted (env : Environment) (s : system env)
    : Prop :=
  ∀ tok e db db',
    db_state env s = Some db →
    db_state env (serve env (CREATE tok e) s).2 = Some db' →
    db' = db ∨ adds_unposted db db'.

(** *** Scenario boundaries *)

(** What a run of a scenario started in [st] may end in: it returns
    after appending exactly one record, whose outcome it returns; or a
    query of the database failed, and the error leaves the scenario
    with nothing recorded.  The result file is not touched. *)
Definition scenario_result {env} (st : hstate env)
    (res : outcome (pyval * pyval) * hstate env) : Prop :=
  match res with
  | (Returned r, st') =>
      ∃ t, tests (results st') = tests (results st) ++ [t]
           ∧ r_passed t = r.1
           ∧ (passed (results st') + failed (results st')
              = S (passed (results st) + failed (results st)))%nat
           ∧ results_file st' = results_file st
  | (Raised e, st') =>
      e = Psycopg2Error
      ∧ results st' = results st
      ∧ db_state env (sys st') = None
      ∧ results_file st' = results_file st
  end.











(** ** More of the harness *)

(** *** Reports *)

(** The two report requests of [APIClient], sent with [requests.get];
    the bearer token travels with both. *)
Inductive report_request : Type :=
  | INCOME_STATEMENT (bearer : pyval) (from_date to_date : string)
  | BALANCE_SHEET (bearer : pyval).

Section Reports.

Context {env : Environment}.

(** How the system answers a report request. *)
Variable serve_report : report_request → system env → http_reply * system env.

Local Notation "'let!' x ':=' m 'in' k" := (bind m (λ x, k))
  (at level 10, x name, m at level 100, k at level 200).

(** [requests.get(...)] *)
Definition requests_get (r : report_request) : M env (Z * option pyval) :=
  λ st,
    let st' := {| sys := (serve_report r (sys st)).2; token := token st;
                  user_id := user_id st; results := results st;
                  sent := sent st; clock := clock st;
                  results_file := results_file st |} in
    match (serve_report r (sys st)).1 with
    | Response code body => (Returned (code, body), st')
    | NoResponse => (Raised RequestException, st')
    end.

Definition get_income_statement (from_date to_date : string) : M env pyval :=
  try_except is_Exception
    (let! tok := get_token in
     let! response := requests_get (INCOME_STATEMENT tok from_date to_date) in
     if bool_decide (response.1 = 200%Z) then
       let! data := response_json response in
       lift (py_get data "data" PyNone)
     else ret PyNone)
    (ret PyNone).

Definition get_balance_sheet : M env pyval :=
  try_except is_Exception
    (let! tok := get_token in
     let! response := requests_get (BALANCE_SHEET tok) in
     if bool_decide (response.1 = 200%Z) then
       let! data := response_json response in
       lift (py_get data "data" PyNone)
     else ret PyNone)
    (ret PyNone).

End Reports.

(** *** Statements about the recorder *)

(** The log with one more record, as [add_test] leaves it. *)
Definition logged (r : TestResults) (t : test_record) : TestResults :=
  {| tests := tests r ++ [t];
     passed := if truthy (r_passed t) then S (passed r) else passed r;
     failed := if truthy (r_passed t) then failed r else S (failed r) |}.

(** The counters agree with the log. *)
Definition counted (r : TestResults) : Prop :=
  passed r = length (filter (λ t, truthy (r_passed t) = true) (tests r))
  ∧ failed r = length (filter (λ t, truthy (r_passed t) = false) (tests r)).

Definition is_test_line (l : report_line) : Prop :=
  match l with Line_test _ _ => True | _ => False end.

#[global] Instance is_test_line_dec l : Decision (is_test_line l).
Proof. destruct l; apply _. Defined.

(** The names under which [run_all_scenarios] records its six checks. *)
Definition check_names : list string :=
  [ "Scenario 1: Basic Balanced Entry";
    "Scenario 2: Unbalanced Entry Rejection";
    "Scenario 3: Revenue Transaction";
    "Scenario 4: Expense Transaction";
    "Scenario 5: COGS Transaction";
    "Cross-Validation: TB = GL" ].

(** *** Statements about the client and the scenarios *)

(** The [data] object of a login body, [{}] when there is none. *)
Definition login_data (d : gmap string pyval) : pyval :=
  default (PyDict ∅) (d !! "data").

(** What a run of a scenario may add to the requests sent before [st]:
    nothing; one creation; or one creation followed by the posting of
    the id which that creation returned, a truthy one.  Every request
    carries the token of [st]. *)
Definition orderly_requests {env} (st : hstate env) (new : list request)
    : Prop :=
  match new with
  | [] => True
  | CREATE tok e :: [] => tok = token st
  | CREATE tok e :: POST tok' id :: [] =>
      tok = token st ∧ tok' = token st
      ∧ id = created_id (serve env (CREATE tok e) (sys st)).1
      ∧ truthy id = true
  | _ => False
  end.

(** Each scenario with the account it needs besides cash. *)
Definition scenario_accounts {env} : list (M env (pyval * pyval) * string) :=
  [ (scenario_1_balanced_entry, ACCOUNTS.CAPITAL);
    (scenario_2_unbalanced_entry, ACCOUNTS.CAPITAL);
    (scenario_3_revenue_transaction, ACCOUNTS.SALES_REVENUE);
    (scenario_4_expense_transaction, ACCOUNTS.SALARY_EXPENSE);
    (scenario_5_cogs_transaction, ACCOUNTS.COGS) ].

(** *** More systems to run against *)

(** A system without state: the database is reachable and holds [db],
    and every request gets the answer [reply]. *)
Definition constant_service (db : database) (reply : http_reply)
    : Environment :=
  {| system := unit;
     TEST_DATE := "2025-01-15";
     psycopg2_connect := λ _, true;
     db_state := λ _, Some db;
     serve := λ _ s, (reply, s);
     open_for_writing := λ _, true;
     datetime_now := λ _, "2025-01-15T09:00:00" |}.

(** The tables of [Ledger.after_a_sale] beside a posted entry of
    another company on the same accounts. *)
Definition tables_with_other_tenant : database :=
  let t := Ledger.tables Ledger.after_a_sale in
  {| chart_of_accounts := chart_of_accounts t;
     journal_entries :=
       journal_entries t
       ++ [{| je_id := 9; je_company_id := 2; je_status := "posted";
              je_deleted_at := None |}];
     journal_entry_details :=
       {| jed_company_id := 2; jed_journal_entry_id := 9;
          jed_account_id := 3; jed_debit_amount := 0;
          jed_credit_amount := Qc_of_Z 700 |}
       :: journal_entry_details t |}.

(** Tables without a single row, and a service beside them that refuses
    every request. *)
Definition empty_tables : database :=
  {| chart_of_accounts := []; journal_entries := [];
     journal_entry_details := [] |}.

Definition refusing_service : Environment :=
  constant_service empty_tables (Response 401 None).

(** The tables with one more detail line. *)
Definition with_line (db : database) (l : journal_entry_details_row)
    : database :=
  {| chart_of_accounts := chart_of_accounts db;
     journal_entries := journal_entries db;
     journal_entry_details := journal_entry_details db ++ [l] |}.

(** The scenarios that post the entry they create. *)
Definition posting_scenarios {env} : list (M env (pyval * pyval)) :=
  [ scenario_1_balanced_entry; scenario_3_revenue_transaction;
    scenario_4_expense_transaction; scenario_5_cogs_transaction ].


(** ** The translation tools *)

(** [merge_translations.py] and [check_arabic_translation.py] work on
    the documents that [json.load] returns.  Their dicts are kept as
    the list of their items in insertion order, because [flatten_dict]
    and [unflatten_dict] depend on that order; the keys of a dict are
    pairwise distinct, which is a hypothesis where a statement needs it.
    A string stands for its UTF-8 bytes. *)
Module Translations.

#[warnings="-register-all"]
Inductive json : Type :=
  | JNull
  | JBool (b : bool)
  | JInt (z : Z)
  | JFloat (q : Qc)
  | JStr (s : string)
  | JList (items : list json)
  | JDict (members : list (string * json)).

Definition dict : Type := list (string * json).

(** [isinstance(v, dict)] *)
Definition is_dict (v : json) : bool :=
  match v with JDict _ => true | _ => false end.

Definition keys (d : dict) : list string := fst <$> d.

(** [d.get(key)]; [key in d] is [is_Some] of it. *)
Fixpoint dict_get (d : dict) (key : string) : option json :=
  match d with
  | [] => None
  | (k, v) :: d' => if decide (k = key) then Some v else dict_get d' key
  end.

(** [d[key] = value]: a key that is present keeps its place, a new one
    goes to the end. *)
Fixpoint dict_set (d : dict) (key : string) (value : json) : dict :=
  match d with
  | [] => [(key, value)]%list
  | (k, v) :: d' =>
      if decide (k = key) then (k, value) :: d'
      else (k, v) :: dict_set d' key value
  end.

(** [dict(items)] *)
Definition dict_of_items (items : list (string * json)) : dict :=
  foldl (λ d '(k, v), dict_set d k v) [] items.

(** The two exceptions these functions can raise. *)
Inductive error : Type := TypeError | ValueError.

Inductive py (A : Type) : Type :=
  | Value (a : A)
  | Error (e : error).
Arguments Value {A} a.
Arguments Error {A} e.

Definition py_bind {A B} (m : py A) (k : A → py B) : py B :=
  match m with Value a => k a | Error e => Error e end.

(** *** [merge_translations.deep_merge] *)

(** The loop of [deep_merge] over the items of [updates], started from
    the copy of [base].  The recursion is on the value that holds the
    items, so that the nested call is on one of its parts. *)
Fixpoint deep_merge_items (base : dict) (updates : json) : dict :=
  match updates with
  | JDict items =>
      foldl (λ result '(key, value),
               match dict_get result key, value with
               | Some (JDict r), JDict _ =>
                   dict_set result key (JDict (deep_merge_items r value))
               | _, _ => dict_set result key value
               end)
            base items
  | _ => base
  end.

Definition deep_merge (base updates : dict) : dict :=
  deep_merge_items base (JDict updates).

(** *** [check_arabic_translation.flatten_dict] *)

(** [f"{parent_key}{sep}{k}" if parent_key else k] *)
Definition new_key (parent_key sep k : string) : string :=
  if decide (parent_key = "") then k else parent_key +:+ sep +:+ k.

Fixpoint flatten_items (d : json) (parent_key sep : string) : dict :=
  match d with
  | JDict members =>
      dict_of_items
        (flat_map (λ '(k, v),
                     match v with
                     | JDict _ => flatten_items v (new_key parent_key sep k) sep
                     | _ => [(new_key parent_key sep k, v)]%list
                     end)
                  members)
  | _ => []
  end.

Definition flatten_dict (d : dict) (parent_key sep : string) : dict :=
  flatten_items (JDict d) parent_key sep.

(** *** [check_arabic_translation.unflatten_dict] *)

(** [s.split(sep)] for a [sep] that is not empty, scanning [s] from the
    left: [skip] counts the characters of a separator just found that
    are still to be passed over. *)
Fixpoint split_from (sep s : string) (skip : nat) : list string :=
  match s with
  | "" => [""]%list
  | String a s' =>
      match skip with
      | S n => split_from sep s' n
      | O =>
          if String.prefix sep s
          then "" :: split_from sep s' (String.length sep - 1)
          else match split_from sep s' 0 with
               | w :: ws => String a w :: ws
               | [] => [String a ""]%list
               end
      end
  end.

(** [s.split(sep)]; the empty separator is refused. *)
Definition str_split (s sep : string) : py (list string) :=
  if decide (sep = "") then Error ValueError
  else Value (split_from sep s 0).

(** The walk of [unflatten_dict] along [parts[:-1]] and the assignment
    [current[parts[-1]] = value] at its end.  [current] is the dict
    that the walk has reached inside [result], not a copy of it, so the
    assignment changes [result] at that place: the function returns
    [current] after the change and each level stores it back under the
    part it was reached by.  A member that is missing is first set to
    [{}].  A member that is no dict stops the walk with [TypeError]:
    [None], a bool and a number support neither [in] nor item
    assignment, a str and a list take no str as index. *)
Fixpoint assign_at (current : dict) (parts : list string) (last : string)
    (value : json) : py dict :=
  match parts with
  | [] => Value (dict_set current last value)
  | part :: parts' =>
      match default (JDict []) (dict_get current part) with
      | JDict inner =>
          py_bind (assign_at inner parts' last value)
                  (λ inner', Value (dict_set current part (JDict inner')))
      | _ => Error TypeError
      end
  end.

Definition unflatten_dict (d : dict) (sep : string) : py dict :=
  foldl (λ result '(key, value),
           py_bind result (λ result,
           py_bind (str_split key sep) (λ parts,
           assign_at result (removelast parts) (List.last parts "") value)))
        (Value []) d.

End Translations.

(** *** Statements about the translation tools *)

Module TranslationProps.
Import Translations.

(** What [deep_merge] stores under a key of [updates]: the merge of the
    two values when both are dicts, the new value otherwise. *)
Definition merged_value (old : option json) (value : json) : json :=
  match old, value with
  | Some (JDict r), JDict u => JDict (deep_merge r u)
  | _, _ => value
  end.

(** The keys of a dict are pairwise distinct, and so are those of the
    dicts among its values, at every depth.  Lists are not looked
    into. *)
Fixpoint unique_keys (v : json) : Prop :=
  match v with
  | JDict members =>
      NoDup (keys members)
      ∧ foldr (λ '(_, v') rest, unique_keys v' ∧ rest) True members
  | _ => True
  end.

(** The value reached from [v] by a path of keys. *)
Fixpoint get_path (v : json) (path : list string) : option json :=
  match path with
  | [] => Some v
  | k :: path' =>
      match v with
      | JDict d =>
          match dict_get d k with
          | Some v' => get_path v' path'
          | None => None
          end
      | _ => None
      end
  end.

(** No ['.'] occurs in [s]. *)
Fixpoint contains_char (c : ascii) (s : string) : bool :=
  match s with
  | "" => false
  | String a s' => if decide (c = a) then true else contains_char c s'
  end.

Definition dot_free (s : string) : Prop := contains_char "." s = false.

(** The documents that survive flattening with ['.']: in every dict,
    at every depth, the keys are pairwise distinct and free of ['.'],
    and no value is the empty dict. *)
Fixpoint nests_cleanly (v : json) : Prop :=
  match v with
  | JDict members =>
      NoDup (keys members)
      ∧ foldr (λ '(k, v') rest,
                 dot_free k ∧ v' ≠ JDict [] ∧ nests_cleanly v' ∧ rest)
              True members
  | _ => True
  end.

(** One turn of the loop of [flatten_dict]: the items that one member
    contributes. *)
Definition flatten_member (parent_key sep : string) (kv : string * json)
    : dict :=
  match kv.2 with
  | JDict d => flatten_dict d (new_key parent_key sep kv.1) sep
  | _ => [(new_key parent_key sep kv.1, kv.2)]%list
  end.

(** One turn of the loop of [unflatten_dict]. *)
Definition unflatten_step (sep : string) (result : py dict)
    (kv : string * json) : py dict :=
  py_bind result (λ result,
  py_bind (str_split kv.1 sep) (λ parts,
  assign_at result (removelast parts) (List.last parts "") kv.2)).

(** The walk of [assign_at] with any change [f] of the dict reached at
    its end. *)
Fixpoint update_at (path : list string) (f : dict → py dict)
    (current : dict) : py dict :=
  match path with
  | [] => f current
  | part :: path' =>
      match default (JDict []) (dict_get current part) with
      | JDict inner =>
          py_bind (update_at path' f inner)
                  (λ inner', Value (dict_set current part (JDict inner')))
      | _ => Error TypeError
      end
  end.

(** The dict that the walk along [path] reaches, a missing member
    counting as [{}]. *)
Fixpoint dict_at (current : dict) (path : list string) : option dict :=
  match path with
  | [] => Some current
  | part :: path' =>
      match default (JDict []) (dict_get current part) with
      | JDict inner => dict_at inner path'
      | _ => None
      end
  end.

(** The condition on the parent key: it is empty at the top only. *)
Definition below_top (p : list string) (members : dict) : Prop :=
  (p ≠ [] → String.concat "." p ≠ "")
  ∧ (p = [] → Forall (λ kv, is_dict kv.2 = true → kv.1 ≠ "") members).

(** What the loop of [unflatten_dict] does with the items of a
    flattened dict [v] that lies at the path [p]: it appends the
    members of [v] to the dict it finds at [p], provided their keys are
    new there. *)
Definition grafts (v : json) : Prop :=
  match v with
  | JDict d =>
      d ≠ [] →
      ∀ p result,
        Forall dot_free p → below_top p d →
        (∀ c, dict_at result p = Some c → ∀ k, k ∈ keys d → k ∉ keys c) →
        foldl (unflatten_step ".") (Value result)
              (flatten_dict d (String.concat "." p) ".")
        = update_at p (λ c, Value (c ++ d)) result
  | _ => True
  end.

(** Induction on a document along the nesting of its dicts. *)
Fixpoint json_dict_ind (P : json → Prop)
    (Hleaf : ∀ v, is_dict v = false → P v)
    (Hdict : ∀ d, Forall (λ kv, P kv.2) d → P (JDict d))
    (v : json) : P v :=
  match v with
  | JDict d =>
      Hdict d ((fix members (d : dict) : Forall (λ kv, P kv.2) d :=
                  match d with
                  | [] => Forall_nil_2 _
                  | kv :: d' =>
                      Forall_cons_2 _ _ _
                        (json_dict_ind P Hleaf Hdict kv.2) (members d')
                  end) d)
  | JNull => Hleaf JNull eq_refl
  | JBool b => Hleaf (JBool b) eq_refl
  | JInt z => Hleaf (JInt z) eq_refl
  | JFloat q => Hleaf (JFloat q) eq_refl
  | JStr s => Hleaf (JStr s) eq_refl
  | JList l => Hleaf (JList l) eq_refl
  end.

End TranslationProps.

(** ** Proofs *)

(** *** The trial-balance query *)

Lemma row_for_cons (tb : list (Z * tb_row)) (item : Z * tb_row) a :
  row_for (item :: tb) a
  = if decide (item.1 = a) then Some item.2 else row_for tb a.
Proof.
  unfold row_for. rewrite filter_cons. by destruct (decide (item.1 = a)).
Qed.

Lemma row_for_fmap (f : Z → tb_row) (l : list Z) a :
  row_for ((λ x, (x, f x)) <$> l) a
  = if decide (a ∈ l) then Some (f a) else None.
Proof.
  induction l as [|x l IH]; [done|].
  rewrite fmap_cons, row_for_cons, IH. cbn [fst snd]. clear IH.
  destruct (decide (x = a)) as [->|Hne].
  - destruct (decide (a ∈ a :: l)) as [|[]]; [done|left].
  - destruct (decide (a ∈ l)), (decide (a ∈ x :: l)) as [Hin|Hout];
      try done.
    + destruct Hout. by right.
    + apply elem_of_cons in Hin as [?|?]; congruence.
Qed.

Lemma elem_of_accounts (rows : list journal_entry_details_row) a :
  a ∈ jed_account_id <$> rows
  ↔ filter (λ l, jed_account_id l = a) rows ≠ [].
Proof.
  rewrite list_elem_of_fmap. split.
  - intros (l & -> & Hl) Hnil.
    assert (l ∈ filter (λ l', jed_account_id l' = jed_account_id l) rows) as Hin
      by (by apply list_elem_of_filter).
    rewrite Hnil in Hin. by apply not_elem_of_nil in Hin.
  - intros Hne. destruct (filter _ rows) as [|l ls] eqn:Hf; [done|].
    assert (l ∈ filter (λ l', jed_account_id l' = a) rows) as Hin
      by (rewrite Hf; left).
    apply list_elem_of_filter in Hin as [? ?]. by exists l.
Qed.

Lemma posted_entry_ids_spec db c id :
  id ∈ SQL.posted_entry_ids db c
  ↔ Exists (λ e, je_id e = id ∧ je_company_id e = c
                 ∧ je_status e = "posted" ∧ je_deleted_at e = None)
           (journal_entries db).
Proof.
  unfold SQL.posted_entry_ids.
  rewrite list_elem_of_fmap, Exists_exists. split.
  - intros (e & -> & He). apply list_elem_of_filter in He as [? ?]. eauto.
  - intros (e & He & <- & ?). exists e. split; [done|].
    apply list_elem_of_filter. done.
Qed.

Lemma selected_details_of_account db c a :
  filter (λ l, jed_account_id l = a) (SQL.selected_details db c)
  = posted_lines db c a.
Proof.
  unfold SQL.selected_details, posted_lines, posted_line.
  rewrite list_filter_filter. apply list_filter_iff. intros l.
  rewrite posted_entry_ids_spec. done.
Qed.

Lemma row_for_get_trial_balance db c a :
  row_for (SQL.get_trial_balance db c) a
  = match posted_lines db c a with
    | [] => None
    | ls => Some (row_of_lines ls)
    end.
Proof.
  unfold SQL.get_trial_balance, SQL.group_by_account.
  rewrite <- list_fmap_compose.
  change (SQL.row_entry ∘ _)
    with (λ a, (a, row_of_lines
                     (filter (λ l, jed_account_id l = a)
                             (SQL.selected_details db c)))).
  rewrite (row_for_fmap
             (λ a, row_of_lines
                     (filter (λ l, jed_account_id l = a)
                             (SQL.selected_details db c)))).
  rewrite <- selected_details_of_account.
  destruct (decide (a ∈ _)) as [Hin|Hout].
  - apply elem_of_remove_dups, elem_of_accounts in Hin.
    by destruct (filter _ _).
  - rewrite elem_of_remove_dups, elem_of_accounts in Hout.
    destruct (filter _ _); [done|]. by destruct Hout.
Qed.


Lemma case_positive_nonneg x : 0 ≤ x → SQL.case_positive x = x.
Proof.
  intros Hx. unfold SQL.case_positive. case_bool_decide as Hp; [done|].
  apply Qcle_lt_or_eq in Hx as [?|?]; done.
Qed.


(** The second divergence of the same database: the debit of account 8
    is [2 ^ 53 + 1] in the table and [2 ^ 53] in the dict. *)
Example trial_balance_rounds_to_float :
  sum_of jed_debit_amount (posted_lines db_with_reversal 1 8)
  = Qc_of_Z 9007199254740993
  ∧ debit <$> row_for (SQL.get_trial_balance db_with_reversal 1) 8
    = Some (Float.of_Z 9007199254740992).
Proof.
  split; [|vm_compute; reflexivity].
  apply Qc_is_canon. vm_compute. reflexivity.
Qed.



(** *** Formatting *)

Example format_2f_thousands :
  format_2f (Float.of_Z 100000) = "100,000.00".
Proof. vm_compute. reflexivity. Qed.

Example format_2f_rounds :
  format_2f (Float.of_Q (1234567891 # 1000)) = "1,234,567.89".
Proof. vm_compute. reflexivity. Qed.

Example format_2f_negative :
  format_2f (Float.of_Q (-123456 # 100)) = "-1,234.56".
Proof. vm_compute. reflexivity. Qed.

(** The float nearest to 2.675 lies below it, and is printed so. *)
Example format_2f_binary : format_2f (Float.of_Q (2675 # 1000)) = "2.67".
Proof. vm_compute. reflexivity. Qed.

(** *** The summary *)

(** C10: when no result has been recorded, [print_summary] raises
    [ZeroDivisionError]: the success rate divides by the total. *)
Theorem print_summary_empty_log (r : TestResults) :
  (passed r + failed r = 0)%nat →
  print_summary r = Raised ZeroDivisionError.
Proof.
  intros H. unfold print_summary, success_rate. rewrite H. reflexivity.
Qed.

Lemma print_summary_empty_log_witness :
  (passed TestResults_init + failed TestResults_init = 0)%nat
  ∧ print_summary TestResults_init = Raised ZeroDivisionError.
Proof.
  split; [reflexivity|].
  apply (print_summary_empty_log TestResults_init). reflexivity.
Defined.

(** *** The API client *)

Section Client.
Context {env : Environment}.
Implicit Types st : hstate env.

Lemma create_journal_entry_eq entry st :
  create_journal_entry entry st
  = (Returned (created_id (serve env (CREATE (token st) entry) (sys st)).1),
     after_request (CREATE (token st) entry) st).
Proof.
  unfold create_journal_entry, try_except, bind, get_token, requests_post,
    created_id.
  destruct (serve env _ _).1 as [code body|]; [|done].
  cbn. case_bool_decide; [|done].
  unfold response_json, body_id. cbn.
  destruct body as [[]|]; try done.
  cbn. unfold lift, py_get. cbn.
  destruct (d !! "data") as [[]|]; done.
Qed.

Lemma post_journal_entry_eq id st :
  post_journal_entry id st
  = (Returned match (serve env (POST (token st) id) (sys st)).1 with
              | Response code _ => bool_decide (code = 200%Z)
              | NoResponse => false
              end,
     after_request (POST (token st) id) st).
Proof.
  unfold post_journal_entry, try_except, bind, get_token, requests_post.
  destruct (serve env _ _).1 as [code body|]; done.
Qed.

End Client.

(** C5 (as stated): a ledger that answers [202 Accepted] with the new id
    in a well-formed body gets [None] from [create_journal_entry]. *)
Lemma create_journal_entry_drops_202 :
  ¬ submit_as_stated (sale_entry Ledger.environment 1 3)
      (Ledger.logged_in Ledger.accepting_202).
Proof.
  unfold submit_as_stated. rewrite create_journal_entry_eq.
  assert ((serve Ledger.environment
             (CREATE (token (Ledger.logged_in Ledger.accepting_202))
                     (sale_entry Ledger.environment 1 3))
             (sys (Ledger.logged_in Ledger.accepting_202))).1
          = Response 202 (Some (Ledger.created_body 1))) as ->
    by (vm_compute; reflexivity).
  intros [H _].
  assert (is_2xx 202) as H2 by (unfold is_2xx; lia).
  specialize (H H2 (PyInt 1) eq_refl). vm_compute in H. discriminate.
Qed.

(** C5 (amended): [create_journal_entry] never raises.  When the answer
    has status 200 or 201 it returns the identifier of the body if the
    body is well formed and contains one, and [None] if not; for every
    other status, the other 2xx included, and when there is no answer
    at all, it returns [None]. *)
Theorem create_journal_entry_returns {env} entry (st : hstate env) :
  ∃ v st',
    create_journal_entry entry st = (Returned v, st')
    ∧ match (serve env (CREATE (token st) entry) (sys st)).1 with
      | Response code body =>
          if bool_decide (code = 200%Z ∨ code = 201%Z)
          then v = default PyNone (body_id body)
          else v = PyNone
      | NoResponse => v = PyNone
      end.
Proof.
  eexists _, _. split; [apply create_journal_entry_eq|].
  unfold created_id. destruct (serve env _ _).1 as [code body|]; [|done].
  rewrite (bool_decide_ext (code ∈ [200%Z; 201%Z])
             (code = 200%Z ∨ code = 201%Z)).
  - by case_bool_decide.
  - rewrite !elem_of_cons, elem_of_nil. tauto.
Qed.

(** *** The scenarios *)

Section Scenarios.
Context {env : Environment}.
Implicit Types st : hstate env.

Lemma get_account_id_eq code c st :
  get_account_id code c st
  = match db_state env (sys st) with
    | Some db => (Returned (SQL.get_account_id db code c), st)
    | None => (Raised Psycopg2Error, st)
    end.
Proof. reflexivity. Qed.

Lemma get_trial_balance_eq c st :
  get_trial_balance c st
  = match db_state env (sys st) with
    | Some db => (Returned (SQL.get_trial_balance db c), st)
    | None => (Raised Psycopg2Error, st)
    end.
Proof. reflexivity. Qed.

(** [add_test] returns, appends one record stamped with the current
    time, counts it, and touches nothing else. *)
Lemma add_test_spec name p d id st :
  ∃ st',
    add_test name p d id st = (Returned tt, st')
    ∧ tests (results st')
      = tests (results st)
        ++ [{| r_name := name; r_passed := p; r_details := d;
               r_entry_id := id;
               r_timestamp := datetime_now env (clock st) |}]
    ∧ (passed (results st') + failed (results st')
       = S (passed (results st) + failed (results st)))%nat
    ∧ sys st' = sys st ∧ sent st' = sent st ∧ token st' = token st
    ∧ results_file st' = results_file st.
Proof.
  eexists. split; [reflexivity|]. cbn.
  repeat split. destruct (truthy p); lia.
Qed.

Lemma found_the id : found id = true → id = Some (the id) ∧ the id ≠ 0%Z.
Proof.
  destruct id as [z|]; [|done]. cbn. intros H%negb_true_iff.
  split; [done|]. by apply Z.eqb_neq.
Qed.


End Scenarios.
(** Symbolic execution of the harness: one step at the head of the
    goal. *)
Ltac query :=
  first [rewrite get_account_id_eq | rewrite get_trial_balance_eq];
  first
    [ match goal with
      | H : db_state _ ?s = _ |- context [db_state _ ?s] => rewrite H
      end
    | match goal with
      | |- context [match db_state ?e ?s with _ => _ end] =>
          let db := fresh "db" in
          let Hdb := fresh "Hdb" in
          destruct (db_state e s) as [db|] eqn:Hdb
      end ];
  cbn beta iota.

Ltac record :=
  match goal with
  | |- context [add_test ?n ?p ?d ?i ?s] =>
      let st := fresh "st" in
      let Ht := fresh "Htests" in
      let Hn := fresh "Hcount" in
      let Hs := fresh "Hsys" in
      let Hq := fresh "Hsent" in
      let Hk := fresh "Htoken" in
      let Hf := fresh "Hfile" in
      destruct (add_test_spec n p d i s)
        as (st & -> & Ht & Hn & Hs & Hq & Hk & Hf)
  end;
  cbn beta iota.

Section Scenario2.
Context {env : Environment}.
Implicit Types st : hstate env.



End Scenario2.
Ltac request :=
  first [rewrite create_journal_entry_eq | rewrite post_journal_entry_eq];
  cbn beta iota.

Ltac branch :=
  match goal with
  | |- context [if ?b then _ else _] => destruct b eqn:?
  end;
  cbn beta iota.

Ltac reduce := progress cbn beta iota delta [ret lift].

Ltac exec := repeat first [reduce | query | request | record | branch].

Ltac close_result :=
  cbn;
  first [ by repeat split
        | eexists; repeat split; [eassumption|reflexivity|assumption|assumption] ].

Section Boundaries.
Context {env : Environment}.
Implicit Types st : hstate env.

Lemma scenario_1_result st :
  scenario_result st (scenario_1_balanced_entry st).
Proof. unfold scenario_1_balanced_entry, bind. exec; close_result. Qed.

Lemma scenario_2_result st :
  scenario_result st (scenario_2_unbalanced_entry st).
Proof. unfold scenario_2_unbalanced_entry, bind. exec; close_result. Qed.

Lemma scenario_3_result st :
  scenario_result st (scenario_3_revenue_transaction st).
Proof.
  unfold scenario_3_revenue_transaction, not_created_or_not_posted, bind.
  exec; close_result.
Qed.

Lemma scenario_4_result st :
  scenario_result st (scenario_4_expense_transaction st).
Proof.
  unfold scenario_4_expense_transaction, not_created_or_not_posted, bind.
  exec; close_result.
Qed.

Lemma scenario_5_result st :
  scenario_result st (scenario_5_cogs_transaction st).
Proof.
  unfold scenario_5_cogs_transaction, not_created_or_not_posted, bind.
  exec; close_result.
Qed.


Lemma cross_validation_result st :
  match cross_validation_trial_balance st with
  | (Returned _, st') =>
      ∃ t, tests (results st') = tests (results st) ++ [t]
           ∧ (passed (results st') + failed (results st')
              = S (passed (results st) + failed (results st)))%nat
           ∧ results_file st' = results_file st
  | (Raised e, st') =>
      e = Psycopg2Error ∧ results st' = results st
      ∧ db_state env (sys st') = None
      ∧ results_file st' = results_file st
  end.
Proof.
  unfold cross_validation_trial_balance, bind. exec.
  - eexists. repeat split; [eassumption|assumption|assumption].
  - by repeat split.
Qed.

End Boundaries.

(** *** The whole run *)

Section Run.
Context {env : Environment}.
Implicit Types st : hstate env.

Lemma print_summary_returns (r : TestResults) :
  (passed r + failed r ≠ 0)%nat → ∃ lines, print_summary r = Returned lines.
Proof.
  intros H. unfold print_summary, success_rate.
  rewrite bool_decide_eq_false_2 by done. eauto.
Qed.

Ltac scenario lem :=
  match goal with
  | |- context [match ?s ?st with _ => _ end] =>
      let H := fresh "H" in
      let t := fresh "t" in
      pose proof (lem st) as H;
      destruct (s st) as [[?|?] ?]; cbn in H; cbn beta iota;
      [destruct H as (t & ? & _ & ? & ?)
      |destruct H as (-> & _ & ? & ?); repeat split; congruence]
  end.

(** A run of all scenarios that returns has recorded the six checks, in
    order; it can only be cut short by a failing query. *)
Lemma run_all_scenarios_result st :
  match run_all_scenarios st with
  | (Returned ok, st') =>
      (∃ new, length new = 6%nat
              ∧ tests (results st') = tests (results st) ++ new)
      ∧ ok = bool_decide (failed (results st') = 0%nat)
      ∧ results_file st' = results_file st
  | (Raised e, st') =>
      e = Psycopg2Error ∧ db_state env (sys st') = None
      ∧ results_file st' = results_file st
  end.
Proof.
  unfold run_all_scenarios, bind.
  scenario (@scenario_1_result env). scenario (@scenario_2_result env).
  scenario (@scenario_3_result env). scenario (@scenario_4_result env).
  scenario (@scenario_5_result env).
  match goal with
  | |- context [cross_validation_trial_balance ?st] =>
      pose proof (cross_validation_result st) as Hcv;
      destruct (cross_validation_trial_balance st) as [[?|?] st6];
      cbn beta iota;
      [destruct Hcv as (t4 & ? & ? & ?)
      |destruct Hcv as (-> & _ & ? & ?); repeat split; congruence]
  end.
  unfold get_results, lift.
  destruct (print_summary_returns (results st6)) as [lines ->]; [lia|].
  cbn. split; [|split; [done|congruence]].
  exists [t; t0; t1; t2; t3; t4]. split; [done|].
  repeat match goal with
         | H : tests _ = _ ++ [_] |- _ => rewrite H; clear H
         end.
  by rewrite <- !app_assoc.
Qed.

Lemma login_returns email password st :
  ∃ ok st', login email password st = (Returned ok, st')
            ∧ results_file st' = results_file st.
Proof.
  unfold login, try_except, bind, requests_post.
  destruct (serve env _ _).1 as [code body|]; [|by eexists _, _].
  cbn. case_bool_decide; [|by eexists _, _].
  unfold response_json, lift, py_get. cbn.
  destruct body as [[]|]; try by eexists _, _.
  cbn. destruct (default _ (d !! "data")); try by eexists _, _.
  cbn. destruct (default _ (d0 !! "user")); by eexists _, _.
Qed.

Lemma list_comprehension_dunder_dict (ts : list test_record) :
  list_comprehension dunder_dict ts
  = match ts with [] => Returned [] | _ => Raised AttributeError end.
Proof. by destruct ts. Qed.

(** [main] never returns [True], never lets an [Exception] out, and
    never gets a document into the result file. *)
Lemma main_result (s : system env) :
  match main (initial_state s) with
  | (o, st') =>
      (o = Returned false ∨ o = Raised (SystemExit 1))
      ∧ (results_file st' = None ∨ results_file st' = Some Empty)
  end.
Proof.
  unfold main, bind, connect_db, try_except at 1, psycopg2_connect_call.
  cbn [initial_state sys].
  destruct (psycopg2_connect env s); cbn; [|auto].
  unfold try_except, bind.
  destruct (login_returns CONFIG.SUPER_ADMIN_EMAIL
              CONFIG.SUPER_ADMIN_PASSWORD (initial_state s))
    as (ok & st1 & -> & Hf1).
  cbn in Hf1. destruct ok; cbn; [|auto].
  match goal with
  | |- context [run_all_scenarios ?st] =>
      pose proof (run_all_scenarios_result st) as Hrun;
      destruct (run_all_scenarios st) as [[ok|e] st2]
  end.
  - destruct Hrun as ((new & Hlen & Hnew) & _ & Hf2). cbn in Hnew, Hf2.
    unfold open_w. destruct (open_for_writing env (sys st2)); cbn.
    + rewrite Hnew, list_comprehension_dunder_dict.
      destruct new; [done|]. cbn. auto.
    + split; [auto|]. left. congruence.
  - destruct Hrun as (-> & _ & Hf2). cbn in *. split; [auto|].
    left. congruence.
Qed.

(** Without a database connection [main] stops at once: nothing is
    sent, nothing is recorded. *)
Lemma main_without_database (s : system env) :
  psycopg2_connect env s = false →
  main (initial_state s) = (Raised (SystemExit 1), initial_state s).
Proof.
  intros H. unfold main, bind, connect_db, try_except, psycopg2_connect_call.
  cbn. by rewrite H.
Qed.

(** A refused login ends [main] with [False] before any scenario. *)
Lemma main_without_login (s : system env) st' :
  psycopg2_connect env s = true →
  login CONFIG.SUPER_ADMIN_EMAIL CONFIG.SUPER_ADMIN_PASSWORD (initial_state s)
  = (Returned false, st') →
  main (initial_state s) = (Returned false, st').
Proof.
  intros H Hlogin.
  unfold main, bind, connect_db, try_except at 1, psycopg2_connect_call.
  cbn [initial_state sys]. rewrite H. cbn.
  unfold try_except, bind. by rewrite Hlogin.
Qed.

(** The process always ends with exit code 1. *)
Lemma exit_code_is_1 (s : system env) : (exit_code s).1 = 1%Z.
Proof.
  unfold exit_code. pose proof (main_result s) as H.
  destruct (main (initial_state s)) as [o st].
  by destruct H as [[->| ->] _].
Qed.

End Run.

(** *** Every way a scenario can go *)

Section Resolution.
Context {env : Environment}.
Implicit Types st : hstate env.

Lemma not_resolves_not_found st db code :
  db_state env (sys st) = Some db →
  (∀ id, ¬ resolves st code id) →
  found (SQL.get_account_id db code TEST_COMPANY_ID) = false.
Proof.
  intros Hdb Hno.
  destruct (found (SQL.get_account_id db code TEST_COMPANY_ID)) eqn:Hf;
    [|done].
  apply found_the in Hf as [Hid Hne].
  destruct (Hno (the (SQL.get_account_id db code TEST_COMPANY_ID))).
  by exists db.
Qed.

Lemma unresolved_condition st db code :
  db_state env (sys st) = Some db →
  (∀ id, ¬ resolves st ACCOUNTS.CASH id) ∨ (∀ id, ¬ resolves st code id) →
  negb (found (SQL.get_account_id db ACCOUNTS.CASH TEST_COMPANY_ID))
  || negb (found (SQL.get_account_id db code TEST_COMPANY_ID)) = true.
Proof.
  intros Hdb [H|H]; rewrite (not_resolves_not_found _ _ _ Hdb H); cbn;
    [done|apply orb_true_r].
Qed.



End Resolution.






Section Cases.
Context {env : Environment}.
Implicit Types st : hstate env.







End Cases.

(** *** What the comparisons compare *)

Section Comparisons.
Context {env : Environment}.
Implicit Types st : hstate env.

Lemma trial_balance_in_eq st st' db :
  sys st' = sys st →
  db_state env (sys st) = Some db →
  trial_balance_in st' = SQL.get_trial_balance db TEST_COMPANY_ID.
Proof. intros Hs Hdb. unfold trial_balance_in. by rewrite Hs, Hdb. Qed.

Lemma last_record (l : list test_record) t t' :
  l ++ [t] = l ++ [t'] → t = t'.
Proof. intros H. by apply app_inj_tail in H as [_ ->]. Qed.





End Comparisons.



Lemma second_sale_run :
  scenario_3_revenue_transaction (Ledger.logged_in Ledger.after_a_sale)
  = (Returned (PyBool false, PyInt 2),
     (scenario_3_revenue_transaction
        (Ledger.logged_in Ledger.after_a_sale)).2)
  ∧ tests (results (scenario_3_revenue_transaction
                      (Ledger.logged_in Ledger.after_a_sale)).2)
    = tests (results (Ledger.logged_in Ledger.after_a_sale))
      ++ [Ledger.second_sale_record].
Proof. split; vm_compute; reflexivity. Qed.







(** *** Scenario 2 and the posted entries *)

Lemma filter_none {A} (P : A → Prop) `{∀ x, Decision (P x)} (l : list A) :
  Forall (λ x, ¬ P x) l → filter P l = [].
Proof.
  induction 1 as [|x l Hx _ IH]; [done|].
  rewrite filter_cons. by destruct (decide (P x)).
Qed.

Lemma adds_unposted_posted_ids db db' c :
  adds_unposted db db' →
  SQL.posted_entry_ids db' c = SQL.posted_entry_ids db c.
Proof.
  unfold SQL.posted_entry_ids. intros (es & ls & -> & _ & Hes & _).
  rewrite filter_app, (filter_none _ es), app_nil_r; [done|].
  eapply Forall_impl; [exact Hes|]. intros e He (_ & ? & _). done.
Qed.

Lemma posted_entry_ids_subseteq db c id :
  id ∈ SQL.posted_entry_ids db c → id ∈ je_id <$> journal_entries db.
Proof.
  unfold SQL.posted_entry_ids. rewrite !list_elem_of_fmap.
  intros (e & -> & He). exists e. split; [done|].
  by apply list_elem_of_filter in He as [_ ?].
Qed.

(** Unposted additions are invisible to the trial balance. *)
Lemma adds_unposted_trial_balance db db' c :
  adds_unposted db db' →
  SQL.get_trial_balance db' c = SQL.get_trial_balance db c.
Proof.
  intros Hadd. unfold SQL.get_trial_balance, SQL.selected_details.
  rewrite (adds_unposted_posted_ids _ _ _ Hadd).
  destruct Hadd as (es & ls & _ & -> & _ & Hls).
  rewrite filter_app, (filter_none _ ls), app_nil_r; [done|].
  eapply Forall_impl; [exact Hls|]. intros l Hl [_ Hin].
  by apply Hl, posted_entry_ids_subseteq with c.
Qed.

(** C9: scenario 2 sends no post request, whatever its outcome: at most
    the one creation request leaves the harness.  Hence, on a ledger
    whose creation request leaves the posted entries and their lines
    alone, the trial balance read after scenario 2 is the trial balance
    read before it, for every tenant. *)
Theorem scenario_2_leaves_posted_entries {env} (st : hstate env) o st' :
  scenario_2_unbalanced_entry st = (o, st') →
  creation_leaves_posted env (sys st) →
  (∃ new, sent st' = sent st ++ new
          ∧ Forall (λ r, ¬ is_post_request r) new)
  ∧ ∀ db db' c,
      db_state env (sys st) = Some db →
      db_state env (sys st') = Some db' →
      SQL.get_trial_balance db' c = SQL.get_trial_balance db c.
Proof.
  intros Hrun Hledger. revert Hrun.
  unfold scenario_2_unbalanced_entry, bind. exec; intros [= <- <-].
  all: split;
    [ first
        [ exists (@nil request); rewrite app_nil_r; split;
          [assumption || reflexivity|apply Forall_nil_2]
        | eexists (_ :: nil); rewrite Hsent; split;
          [reflexivity|apply Forall_singleton; cbn; tauto] ]
    | intros db0 db' c E Hdb'; try rewrite Hsys in Hdb'; cbn in Hdb';
      first
        [ discriminate E
        | injection E as <-;
          first
            [ congruence
            | destruct (Hledger _ _ _ _ Hdb Hdb') as [->|Hadd];
              [done|by apply adds_unposted_trial_balance] ] ] ].
Qed.

Lemma lenient_creation_leaves_posted :
  creation_leaves_posted Ledger.environment Ledger.lenient.
Proof.
  intros tok e db db'. cbn. intros [= <-]. unfold Ledger.answer.
  destruct (Ledger.authorized tok); cbn; [|intros [= <-]; by left].
  intros [= <-]. right.
  exists [{| je_id := 1; je_company_id := TEST_COMPANY_ID;
             je_status := "draft"; je_deleted_at := None |}]%list,
         (Ledger.detail_row 1 <$> details e).
  split; [done|]. split; [done|]. split.
  - by constructor.
  - apply Forall_fmap, Forall_true. intros l. cbn. apply not_elem_of_nil.
Qed.

Lemma scenario_2_leaves_posted_entries_witness :
  scenario_2_unbalanced_entry (Ledger.logged_in Ledger.lenient)
  = (Returned (PyBool false, PyInt 1),
     (scenario_2_unbalanced_entry (Ledger.logged_in Ledger.lenient)).2)
  ∧ creation_leaves_posted Ledger.environment
      (sys (Ledger.logged_in Ledger.lenient))
  ∧ (∃ new,
       sent (scenario_2_unbalanced_entry (Ledger.logged_in Ledger.lenient)).2
       = sent (Ledger.logged_in Ledger.lenient) ++ new
       ∧ Forall (λ r, ¬ is_post_request r) new)
  ∧ ∀ db db' c,
      db_state Ledger.environment (sys (Ledger.logged_in Ledger.lenient))
      = Some db →
      db_state Ledger.environment
        (sys (scenario_2_unbalanced_entry
                (Ledger.logged_in Ledger.lenient)).2)
      = Some db' →
      SQL.get_trial_balance db' c = SQL.get_trial_balance db c.
Proof.
  assert (scenario_2_unbalanced_entry (Ledger.logged_in Ledger.lenient)
          = (Returned (PyBool false, PyInt 1),
             (scenario_2_unbalanced_entry
                (Ledger.logged_in Ledger.lenient)).2)) as Hrun
    by (vm_compute; reflexivity).
  split; [exact Hrun|].
  split; [exact lenient_creation_leaves_posted|].
  exact (scenario_2_leaves_posted_entries
           (Ledger.logged_in Ledger.lenient) _ _ Hrun
           lenient_creation_leaves_posted).
Defined.

(** *** The claims on the run as a whole *)




(** Scenario 2 on the new tenant of the ledger that enforces the
    balance: the unbalanced entry is refused, and that is the pass. *)
Example scenario_2_passes_on_refusal :
  (scenario_2_unbalanced_entry (Ledger.logged_in Ledger.fresh)).1
  = Returned (PyBool true, PyNone).
Proof. vm_compute. reflexivity. Qed.

(** C1: on a new tenant of a well-behaved ledger all six checks are
    recorded, with their outcomes and entry ids, but the result file is
    left empty: building the list to dump raises [AttributeError] right
    after the file was opened, so loading the file back fails instead of
    giving the records. *)
Theorem results_file_is_left_empty :
  r_passed <$> tests (results Ledger.first_run)
  = [PyBool true; PyBool true; PyBool true; PyBool true; PyBool true;
     PyBool true]
  ∧ r_entry_id <$> tests (results Ledger.first_run)
    = [PyInt 1; PyNone; PyInt 2; PyInt 3; PyInt 4; PyNone]
  ∧ results_file Ledger.first_run = Some Empty
  ∧ json_load (results_file Ledger.first_run) = Raised JSONDecodeError
  ∧ json_load (results_file Ledger.first_run)
    ≠ Returned (record_json <$> tests (results Ledger.first_run)).
Proof.
  assert (results_file Ledger.first_run = Some Empty) as Hfile
    by (vm_compute; reflexivity).
  split; [vm_compute; reflexivity|].
  split; [vm_compute; reflexivity|].
  split; [exact Hfile|]. rewrite Hfile. split; [reflexivity|discriminate].
Qed.

(** C2: on the same run every recorded check passed, no failure was
    counted, and the process still ends with exit code 1. *)
Theorem exit_code_1_although_all_passed :
  Forall (λ t, r_passed t = PyBool true) (tests (results Ledger.first_run))
  ∧ length (tests (results Ledger.first_run)) = 6%nat
  ∧ failed (results Ledger.first_run) = 0%nat
  ∧ (exit_code (env := Ledger.environment) Ledger.fresh).1 = 1%Z.
Proof.
  split; [|split; [|split]]; try (vm_compute; reflexivity).
  vm_compute. repeat constructor.
Qed.


(** ** Further properties of the code *)

(** *** Floats *)

Section Rounding.
Local Open Scope Z_scope.

Lemma shr_1_nonneg mrs : 0 ≤ shr_m mrs → 0 ≤ shr_m (shr_1 mrs).
Proof. destruct mrs as [[|[p|p|]|p] r s]; cbn; lia. Qed.

Lemma iter_pos_shr_1_nonneg p mrs :
  0 ≤ shr_m mrs → 0 ≤ shr_m (SpecFloat.iter_pos shr_1 p mrs).
Proof.
  revert mrs. induction p as [p IH|p IH|]; intros mrs H; cbn.
  - by apply IH, IH, shr_1_nonneg.
  - by apply IH, IH.
  - by apply shr_1_nonneg.
Qed.

Lemma shr_fexp_nonneg m e l :
  0 ≤ m → 0 ≤ shr_m (shr_fexp Float.prec Float.emax m e l).1.
Proof.
  intros H. unfold shr_fexp, shr.
  assert (shr_m (shr_record_of_loc m l) = m) as Hm
    by (by destruct l as [|[]]).
  destruct (_ - e); cbn [fst]; rewrite <- Hm in H; [done| |done].
  by apply iter_pos_shr_1_nonneg.
Qed.

Lemma round_nearest_even_nonneg m l : 0 ≤ m → 0 ≤ round_nearest_even m l.
Proof.
  intros H. destruct l as [|[]]; cbn; try lia. destruct (Z.even m); lia.
Qed.

(** Rounding a non-negative mantissa gives a number with the sign it
    was given, never a NaN. *)
Lemma binary_round_aux_sign sx mx ex lx :
  0 ≤ mx →
  match binary_round_aux Float.prec Float.emax sx mx ex lx with
  | S754_nan => False
  | r => Float.sign r = sx
  end.
Proof.
  intros H. unfold binary_round_aux.
  pose proof (shr_fexp_nonneg mx ex lx H) as H1.
  destruct (shr_fexp _ _ mx ex lx) as [mrs' e'].
  cbn [fst] in H1.
  pose proof (shr_fexp_nonneg _ e' loc_Exact
                (round_nearest_even_nonneg _ (loc_of_shr_record mrs') H1))
    as H2.
  destruct (shr_fexp _ _ _ e' loc_Exact) as [mrs'' e''].
  cbn [fst] in H2.
  destruct (shr_m mrs'') as [|m|m]; [done| |lia].
  by destruct (_ <=? _).
Qed.

Lemma SFdiv_core_binary_nonneg (m1 m2 : positive) e1 e2 :
  0 ≤ (SFdiv_core_binary Float.prec Float.emax (Zpos m1) e1 (Zpos m2) e2).1.1.
Proof.
  unfold SFdiv_core_binary.
  set (s := _ - _ - _).
  set (m' := match s with Z0 => _ | Zpos _ => _ | Zneg _ => _ end).
  assert (0 ≤ m') as Hm'.
  { subst m'. destruct s; [lia| |lia]. apply Z.shiftl_nonneg. lia. }
  pose proof (Z.div_pos m' (Zpos m2) Hm' eq_refl) as Hq.
  unfold Z.div in Hq. by destruct (Z.div_eucl m' (Zpos m2)).
Qed.

End Rounding.

(** The float of a rational that is not negative is not negative, and
    is a number. *)
Lemma of_Q_nonnegative (q : Q) : (0 <= q)%Q → Float.nonnegative (Float.of_Q q).
Proof.
  destruct q as [[|n|n] d]; unfold Float.of_Q; cbn [Qnum Qden].
  - done.
  - intros _. unfold SFdiv.
    pose proof (SFdiv_core_binary_nonneg n d 0 0) as H.
    destruct (SFdiv_core_binary _ _ _ _ _ _) as [[mz ez] lz].
    cbn [fst] in H.
    pose proof (binary_round_aux_sign (xorb false false) mz ez lz H) as Hs.
    unfold Float.nonnegative. by destruct (binary_round_aux _ _ _ _ _ _).
  - intros H. by destruct H.
Qed.

(** *** The queries *)







Lemma case_positive_ge_0 x : 0 ≤ SQL.case_positive x.
Proof.
  unfold SQL.case_positive. case_bool_decide as H; [|done].
  by apply Qclt_le_weak.
Qed.

Lemma sum_of_ge_0 (p : journal_entry_details_row → Qc) ls :
  (∀ l, 0 ≤ p l) → 0 ≤ sum_of p ls.
Proof.
  intros Hp. induction ls as [|l ls IH]; [done|].
  unfold sum_of in *. cbn.
  replace 0 with (0 + 0) by ring. by apply Qcplus_le_compat.
Qed.

(** X2: no debit or credit aggregate of the returned dict is negative,
    whatever the amounts stored in the detail table, and none is a NaN:
    each is the float of a sum of amounts that the query has cut off at
    zero. *)
Theorem trial_balance_rows_nonnegative db c :
  Forall (λ item, Float.nonnegative (debit item.2)
                  ∧ Float.nonnegative (credit item.2))
         (SQL.get_trial_balance db c).
Proof.
  unfold SQL.get_trial_balance. apply Forall_fmap, Forall_forall.
  intros [a [d k]] Hin. cbn.
  unfold SQL.group_by_account in Hin.
  apply list_elem_of_fmap in Hin as (a' & [= -> -> ->] & _).
  split; apply of_Q_nonnegative;
    apply (sum_of_ge_0 _ _); intros ?; apply case_positive_ge_0.
Qed.

Lemma posted_entry_ids_of_tenant db c :
  SQL.posted_entry_ids db c
  = je_id <$> filter (λ e, je_status e = "posted" ∧ je_deleted_at e = None)
                     (filter (λ e, je_company_id e = c) (journal_entries db)).
Proof.
  unfold SQL.posted_entry_ids. f_equal. rewrite list_filter_filter.
  apply list_filter_iff. intros e. tauto.
Qed.

Lemma selected_details_of_tenant db c :
  SQL.selected_details db c
  = filter (λ l, jed_journal_entry_id l ∈ SQL.posted_entry_ids db c)
           (filter (λ l, jed_company_id l = c) (journal_entry_details db)).
Proof.
  unfold SQL.selected_details. rewrite list_filter_filter.
  apply list_filter_iff. intros l. tauto.
Qed.

(** X3: the trial balance of a tenant depends on the rows of that
    tenant only: two databases with the same journal entries and the
    same detail lines for company [c] give the same trial balance for
    [c], whatever they hold for other companies. *)
Theorem trial_balance_tenant_isolation db db' c :
  filter (λ e, je_company_id e = c) (journal_entries db)
  = filter (λ e, je_company_id e = c) (journal_entries db') →
  filter (λ l, jed_company_id l = c) (journal_entry_details db)
  = filter (λ l, jed_company_id l = c) (journal_entry_details db') →
  SQL.get_trial_balance db c = SQL.get_trial_balance db' c.
Proof.
  intros He Hl. unfold SQL.get_trial_balance. f_equal.
  rewrite !selected_details_of_tenant, !posted_entry_ids_of_tenant.
  by rewrite He, Hl.
Qed.

Lemma trial_balance_tenant_isolation_witness :
  filter (λ e, je_company_id e = 1%Z)
         (journal_entries (Ledger.tables Ledger.after_a_sale))
  = filter (λ e, je_company_id e = 1%Z)
           (journal_entries tables_with_other_tenant)
  ∧ filter (λ l, jed_company_id l = 1%Z)
           (journal_entry_details (Ledger.tables Ledger.after_a_sale))
    = filter (λ l, jed_company_id l = 1%Z)
             (journal_entry_details tables_with_other_tenant)
  ∧ SQL.get_trial_balance (Ledger.tables Ledger.after_a_sale) 1
    = SQL.get_trial_balance tables_with_other_tenant 1.
Proof.
  assert (filter (λ e, je_company_id e = 1%Z)
            (journal_entries (Ledger.tables Ledger.after_a_sale))
          = filter (λ e, je_company_id e = 1%Z)
              (journal_entries tables_with_other_tenant)) as He
    by (vm_compute; reflexivity).
  assert (filter (λ l, jed_company_id l = 1%Z)
            (journal_entry_details (Ledger.tables Ledger.after_a_sale))
          = filter (λ l, jed_company_id l = 1%Z)
              (journal_entry_details tables_with_other_tenant)) as Hl
    by (vm_compute; reflexivity).
  split; [exact He|]. split; [exact Hl|].
  exact (trial_balance_tenant_isolation _ _ 1%Z He Hl).
Defined.

(** X4: [get_account_id] raises only when the query fails.  Otherwise
    it changes nothing and returns the id of a row of the chart of
    accounts with the requested code and company that is not
    soft-deleted, or [None] when every row with that code and company
    is soft-deleted or there is none. *)
Theorem get_account_id_finds_live_account {env} (st : hstate env) code c :
  match db_state env (sys st) with
  | None => get_account_id code c st = (Raised Psycopg2Error, st)
  | Some db =>
      ∃ o, get_account_id code c st = (Returned o, st)
           ∧ match o with
             | Some id =>
                 ∃ r, r ∈ chart_of_accounts db
                      ∧ coa_id r = id
                      ∧ coa_account_code r = code
                      ∧ coa_company_id r = c
                      ∧ coa_deleted_at r = None
             | None =>
                 ∀ r, r ∈ chart_of_accounts db →
                      coa_account_code r = code → coa_company_id r = c →
                      coa_deleted_at r ≠ None
             end
  end.
Proof.
  rewrite get_account_id_eq.
  destruct (db_state env (sys st)) as [db|]; [|done].
  eexists. split; [done|]. unfold SQL.get_account_id.
  destruct (filter _ (chart_of_accounts db)) as [|r rs] eqn:Hf.
  - intros r Hr Hcode Hc Hdel.
    assert (r ∈ filter (λ r, coa_account_code r = code
                             ∧ coa_company_id r = c
                             ∧ coa_deleted_at r = None)
                       (chart_of_accounts db)) as Hin
      by (by apply list_elem_of_filter).
    rewrite Hf in Hin. by apply elem_of_nil in Hin.
  - assert (r ∈ r :: rs) as Hin by left.
    rewrite <- Hf in Hin. apply list_elem_of_filter in Hin as [(? & ? & ?) ?].
    by exists r.
Qed.



(** The comparison is one of floats.  Debits of 8.01 against credits
    of 8.00 are exactly 0.01 apart, which is not less than 0.01; the
    floats differ by 0.00999999999999979 and the check passes. *)
Example cross_validation_passes_at_one_cent :
  totals_within
    (SQL.get_trial_balance
       {| chart_of_accounts := [];
          journal_entries :=
            [{| je_id := 1; je_company_id := 1; je_status := "posted";
                je_deleted_at := None |}];
          journal_entry_details :=
            [ {| jed_company_id := 1; jed_journal_entry_id := 1;
                 jed_account_id := 1; jed_debit_amount := Q2Qc (801 # 100);
                 jed_credit_amount := 0 |};
              {| jed_company_id := 1; jed_journal_entry_id := 1;
                 jed_account_id := 2; jed_debit_amount := 0;
                 jed_credit_amount := Qc_of_Z 8 |} ] |}
       1)
    DEFAULT_EPSILON
  = PyBool true.
Proof. vm_compute. reflexivity. Qed.

(** The totals are added up from left to right: after [1e16] two
    further units are each rounded away, where their sum would not
    be. *)
Example sum_values_left_to_right :
  sum_values debit
    ((λ x, (x.1, {| debit := Float.of_Z x.2; credit := Float.of_Z 0;
                    balance := Float.of_Z x.2 |}))
     <$> [(1, 10000000000000000); (2, 1); (3, 1)]%Z)
  = Float.of_Z 10000000000000000.
Proof. vm_compute. reflexivity. Qed.

(** *** The recorder *)

Lemma counted_logged r t : counted r → counted (logged r t).
Proof.
  intros [Hp Hf]. unfold counted, logged. cbn.
  rewrite !filter_app, !length_app, !filter_cons, !filter_nil.
  destruct (truthy (r_passed t)) eqn:Ht.
  - rewrite decide_True, decide_False by done. cbn. lia.
  - rewrite decide_False, decide_True by done. cbn. lia.
Qed.

Lemma counted_no_failure r :
  counted r →
  failed r = 0%nat ↔ Forall (λ t, truthy (r_passed t) = true) (tests r).
Proof.
  intros [_ ->]. rewrite length_zero_iff_nil. split.
  - intros H. apply Forall_forall. intros t Ht.
    destruct (truthy (r_passed t)) eqn:E; [done|].
    assert (t ∈ filter (λ t, truthy (r_passed t) = false) (tests r)) as Hin
      by (by apply list_elem_of_filter).
    rewrite H in Hin. by apply elem_of_nil in Hin.
  - intros H. apply filter_none. eapply Forall_impl; [exact H|].
    intros t -> ?. done.
Qed.

Section Recorder.
Context {env : Environment}.
Implicit Types st : hstate env.

Lemma add_test_logged name p d id st :
  ∃ st',
    add_test name p d id st = (Returned tt, st')
    ∧ results st'
      = logged (results st)
          {| r_name := name; r_passed := p; r_details := d;
             r_entry_id := id;
             r_timestamp := datetime_now env (clock st) |}
    ∧ clock st' = S (clock st)
    ∧ sys st' = sys st ∧ sent st' = sent st ∧ token st' = token st
    ∧ user_id st' = user_id st ∧ results_file st' = results_file st.
Proof. eexists. split; [reflexivity|]. by repeat split. Qed.

(** X6: [add_test] keeps the counters in step with the log: if
    [passed] and [failed] count the truthy and the falsy outcomes of the
    recorded tests before the call, they do so after it.  The call
    appends one record stamped with the current time and touches
    nothing else of the run. *)
Theorem add_test_keeps_count name p d id st :
  counted (results st) →
  ∃ st' t,
    add_test name p d id st = (Returned tt, st')
    ∧ tests (results st') = tests (results st) ++ [t]
    ∧ (r_name t, r_passed t, r_details t, r_entry_id t) = (name, p, d, id)
    ∧ counted (results st')
    ∧ sys st' = sys st ∧ sent st' = sent st ∧ token st' = token st
    ∧ results_file st' = results_file st.
Proof.
  intros Hc.
  destruct (add_test_logged name p d id st)
    as (st' & Hrun & Hres & _ & ? & ? & ? & _ & ?).
  eexists st', _. split; [exact Hrun|]. rewrite Hres.
  split; [reflexivity|]. split; [reflexivity|].
  split; [by apply counted_logged|]. done.
Qed.

End Recorder.

Lemma add_test_keeps_count_witness :
  counted (results (Ledger.logged_in Ledger.fresh))
  ∧ ∃ st' t,
      add_test "Scenario 1: Basic Balanced Entry" PyNone "none" (PyInt 0)
        (Ledger.logged_in Ledger.fresh)
      = (Returned tt, st')
      ∧ tests (results st')
        = tests (results (Ledger.logged_in Ledger.fresh)) ++ [t]
      ∧ (r_name t, r_passed t, r_details t, r_entry_id t)
        = ("Scenario 1: Basic Balanced Entry", PyNone, "none", PyInt 0)
      ∧ counted (results st')
      ∧ sys st' = sys (Ledger.logged_in Ledger.fresh)
      ∧ sent st' = sent (Ledger.logged_in Ledger.fresh)
      ∧ token st' = token (Ledger.logged_in Ledger.fresh)
      ∧ results_file st' = results_file (Ledger.logged_in Ledger.fresh).
Proof.
  assert (counted (results (Ledger.logged_in Ledger.fresh))) as Hc
    by (split; reflexivity).
  split; [exact Hc|].
  exact (add_test_keeps_count _ _ _ _ (Ledger.logged_in Ledger.fresh) Hc).
Defined.

Lemma filter_test_lines (ts : list test_record) :
  filter is_test_line (ts ≫= test_lines)
  = (λ t, Line_test (truthy (r_passed t)) (r_name t)) <$> ts.
Proof.
  induction ts as [|t ts IH]; [done|].
  assert (filter is_test_line (test_lines t)
          = [Line_test (truthy (r_passed t)) (r_name t)]%list) as Ht.
  { unfold test_lines.
    destruct (truthy (r_passed t)), (truthy (r_entry_id t)); done. }
  change (filter is_test_line (test_lines t ++ (ts ≫= test_lines))
          = Line_test (truthy (r_passed t)) (r_name t)
            :: ((λ t, Line_test (truthy (r_passed t)) (r_name t)) <$> ts)).
  by rewrite filter_app, Ht, IH.
Qed.

(** X7: when at least one result is recorded [print_summary] returns.
    Its report says how many of the total passed and failed, then shows
    with one decimal the float [passed / total * 100], which reads
    100.0 when nothing failed and 0.0 when nothing passed, and then
    lists every recorded test once, in the order of the log, with its
    name and whether it passed. *)
Theorem print_summary_report (r : TestResults) :
  (passed r + failed r ≠ 0)%nat →
  ∃ rate rest,
    print_summary r
    = Returned (Line_passed (passed r) (passed r + failed r)
                :: Line_failed (failed r) (passed r + failed r)
                :: Line_success_rate rate :: rest)
    ∧ rate
      = format_f 1 false
          (Float.mul
             (Float.of_Q (Qc_of_Z (Z.of_nat (passed r))
                          / Qc_of_Z (Z.of_nat (passed r + failed r)))%Qc)
             (Float.of_Z 100))
    ∧ (failed r = 0%nat → rate = "100.0")
    ∧ (passed r = 0%nat → rate = "0.0")
    ∧ filter is_test_line rest
      = (λ t, Line_test (truthy (r_passed t)) (r_name t)) <$> tests r.
Proof.
  intros Htotal. unfold print_summary, success_rate.
  rewrite bool_decide_eq_false_2 by done.
  eexists _, _. split; [reflexivity|]. split; [reflexivity|].
  split; [|split].
  - intros Hf. rewrite Hf, Nat.add_0_r in *.
    assert (Qc_of_Z (Z.of_nat (passed r)) ≠ 0) as Hn.
    { rewrite <- Z2Qc_inj_0. intros E%Z2Qc_inj. lia. }
    replace (Qc_of_Z (Z.of_nat (passed r)) / Qc_of_Z (Z.of_nat (passed r)))
      with 1 by (by field).
    vm_compute. reflexivity.
  - intros Hp. rewrite Hp.
    replace (Qc_of_Z (Z.of_nat 0) / Qc_of_Z (Z.of_nat (0 + failed r)))
      with 0.
    + vm_compute. reflexivity.
    + change (Z.of_nat 0) with 0%Z. rewrite Z2Qc_inj_0.
      unfold Qcdiv. ring.
  - apply filter_test_lines.
Qed.

Lemma print_summary_report_witness :
  (passed (results Ledger.first_run) + failed (results Ledger.first_run)
   ≠ 0)%nat
  ∧ ∃ rate rest,
      print_summary (results Ledger.first_run)
      = Returned (Line_passed (passed (results Ledger.first_run))
                    (passed (results Ledger.first_run)
                     + failed (results Ledger.first_run))
                  :: Line_failed (failed (results Ledger.first_run))
                       (passed (results Ledger.first_run)
                        + failed (results Ledger.first_run))
                  :: Line_success_rate rate :: rest)
      ∧ rate
        = format_f 1 false
            (Float.mul
               (Float.of_Q
                  (Qc_of_Z (Z.of_nat (passed (results Ledger.first_run)))
                   / Qc_of_Z
                       (Z.of_nat (passed (results Ledger.first_run)
                                  + failed (results Ledger.first_run))))%Qc)
               (Float.of_Z 100))
      ∧ (failed (results Ledger.first_run) = 0%nat → rate = "100.0")
      ∧ (passed (results Ledger.first_run) = 0%nat → rate = "0.0")
      ∧ filter is_test_line rest
        = (λ t, Line_test (truthy (r_passed t)) (r_name t))
            <$> tests (results Ledger.first_run).
Proof.
  assert (passed (results Ledger.first_run)
          + failed (results Ledger.first_run) ≠ 0)%nat as H
    by (vm_compute; discriminate).
  split; [exact H|].
  exact (print_summary_report (results Ledger.first_run) H).
Defined.

(** One passed of three: the rate is the float 33.33333333333333 and
    is shown as 33.3; with two of three it is shown as 66.7. *)
Example print_summary_one_of_three :
  print_summary {| tests := []; passed := 1; failed := 2 |}
  = Returned [Line_passed 1 3; Line_failed 2 3; Line_success_rate "33.3"]
  ∧ print_summary {| tests := []; passed := 2; failed := 1 |}
    = Returned [Line_passed 2 3; Line_failed 1 3; Line_success_rate "66.7"].
Proof. split; vm_compute; reflexivity. Qed.

(** *** The client *)

(** X8: [login] never raises and sends exactly the one login request.
    It returns [True] exactly when the answer has status 200 and a body
    that is a JSON object whose [data], if present, is an object whose
    [user], if present, is an object; it has then stored the
    [accessToken] of [data] and the [id] of [user], or [None] where one
    is missing, so that a 200 answer with an empty object logs in with
    the token [None].  The token is stored as soon as [data] is an
    object, also when [user] then turns out to be none and the login
    returns [False]; in every other case the stored token is left as it
    was, and the stored user id is left as it was whenever the login
    returns [False]. *)
Theorem login_outcome {env} email password (st : hstate env) :
  ∃ ok st',
    login email password st = (Returned ok, st')
    ∧ sent st' = sent st ++ [LOGIN email password]
    ∧ sys st' = (serve env (LOGIN email password) (sys st)).2
    ∧ results st' = results st
    ∧ results_file st' = results_file st
    ∧ (ok = true
       ↔ ∃ d dd u,
           (serve env (LOGIN email password) (sys st)).1
           = Response 200 (Some (PyDict d))
           ∧ login_data d = PyDict dd
           ∧ default (PyDict ∅) (dd !! "user") = PyDict u)
    ∧ (∀ d dd,
         (serve env (LOGIN email password) (sys st)).1
         = Response 200 (Some (PyDict d)) →
         login_data d = PyDict dd →
         token st' = default PyNone (dd !! "accessToken")
         ∧ ∀ u, default (PyDict ∅) (dd !! "user") = PyDict u →
                user_id st' = default PyNone (u !! "id"))
    ∧ ((¬ ∃ d dd, (serve env (LOGIN email password) (sys st)).1
                  = Response 200 (Some (PyDict d))
                  ∧ login_data d = PyDict dd) →
       token st' = token st)
    ∧ (ok = false → user_id st' = user_id st).
Proof.
  unfold login, try_except, bind, requests_post, login_data.
  destruct (serve env _ _).1 as [code body|] eqn:Hreply; cbn;
    [case_bool_decide as Hcode; cbn|].
  - subst code. unfold response_json, lift, py_get. cbn.
    destruct body as [[ | ? | ? | ? | ? | ? | d]|]; cbn.
    7: destruct (default (PyDict ∅) (d !! "data"))
         as [ | ? | ? | ? | ? | ? | dd] eqn:Hd; cbn.
    13: destruct (default (PyDict ∅) (dd !! "user"))
          as [ | ? | ? | ? | ? | ? | u] eqn:Hu; cbn.
    all: eexists _, _; (split; [reflexivity|]); cbn; repeat split;
      try done;
      try (intros (? & ? & ? & E & E2 & E3);
           solve [discriminate E | injection E as <-; congruence]);
      try (intros ? ? E E2;
           solve [discriminate E | injection E as <-; congruence]);
      try (intros ? ? E E2 ? E3;
           solve [discriminate E | injection E as <-; congruence]);
      try (intros Hno; exfalso; apply Hno; eexists _, _;
           split; [reflexivity|eassumption]).
    all: try (intros _; by eexists _, _, _).
    all: intros; simplify_eq; congruence.
  - eexists _, _. split; [reflexivity|]. repeat split; try done.
    all: try (by intros (? & ? & ? & [= ? _] & _)).
    all: intros; simplify_eq.
  - eexists _, _. split; [reflexivity|]. repeat split; try done.
    by intros (? & ? & ? & [=] & _).
Qed.

(** X9: [post_journal_entry] never raises and sends exactly the one
    post request, with the stored token.  It returns [True] exactly when
    the answer has status 200; any other status, 201 and 204 included,
    and a missing answer give [False].  The log is not touched. *)
Theorem post_journal_entry_outcome {env} id (st : hstate env) :
  ∃ ok st',
    post_journal_entry id st = (Returned ok, st')
    ∧ sent st' = sent st ++ [POST (token st) id]
    ∧ sys st' = (serve env (POST (token st) id) (sys st)).2
    ∧ results st' = results st
    ∧ token st' = token st
    ∧ (ok = true
       ↔ ∃ body, (serve env (POST (token st) id) (sys st)).1
                 = Response 200 body).
Proof.
  rewrite post_journal_entry_eq. eexists _, _. split; [reflexivity|].
  repeat split; try done.
  - destruct (serve env _ _).1 as [code body|]; [|done].
    intros ->%bool_decide_eq_true. by exists body.
  - intros [body ->]. by apply bool_decide_eq_true.
Qed.

(** The value both report methods make of an answer. *)
Lemma report_value_of_reply {env}
    (serve_report : report_request → system env → http_reply * system env)
    (r : pyval → report_request) (st : hstate env) :
  ∃ v st',
    try_except is_Exception
      (bind get_token (λ tok,
       bind (requests_get serve_report (r tok)) (λ response,
       if bool_decide (response.1 = 200%Z)
       then bind (response_json response)
                 (λ data, lift (py_get data "data" PyNone))
       else ret PyNone)))
      (ret PyNone) st
    = (Returned v, st')
    ∧ results st' = results st ∧ sent st' = sent st
    ∧ token st' = token st
    ∧ sys st' = (serve_report (r (token st)) (sys st)).2
    ∧ v = match (serve_report (r (token st)) (sys st)).1 with
          | Response 200 (Some (PyDict d)) => default PyNone (d !! "data")
          | _ => PyNone
          end.
Proof.
  unfold try_except, bind, get_token, requests_get. cbn.
  destruct (serve_report _ _).1 as [code body|]; cbn.
  - case_bool_decide as Hc; cbn.
    + subst code. unfold response_json, lift, py_get.
      destruct body as [[ | ? | ? | ? | ? | ? | d]|]; cbn;
        eexists _, _; (split; [reflexivity|]); by repeat split.
    + eexists _, _. split; [reflexivity|]. repeat split; try done.
      destruct code as [|p|p]; try done.
      do 8 (destruct p as [p|p|]; try done).
  - eexists _, _. split; [reflexivity|]. by repeat split.
Qed.

(** X10: [get_income_statement] and [get_balance_sheet] never raise and
    leave the log, the token and the list of sent post requests alone.
    Each returns the [data] member of the answer when the status is 200
    and the body is a JSON object holding one, and [None] in every other
    case: another status, a body that is not an object or has no
    [data], or no answer. *)
Theorem reports_return_data_on_200 {env}
    (serve_report : report_request → system env → http_reply * system env)
    from_date to_date (st : hstate env) :
  (∃ v st',
     get_income_statement serve_report from_date to_date st
     = (Returned v, st')
     ∧ results st' = results st ∧ sent st' = sent st
     ∧ token st' = token st
     ∧ v = match (serve_report
                    (INCOME_STATEMENT (token st) from_date to_date)
                    (sys st)).1 with
           | Response 200 (Some (PyDict d)) => default PyNone (d !! "data")
           | _ => PyNone
           end)
  ∧ (∃ v st',
       get_balance_sheet serve_report st = (Returned v, st')
       ∧ results st' = results st ∧ sent st' = sent st
       ∧ token st' = token st
       ∧ v = match (serve_report (BALANCE_SHEET (token st)) (sys st)).1 with
             | Response 200 (Some (PyDict d)) => default PyNone (d !! "data")
             | _ => PyNone
             end).
Proof.
  split.
  - destruct (report_value_of_reply serve_report
                (λ tok, INCOME_STATEMENT tok from_date to_date) st)
      as (v & st' & Hrun & ? & ? & ? & _ & ?).
    by exists v, st'.
  - destruct (report_value_of_reply serve_report BALANCE_SHEET st)
      as (v & st' & Hrun & ? & ? & ? & _ & ?).
    by exists v, st'.
Qed.

Lemma login_outcome_witness :
  ∃ ok st',
    login CONFIG.SUPER_ADMIN_EMAIL CONFIG.SUPER_ADMIN_PASSWORD
      (initial_state (env := refusing_service) tt)
    = (Returned ok, st')
    ∧ sent st'
      = sent (initial_state (env := refusing_service) tt)
        ++ [LOGIN CONFIG.SUPER_ADMIN_EMAIL CONFIG.SUPER_ADMIN_PASSWORD]
    ∧ sys st'
      = (serve refusing_service
           (LOGIN CONFIG.SUPER_ADMIN_EMAIL CONFIG.SUPER_ADMIN_PASSWORD)
           (sys (initial_state (env := refusing_service) tt))).2
    ∧ results st' = results (initial_state (env := refusing_service) tt)
    ∧ results_file st'
      = results_file (initial_state (env := refusing_service) tt)
    ∧ (ok = true
       ↔ ∃ d dd u,
           (serve refusing_service
              (LOGIN CONFIG.SUPER_ADMIN_EMAIL CONFIG.SUPER_ADMIN_PASSWORD)
              (sys (initial_state (env := refusing_service) tt))).1
           = Response 200 (Some (PyDict d))
           ∧ login_data d = PyDict dd
           ∧ default (PyDict ∅) (dd !! "user") = PyDict u)
    ∧ (∀ d dd,
         (serve refusing_service
            (LOGIN CONFIG.SUPER_ADMIN_EMAIL CONFIG.SUPER_ADMIN_PASSWORD)
            (sys (initial_state (env := refusing_service) tt))).1
         = Response 200 (Some (PyDict d)) →
         login_data d = PyDict dd →
         token st' = default PyNone (dd !! "accessToken")
         ∧ ∀ u, default (PyDict ∅) (dd !! "user") = PyDict u →
                user_id st' = default PyNone (u !! "id"))
    ∧ ((¬ ∃ d dd,
            (serve refusing_service
               (LOGIN CONFIG.SUPER_ADMIN_EMAIL CONFIG.SUPER_ADMIN_PASSWORD)
               (sys (initial_state (env := refusing_service) tt))).1
            = Response 200 (Some (PyDict d))
            ∧ login_data d = PyDict dd) →
       token st' = token (initial_state (env := refusing_service) tt))
    ∧ (ok = false
       → user_id st'
         = user_id (initial_state (env := refusing_service) tt)).
Proof.
  exact (login_outcome CONFIG.SUPER_ADMIN_EMAIL CONFIG.SUPER_ADMIN_PASSWORD
           (initial_state (env := refusing_service) tt)).
Defined.

(** *** The scenarios, request by request *)

Ltac record_logged :=
  match goal with
  | |- context [add_test ?n ?p ?d ?i ?s] =>
      let st := fresh "st" in
      let Hr := fresh "Hresults" in
      let Hs := fresh "Hsys" in
      let Hq := fresh "Hsent" in
      let Hk := fresh "Htoken" in
      destruct (add_test_logged n p d i s)
        as (st & -> & Hr & _ & Hs & Hq & Hk & _ & _)
  end;
  cbn beta iota.

Ltac trace := repeat first [reduce | query | request | record_logged | branch].

(** What the trace lemmas say of a run from [st]: the requests it added
    are orderly, the token is the same, and the log has grown by one
    record under the given name if the scenario returned and not at all
    if it raised. *)
Ltac close_trace :=
  cbn;
  split;
    [ first
        [ exists (@nil request); rewrite app_nil_r; split;
          [assumption || reflexivity|exact I]
        | eexists (_ :: nil); split;
          [first [etrans; [eassumption|reflexivity]|reflexivity]
          |reflexivity]
        | eexists (_ :: _ :: nil); split;
          [first [etrans; [eassumption|]|idtac]; cbn;
           by rewrite <- app_assoc
          |cbn; repeat split; try reflexivity;
           by apply negb_false_iff] ]
    | split;
      [ assumption || reflexivity
      | first [reflexivity | eexists; split; [|eassumption]; reflexivity] ] ].

Section Traces.
Context {env : Environment}.
Implicit Types st : hstate env.

Lemma scenario_1_trace st :
  match scenario_1_balanced_entry st with
  | (o, st') =>
      (∃ new, sent st' = sent st ++ new ∧ orderly_requests st new)
      ∧ token st' = token st
      ∧ match o with
        | Returned _ =>
            ∃ t, r_name t = "Scenario 1: Basic Balanced Entry"
                 ∧ results st' = logged (results st) t
        | Raised _ => results st' = results st
        end
  end.
Proof. unfold scenario_1_balanced_entry, bind. trace; close_trace. Qed.

Lemma scenario_2_trace st :
  match scenario_2_unbalanced_entry st with
  | (o, st') =>
      (∃ new, sent st' = sent st ++ new ∧ orderly_requests st new)
      ∧ token st' = token st
      ∧ match o with
        | Returned _ =>
            ∃ t, r_name t = "Scenario 2: Unbalanced Entry Rejection"
                 ∧ results st' = logged (results st) t
        | Raised _ => results st' = results st
        end
  end.
Proof. unfold scenario_2_unbalanced_entry, bind. trace; close_trace. Qed.

Lemma scenario_3_trace st :
  match scenario_3_revenue_transaction st with
  | (o, st') =>
      (∃ new, sent st' = sent st ++ new ∧ orderly_requests st new)
      ∧ token st' = token st
      ∧ match o with
        | Returned _ =>
            ∃ t, r_name t = "Scenario 3: Revenue Transaction"
                 ∧ results st' = logged (results st) t
        | Raised _ => results st' = results st
        end
  end.
Proof.
  unfold scenario_3_revenue_transaction, not_created_or_not_posted, bind.
  trace; close_trace.
Qed.

Lemma scenario_4_trace st :
  match scenario_4_expense_transaction st with
  | (o, st') =>
      (∃ new, sent st' = sent st ++ new ∧ orderly_requests st new)
      ∧ token st' = token st
      ∧ match o with
        | Returned _ =>
            ∃ t, r_name t = "Scenario 4: Expense Transaction"
                 ∧ results st' = logged (results st) t
        | Raised _ => results st' = results st
        end
  end.
Proof.
  unfold scenario_4_expense_transaction, not_created_or_not_posted, bind.
  trace; close_trace.
Qed.

Lemma scenario_5_trace st :
  match scenario_5_cogs_transaction st with
  | (o, st') =>
      (∃ new, sent st' = sent st ++ new ∧ orderly_requests st new)
      ∧ token st' = token st
      ∧ match o with
        | Returned _ =>
            ∃ t, r_name t = "Scenario 5: COGS Transaction"
                 ∧ results st' = logged (results st) t
        | Raised _ => results st' = results st
        end
  end.
Proof.
  unfold scenario_5_cogs_transaction, not_created_or_not_posted, bind.
  trace; close_trace.
Qed.

Lemma cross_validation_trace st :
  match cross_validation_trial_balance st with
  | (o, st') =>
      sent st' = sent st ∧ token st' = token st
      ∧ match o with
        | Returned _ =>
            ∃ t, r_name t = "Cross-Validation: TB = GL"
                 ∧ results st' = logged (results st) t
        | Raised _ => results st' = results st
        end
  end.
Proof.
  unfold cross_validation_trial_balance, bind. trace; cbn.
  - split; [done|]. split; [done|]. eexists. split; [|eassumption]. done.
  - done.
Qed.

End Traces.

(** X11: whatever the system answers, a scenario adds to the requests
    already sent either nothing, or one creation request, or one
    creation request followed by one post request for the id that this
    creation returned; it never posts after a creation that returned a
    falsy id, and it sends every request with the token it started
    with, which it leaves in place. *)
Theorem scenarios_send_orderly_requests {env} (st : hstate env) :
  Forall (λ s, ∃ new, sent (s st).2 = sent st ++ new
                      ∧ orderly_requests st new
                      ∧ token (s st).2 = token st)
         scenario_set.
Proof.
  unfold scenario_set. repeat apply Forall_cons_2; [..|apply Forall_nil_2].
  - pose proof (scenario_1_trace st) as H.
    destruct (scenario_1_balanced_entry st) as [o st'].
    destruct H as ((new & ? & ?) & ? & _). by exists new.
  - pose proof (scenario_2_trace st) as H.
    destruct (scenario_2_unbalanced_entry st) as [o st'].
    destruct H as ((new & ? & ?) & ? & _). by exists new.
  - pose proof (scenario_3_trace st) as H.
    destruct (scenario_3_revenue_transaction st) as [o st'].
    destruct H as ((new & ? & ?) & ? & _). by exists new.
  - pose proof (scenario_4_trace st) as H.
    destruct (scenario_4_expense_transaction st) as [o st'].
    destruct H as ((new & ? & ?) & ? & _). by exists new.
  - pose proof (scenario_5_trace st) as H.
    destruct (scenario_5_cogs_transaction st) as [o st'].
    destruct H as ((new & ? & ?) & ? & _). by exists new.
Qed.

Section Verdict.
Context {env : Environment}.
Implicit Types st : hstate env.

Ltac traced lem :=
  match goal with
  | |- context [match ?s ?st with _ => _ end] =>
      let H := fresh "H" in
      let t := fresh "t" in
      pose proof (lem st) as H;
      destruct (s st) as [[?|?] ?]; cbn beta iota; [|discriminate 1];
      destruct H as (_ & _ & t & ? & ?)
  end.

(** X12: a run of all scenarios that returns has appended the six
    checks under their fixed names, in order.  If the counters agreed
    with the log before, they agree after, and the run returns [True]
    exactly when every outcome in the log is truthy. *)
Theorem run_all_scenarios_verdict st ok st' :
  counted (results st) →
  run_all_scenarios st = (Returned ok, st') →
  ∃ new,
    tests (results st') = tests (results st) ++ new
    ∧ r_name <$> new = check_names
    ∧ counted (results st')
    ∧ (ok = true
       ↔ Forall (λ t, truthy (r_passed t) = true) (tests (results st'))).
Proof.
  intros Hc. unfold run_all_scenarios, bind.
  traced (@scenario_1_trace env). traced (@scenario_2_trace env).
  traced (@scenario_3_trace env). traced (@scenario_4_trace env).
  traced (@scenario_5_trace env).
  match goal with
  | |- context [cross_validation_trial_balance ?st] =>
      pose proof (cross_validation_trace st) as Hcv;
      destruct (cross_validation_trial_balance st) as [[?|?] st6];
      cbn beta iota; [|discriminate 1];
      destruct Hcv as (_ & _ & t4 & ? & Hr6)
  end.
  unfold get_results, lift.
  destruct (print_summary (results st6)); cbn; [|discriminate 1].
  intros [= <- <-].
  assert (counted (results st6)) as Hc6.
  { rewrite Hr6.
    repeat match goal with
           | H : results _ = logged _ _ |- _ => rewrite H; clear H
           end.
    by repeat apply counted_logged. }
  exists [t; t0; t1; t2; t3; t4]. split; [|split; [|split]].
  - repeat match goal with
           | H : results _ = logged _ _ |- _ => rewrite H; clear H
           end.
    cbn. by rewrite <- !app_assoc.
  - cbn. unfold check_names. congruence.
  - exact Hc6.
  - rewrite bool_decide_eq_true. by apply counted_no_failure.
Qed.

End Verdict.

Lemma run_all_scenarios_verdict_witness :
  counted (results (Ledger.logged_in Ledger.lenient))
  ∧ run_all_scenarios (Ledger.logged_in Ledger.lenient)
    = (Returned false,
       (run_all_scenarios (Ledger.logged_in Ledger.lenient)).2)
  ∧ ∃ new,
      tests (results (run_all_scenarios
                        (Ledger.logged_in Ledger.lenient)).2)
      = tests (results (Ledger.logged_in Ledger.lenient)) ++ new
      ∧ r_name <$> new = check_names
      ∧ counted (results (run_all_scenarios
                            (Ledger.logged_in Ledger.lenient)).2)
      ∧ (false = true
         ↔ Forall (λ t, truthy (r_passed t) = true)
                  (tests (results (run_all_scenarios
                                     (Ledger.logged_in Ledger.lenient)).2))).
Proof.
  assert (counted (results (Ledger.logged_in Ledger.lenient))) as Hc
    by (split; reflexivity).
  assert (run_all_scenarios (Ledger.logged_in Ledger.lenient)
          = (Returned false,
             (run_all_scenarios (Ledger.logged_in Ledger.lenient)).2))
    as Hrun by (vm_compute; reflexivity).
  split; [exact Hc|]. split; [exact Hrun|].
  exact (run_all_scenarios_verdict
           (Ledger.logged_in Ledger.lenient) false _ Hc Hrun).
Defined.

Section Unresolved.
Context {env : Environment}.
Implicit Types st : hstate env.

Ltac stop_unresolved :=
  let Hun := fresh "Hun" in
  intros Hun; unfold bind; query; query;
  match goal with
  | Hdb : db_state _ _ = Some _ |- _ =>
      rewrite (unresolved_condition _ _ _ Hdb Hun)
  end;
  cbn beta iota;
  record; cbn; eexists _, _; split; [reflexivity|];
  split; [eassumption|]; by repeat split.

Lemma unresolved_account_stops_each st db :
  db_state env (sys st) = Some db →
  Forall (λ '(s, code),
            (∀ id, ¬ resolves st ACCOUNTS.CASH id)
            ∨ (∀ id, ¬ resolves st code id) →
            ∃ st' t,
              s st = (Returned (PyBool false, PyNone), st')
              ∧ tests (results st') = tests (results st) ++ [t]
              ∧ r_passed t = PyBool false
              ∧ r_details t = "Account IDs not found"
              ∧ r_entry_id t = PyNone
              ∧ sent st' = sent st
              ∧ sys st' = sys st)
         scenario_accounts.
Proof.
  intros Hdb. unfold scenario_accounts.
  repeat apply Forall_cons_2; [..|apply Forall_nil_2].
  - unfold scenario_1_balanced_entry. stop_unresolved.
  - unfold scenario_2_unbalanced_entry. stop_unresolved.
  - unfold scenario_3_revenue_transaction. stop_unresolved.
  - unfold scenario_4_expense_transaction. stop_unresolved.
  - unfold scenario_5_cogs_transaction. stop_unresolved.
Qed.

(** X13: when the database can be read but the cash account or the
    other account of a scenario does not resolve to a usable id (no
    live row, or the id 0), the scenario sends no request at all and
    leaves the system as it is; it returns [(False, None)] and records
    one failure with the text "Account IDs not found" and no entry
    id. *)
Theorem unresolved_account_stops_scenario st db s code :
  (s, code) ∈ scenario_accounts →
  db_state env (sys st) = Some db →
  (∀ id, ¬ resolves st ACCOUNTS.CASH id) ∨ (∀ id, ¬ resolves st code id) →
  ∃ st' t,
    s st = (Returned (PyBool false, PyNone), st')
    ∧ tests (results st') = tests (results st) ++ [t]
    ∧ r_passed t = PyBool false
    ∧ r_details t = "Account IDs not found"
    ∧ r_entry_id t = PyNone
    ∧ sent st' = sent st
    ∧ sys st' = sys st.
Proof.
  intros Hin Hdb.
  pose proof (unresolved_account_stops_each st db Hdb) as H.
  rewrite Forall_forall in H. exact (H _ Hin).
Qed.

End Unresolved.

Lemma unresolved_account_stops_scenario_witness :
  (scenario_3_revenue_transaction, ACCOUNTS.SALES_REVENUE)
  ∈ scenario_accounts (env := refusing_service)
  ∧ db_state refusing_service
      (sys (initial_state (env := refusing_service) tt))
    = Some empty_tables
  ∧ ((∀ id, ¬ resolves (initial_state (env := refusing_service) tt)
              ACCOUNTS.CASH id)
     ∨ (∀ id, ¬ resolves (initial_state (env := refusing_service) tt)
                ACCOUNTS.SALES_REVENUE id))
  ∧ ∃ st' t,
      scenario_3_revenue_transaction
        (initial_state (env := refusing_service) tt)
      = (Returned (PyBool false, PyNone), st')
      ∧ tests (results st')
        = tests (results (initial_state (env := refusing_service) tt)) ++ [t]
      ∧ r_passed t = PyBool false
      ∧ r_details t = "Account IDs not found"
      ∧ r_entry_id t = PyNone
      ∧ sent st' = sent (initial_state (env := refusing_service) tt)
      ∧ sys st' = sys (initial_state (env := refusing_service) tt).
Proof.
  assert ((scenario_3_revenue_transaction, ACCOUNTS.SALES_REVENUE)
          ∈ scenario_accounts (env := refusing_service)) as Hin
    by (unfold scenario_accounts; rewrite !elem_of_cons; auto).
  assert ((∀ id, ¬ resolves (initial_state (env := refusing_service) tt)
                   ACCOUNTS.CASH id)
          ∨ (∀ id, ¬ resolves (initial_state (env := refusing_service) tt)
                     ACCOUNTS.SALES_REVENUE id)) as Hun.
  { left. intros id (db & [= <-] & Hid & _). discriminate Hid. }
  split; [exact Hin|]. split; [reflexivity|]. split; [exact Hun|].
  exact (unresolved_account_stops_scenario
           (initial_state (env := refusing_service) tt) empty_tables
           _ _ Hin eq_refl Hun).
Defined.

(** *** The process *)

(** X14: when the database refuses the connection the process ends at
    once with exit code 1: no request has been sent, nothing has been
    recorded and the result file has not been touched. *)
Theorem process_aborts_without_database {env} (s : system env) :
  psycopg2_connect env s = false →
  exit_code s = (1%Z, initial_state s).
Proof.
  intros H. unfold exit_code. by rewrite main_without_database.
Qed.

Lemma process_aborts_without_database_witness :
  psycopg2_connect Ledger.environment Ledger.unreachable = false
  ∧ exit_code (env := Ledger.environment) Ledger.unreachable
    = (1%Z, initial_state (env := Ledger.environment) Ledger.unreachable).
Proof.
  split; [reflexivity|].
  apply (process_aborts_without_database (env := Ledger.environment)).
  reflexivity.
Defined.

(** A login answered with another status than 200, or not answered,
    returns [False] and stores nothing. *)
Lemma login_refused {env} email password (st : hstate env) :
  (∀ body, (serve env (LOGIN email password) (sys st)).1
           ≠ Response 200 body) →
  ∃ st',
    login email password st = (Returned false, st')
    ∧ sent st' = sent st ++ [LOGIN email password]
    ∧ results st' = results st
    ∧ results_file st' = results_file st
    ∧ token st' = token st.
Proof.
  intros Hrefused. unfold login, try_except, bind, requests_post.
  destruct (serve env _ _).1 as [code body|] eqn:Hreply; cbn.
  - case_bool_decide as Hcode; cbn.
    + subst code. by destruct (Hrefused body).
    + by eexists.
  - by eexists.
Qed.

(** X15: when the database is reachable but the login answer does not
    have status 200, [main] returns [False] without running a scenario:
    the login request is the only one sent, the log is empty and the
    result file is not touched. *)
Theorem main_stops_at_refused_login {env} (s : system env) :
  psycopg2_connect env s = true →
  (∀ body,
     (serve env (LOGIN CONFIG.SUPER_ADMIN_EMAIL CONFIG.SUPER_ADMIN_PASSWORD)
        s).1
     ≠ Response 200 body) →
  ∃ st',
    main (initial_state s) = (Returned false, st')
    ∧ sent st'
      = [LOGIN CONFIG.SUPER_ADMIN_EMAIL CONFIG.SUPER_ADMIN_PASSWORD]%list
    ∧ results st' = TestResults_init
    ∧ results_file st' = None
    ∧ token st' = PyNone.
Proof.
  intros Hconnect Hrefused.
  destruct (login_refused CONFIG.SUPER_ADMIN_EMAIL
              CONFIG.SUPER_ADMIN_PASSWORD (initial_state s) Hrefused)
    as (st' & Hlogin & Hsent & Hres & Hfile & Htoken).
  exists st'. split; [by apply main_without_login|].
  by rewrite Hsent, Hres, Hfile, Htoken.
Qed.

Lemma main_stops_at_refused_login_witness :
  psycopg2_connect refusing_service tt = true
  ∧ (∀ body,
       (serve refusing_service
          (LOGIN CONFIG.SUPER_ADMIN_EMAIL CONFIG.SUPER_ADMIN_PASSWORD)
          tt).1
       ≠ Response 200 body)
  ∧ ∃ st',
      main (initial_state (env := refusing_service) tt)
      = (Returned false, st')
      ∧ sent st'
        = [LOGIN CONFIG.SUPER_ADMIN_EMAIL CONFIG.SUPER_ADMIN_PASSWORD]%list
      ∧ results st' = TestResults_init
      ∧ results_file st' = None
      ∧ token st' = PyNone.
Proof.
  assert (∀ body,
            (serve refusing_service
               (LOGIN CONFIG.SUPER_ADMIN_EMAIL CONFIG.SUPER_ADMIN_PASSWORD)
               tt).1
            ≠ Response 200 body) as Hrefused by (intros body; discriminate).
  split; [reflexivity|]. split; [exact Hrefused|].
  exact (main_stops_at_refused_login (env := refusing_service) tt
           eq_refl Hrefused).
Defined.

(** X16: whatever the database and the service do, the process ends
    with exit code 1, and the result file is either not touched or left
    empty: no run writes a document into it. *)
Theorem process_never_exits_0 {env} (s : system env) :
  (exit_code s).1 = 1%Z
  ∧ (results_file (exit_code s).2 = None
     ∨ results_file (exit_code s).2 = Some Empty).
Proof.
  unfold exit_code. pose proof (main_result s) as H.
  destruct (main (initial_state s)) as [o st].
  destruct H as [[->| ->] H]; done.
Qed.

(** *** One more line, one more id *)

Lemma sum_of_snoc (p : journal_entry_details_row → Qc) ls l :
  sum_of p (ls ++ [l]) = sum_of p ls + p l.
Proof.
  unfold sum_of. induction ls as [|x ls IH]; cbn; [ring|].
  rewrite IH. ring.
Qed.

Lemma posted_lines_with_line db c l a :
  posted_lines (with_line db l) c a
  = posted_lines db c a
    ++ (if decide (jed_account_id l = a ∧ posted_line db c l)
        then [l] else []).
Proof.
  unfold posted_lines. cbn. rewrite filter_app. by f_equal.
Qed.

Lemma selected_details_with_line db c l :
  SQL.selected_details (with_line db l) c
  = SQL.selected_details db c
    ++ (if decide (posted_line db c l) then [l] else []).
Proof.
  unfold SQL.selected_details. cbn [with_line journal_entry_details].
  rewrite filter_app. f_equal.
  rewrite filter_cons, filter_nil.
  change (SQL.posted_entry_ids (with_line db l) c)
    with (SQL.posted_entry_ids db c).
  destruct (decide (posted_line db c l)) as [Hp|Hp].
  - rewrite decide_True; [done|].
    destruct Hp as [? Hp]. split; [done|]. by apply posted_entry_ids_spec.
  - rewrite decide_False; [done|].
    intros [? Hin]. apply Hp. split; [done|].
    by apply posted_entry_ids_spec.
Qed.

(** X17: a detail line added to the table changes the trial balance of
    a tenant only if it is a line of that tenant in one of its posted,
    non-deleted entries, and then only the row of its own account: that
    row appears if it was missing, and its debit and credit are the
    floats of the sums so far, taken exactly, plus the positive part of
    the line's debit and credit amounts. *)
Theorem trial_balance_one_more_line db c l :
  (∀ a, a ≠ jed_account_id l →
        row_for (SQL.get_trial_balance (with_line db l) c) a
        = row_for (SQL.get_trial_balance db c) a)
  ∧ if decide (posted_line db c l) then
      ∃ row,
        row_for (SQL.get_trial_balance (with_line db l) c) (jed_account_id l)
        = Some row
        ∧ debit row
          = Float.of_Q
              (sum_of (SQL.case_positive ∘ jed_debit_amount)
                      (posted_lines db c (jed_account_id l))
               + SQL.case_positive (jed_debit_amount l))%Qc
        ∧ credit row
          = Float.of_Q
              (sum_of (SQL.case_positive ∘ jed_credit_amount)
                      (posted_lines db c (jed_account_id l))
               + SQL.case_positive (jed_credit_amount l))%Qc
    else
      SQL.get_trial_balance (with_line db l) c = SQL.get_trial_balance db c.
Proof.
  split.
  - intros a Ha. rewrite !row_for_get_trial_balance, posted_lines_with_line.
    rewrite decide_False by (intros [? _]; congruence).
    by rewrite app_nil_r.
  - destruct (decide (posted_line db c l)) as [Hp|Hp].
    + rewrite !row_for_get_trial_balance, posted_lines_with_line.
      rewrite decide_True by done.
      destruct (posted_lines db c (jed_account_id l)) as [|x ls] eqn:E.
      * exists (row_of_lines ([] ++ l :: [])). split; [reflexivity|].
        unfold row_of_lines. cbn [debit credit].
        by rewrite !sum_of_snoc.
      * change ((x :: ls) ++ [l]) with (x :: (ls ++ [l])).
        eexists. split; [reflexivity|].
        unfold row_of_lines. cbn [debit credit].
        change (x :: ls ++ [l]) with ((x :: ls) ++ [l]).
        by rewrite !sum_of_snoc.
    + unfold SQL.get_trial_balance.
      rewrite selected_details_with_line, decide_False by done.
      by rewrite app_nil_r.
Qed.

Section PostedIds.
Context {env : Environment}.
Implicit Types st : hstate env.

Ltac to_record :=
  exec;
  first
    [ discriminate 1
    | intros [= <- <-];
      match goal with
      | H1 : tests (results ?s) = _ ++ [_] |- _ =>
          let E := fresh "E" in
          intros E; rewrite H1 in E; apply last_record in E; subst; cbn
      end ].

Ltac posted_id :=
  first
    [ by intros []
    | intros _; eexists; split;
      [ etrans; [eassumption|]; cbn; by rewrite <- app_assoc
      | split; [reflexivity|];
        match goal with
        | H : negb match _ with _ => _ end = false |- _ =>
            apply negb_false_iff in H; cbn in H |- *
        end;
        match goal with
        | H : match ?r with _ => _ end = true |- _ =>
            destruct r as [code body|]; [|discriminate H];
            apply bool_decide_eq_true in H as ->; by exists body
        end ] ].

Lemma logged_entry_ids_each st :
  Forall (λ s, ∀ r st' t,
            s st = (Returned r, st') →
            tests (results st') = tests (results st) ++ [t] →
            r_entry_id t ≠ PyNone →
            ∃ e,
              sent st'
              = sent st ++ [CREATE (token st) e;
                            POST (token st) (r_entry_id t)]
              ∧ created_id (serve env (CREATE (token st) e) (sys st)).1
                = r_entry_id t
              ∧ ∃ body,
                  (serve env (POST (token st) (r_entry_id t))
                     (serve env (CREATE (token st) e) (sys st)).2).1
                  = Response 200 body)
         posting_scenarios.
Proof.
  unfold posting_scenarios.
  repeat apply Forall_cons_2; [..|apply Forall_nil_2]; intros r st' t.
  - unfold scenario_1_balanced_entry, bind. to_record; posted_id.
  - unfold scenario_3_revenue_transaction, not_created_or_not_posted, bind.
    to_record; posted_id.
  - unfold scenario_4_expense_transaction, not_created_or_not_posted, bind.
    to_record; posted_id.
  - unfold scenario_5_cogs_transaction, not_created_or_not_posted, bind.
    to_record; posted_id.
Qed.

End PostedIds.

(** X18: in the scenarios that post what they create (1, 3, 4 and 5)
    a record carries an entry id only for an entry that was posted: the
    run then sent exactly one creation request and one post request,
    the id in the record is the id the creation returned, and the post
    request for it was answered with status 200. *)
Theorem logged_entry_ids_are_posted {env} (st : hstate env)
    (s : M env (pyval * pyval)) r st' t :
  s ∈ posting_scenarios →
  s st = (Returned r, st') →
  tests (results st') = tests (results st) ++ [t] →
  r_entry_id t ≠ PyNone →
  ∃ e,
    sent st'
    = sent st ++ [CREATE (token st) e; POST (token st) (r_entry_id t)]
    ∧ created_id (serve env (CREATE (token st) e) (sys st)).1
      = r_entry_id t
    ∧ ∃ body,
        (serve env (POST (token st) (r_entry_id t))
           (serve env (CREATE (token st) e) (sys st)).2).1
        = Response 200 body.
Proof.
  intros Hin. pose proof (logged_entry_ids_each st) as H.
  rewrite Forall_forall in H. exact (H s Hin r st' t).
Qed.

Lemma logged_entry_ids_are_posted_witness :
  scenario_3_revenue_transaction
  ∈ posting_scenarios (env := Ledger.environment)
  ∧ scenario_3_revenue_transaction (Ledger.logged_in Ledger.after_a_sale)
    = (Returned (PyBool false, PyInt 2),
       (scenario_3_revenue_transaction
          (Ledger.logged_in Ledger.after_a_sale)).2)
  ∧ tests (results (scenario_3_revenue_transaction
                      (Ledger.logged_in Ledger.after_a_sale)).2)
    = tests (results (Ledger.logged_in Ledger.after_a_sale))
      ++ [Ledger.second_sale_record]
  ∧ r_entry_id Ledger.second_sale_record ≠ PyNone
  ∧ ∃ e,
      sent (scenario_3_revenue_transaction
              (Ledger.logged_in Ledger.after_a_sale)).2
      = sent (Ledger.logged_in Ledger.after_a_sale)
        ++ [CREATE (token (Ledger.logged_in Ledger.after_a_sale)) e;
            POST (token (Ledger.logged_in Ledger.after_a_sale))
                 (r_entry_id Ledger.second_sale_record)]
      ∧ created_id
          (serve Ledger.environment
             (CREATE (token (Ledger.logged_in Ledger.after_a_sale)) e)
             (sys (Ledger.logged_in Ledger.after_a_sale))).1
        = r_entry_id Ledger.second_sale_record
      ∧ ∃ body,
          (serve Ledger.environment
             (POST (token (Ledger.logged_in Ledger.after_a_sale))
                   (r_entry_id Ledger.second_sale_record))
             (serve Ledger.environment
                (CREATE (token (Ledger.logged_in Ledger.after_a_sale)) e)
                (sys (Ledger.logged_in Ledger.after_a_sale))).2).1
          = Response 200 body.
Proof.
  assert (scenario_3_revenue_transaction
          ∈ posting_scenarios (env := Ledger.environment)) as Hin
    by (unfold posting_scenarios; rewrite !elem_of_cons; auto).
  assert (r_entry_id Ledger.second_sale_record ≠ PyNone) as Hid
    by discriminate.
  split; [exact Hin|]. split; [exact (proj1 second_sale_run)|].
  split; [exact (proj2 second_sale_run)|]. split; [exact Hid|].
  exact (logged_entry_ids_are_posted
           (Ledger.logged_in Ledger.after_a_sale) _ _ _ _ Hin
           (proj1 second_sale_run) (proj2 second_sale_run) Hid).
Defined.

(** ** The translation tools *)

Section TranslationTools.
Import Translations TranslationProps.

Lemma dict_get_None d k : dict_get d k = None ↔ k ∉ keys d.
Proof.
  induction d as [|[k' v] d IH]; cbn.
  - split; [intros _; apply not_elem_of_nil|done].
  - rewrite not_elem_of_cons. case_decide as Hk.
    + split; [done|]. by intros [? _].
    + rewrite IH. split; [by split|by intros [_ ?]].
Qed.

Lemma dict_get_Some d k v : dict_get d k = Some v → (k, v) ∈ d.
Proof.
  induction d as [|[k' v'] d IH]; cbn; [done|].
  case_decide.
  - intros [= ->]. subst. apply elem_of_cons. by left.
  - intros. apply elem_of_cons. right. by apply IH.
Qed.

Lemma dict_get_elem_of d k v :
  NoDup (keys d) → (k, v) ∈ d → dict_get d k = Some v.
Proof.
  induction d as [|[k' v'] d IH]; cbn; intros Hd Hin.
  - by apply elem_of_nil in Hin.
  - apply NoDup_cons in Hd as [Hk Hd].
    apply elem_of_cons in Hin as [[= -> ->]|Hin].
    + by rewrite decide_True.
    + rewrite decide_False; [by apply IH|].
      intros ->. apply Hk. unfold keys.
      by apply (list_elem_of_fmap_2 fst _ (k, v)).
Qed.

Lemma dict_get_set d k v k' :
  dict_get (dict_set d k v) k'
  = if decide (k = k') then Some v else dict_get d k'.
Proof.
  induction d as [|[k0 v0] d IH]; cbn.
  - done.
  - destruct (decide (k0 = k)) as [->|Hk]; cbn.
    + by destruct (decide (k = k')).
    + rewrite IH. destruct (decide (k0 = k')) as [->|]; [|done].
      by rewrite decide_False.
Qed.

Lemma dict_set_same d k v : dict_get d k = Some v → dict_set d k v = d.
Proof.
  induction d as [|[k0 v0] d IH]; cbn; [done|].
  case_decide; [by intros [= ->]|]. intros. by rewrite IH.
Qed.

Lemma dict_set_fresh d k v : k ∉ keys d → dict_set d k v = d ++ [(k, v)]%list.
Proof.
  induction d as [|[k0 v0] d IH]; cbn; [done|].
  rewrite not_elem_of_cons. intros [Hk Hd].
  rewrite decide_False by done. by rewrite IH.
Qed.

Lemma keys_dict_set d k v :
  keys (dict_set d k v)
  = if decide (k ∈ keys d) then keys d else keys d ++ [k]%list.
Proof.
  induction d as [|[k0 v0] d IH]; cbn.
  - rewrite decide_False; [done|apply not_elem_of_nil].
  - destruct (decide (k0 = k)) as [->|Hk]; cbn.
    + rewrite decide_True; [done|apply elem_of_cons; by left].
    + fold (keys d). fold (keys (dict_set d k v)). rewrite IH.
      destruct (decide (k ∈ keys d)).
      * rewrite decide_True; [done|apply elem_of_cons; by right].
      * rewrite decide_False; [done|].
        rewrite not_elem_of_cons. naive_solver.
Qed.

Lemma NoDup_keys_dict_set d k v :
  NoDup (keys d) → NoDup (keys (dict_set d k v)).
Proof.
  intros Hd. rewrite keys_dict_set. case_decide; [done|].
  apply NoDup_app. split; [done|]. split; [|apply NoDup_singleton].
  intros x Hx ->%list_elem_of_singleton. done.
Qed.

Lemma foldl_step_ext {A B} (f g : A → B → A) (l : list B) a :
  (∀ a b, f a b = g a b) → foldl f a l = foldl g a l.
Proof.
  intros Hfg. revert a. induction l as [|b l IH]; intros a; cbn; [done|].
  by rewrite Hfg, IH.
Qed.

(** [deep_merge] unfolds to the loop of the source. *)
Lemma deep_merge_eq base updates :
  deep_merge base updates
  = foldl (λ result '(key, value),
             dict_set result key (merged_value (dict_get result key) value))
          base updates.
Proof.
  unfold deep_merge. cbn [deep_merge_items].
  apply foldl_step_ext. intros result [key value].
  unfold merged_value.
  destruct (dict_get result key) as [[]|]; try done.
  by destruct value.
Qed.

Lemma deep_merge_nil base : deep_merge base [] = base.
Proof. done. Qed.

Lemma deep_merge_cons base k v updates :
  deep_merge base ((k, v) :: updates)
  = deep_merge (dict_set base k (merged_value (dict_get base k) v)) updates.
Proof. by rewrite !deep_merge_eq. Qed.

Lemma deep_merge_get base updates k :
  NoDup (keys updates) →
  dict_get (deep_merge base updates) k
  = match dict_get updates k with
    | Some v => Some (merged_value (dict_get base k) v)
    | None => dict_get base k
    end.
Proof.
  revert base. induction updates as [|[k0 v0] updates IH]; intros base Hu.
  - done.
  - cbn in Hu. apply NoDup_cons in Hu as [Hk0 Hu].
    rewrite deep_merge_cons, IH by done. cbn [dict_get].
    rewrite !dict_get_set.
    destruct (decide (k0 = k)) as [->|Hk]; [|done].
    by rewrite (proj2 (dict_get_None updates k)).
Qed.

Lemma filter_ext_in {A} (P Q : A → Prop) `{!∀ x, Decision (P x)}
    `{!∀ x, Decision (Q x)} (l : list A) :
  (∀ x, x ∈ l → P x ↔ Q x) → filter P l = filter Q l.
Proof.
  induction l as [|x l IH]; intros Hext; [done|].
  rewrite !filter_cons.
  rewrite IH by (intros y Hy; apply Hext, elem_of_cons; by right).
  assert (P x ↔ Q x) as Hx by (apply Hext, elem_of_cons; by left).
  destruct (decide (P x)), (decide (Q x)); tauto.
Qed.

Lemma deep_merge_keys base updates :
  NoDup (keys updates) →
  keys (deep_merge base updates)
  = keys base ++ filter (λ k, k ∉ keys base) (keys updates).
Proof.
  revert base. induction updates as [|[k0 v0] updates IH]; intros base Hu.
  - cbn. by rewrite app_nil_r.
  - cbn in Hu. apply NoDup_cons in Hu as [Hk0 Hu].
    rewrite deep_merge_cons, IH, keys_dict_set by done. cbn [keys fmap list_fmap fst].
    fold (keys updates).
    destruct (decide (k0 ∈ keys base)) as [Hin|Hout].
    + by rewrite filter_cons_False by (by intros ?).
    + rewrite filter_cons_True by done. rewrite <- app_assoc. cbn.
      do 2 f_equal. apply filter_ext_in. intros k Hk.
      rewrite elem_of_app, list_elem_of_singleton.
      split; [tauto|]. intros ? [?| ->]; done.
Qed.

(** X19: the result of [deep_merge], key by key.  When the keys of
    [updates] are pairwise distinct: a key of [updates] holds the merge
    of the two values when both are dicts and the value of [updates]
    otherwise; every other key holds what [base] holds; the keys of
    [base] keep their places and the new keys follow in the order of
    [updates]; and the keys of the result are pairwise distinct when
    those of [base] are. *)
Theorem deep_merge_members base updates :
  NoDup (keys updates) →
  (∀ k, dict_get (deep_merge base updates) k
        = match dict_get updates k with
          | Some v =>
              Some (match dict_get base k, v with
                    | Some (JDict r), JDict u => JDict (deep_merge r u)
                    | _, _ => v
                    end)
          | None => dict_get base k
          end)
  ∧ keys (deep_merge base updates)
    = keys base ++ filter (λ k, k ∉ keys base) (keys updates)
  ∧ (NoDup (keys base) → NoDup (keys (deep_merge base updates))).
Proof.
  intros Hu. split; [|split].
  - intros k. by rewrite deep_merge_get.
  - by apply deep_merge_keys.
  - intros Hb. rewrite deep_merge_keys by done.
    apply NoDup_app. split; [done|]. split.
    + intros k Hk [Hout _]%list_elem_of_filter. done.
    + by apply NoDup_filter.
Qed.

Lemma deep_merge_members_witness :
  NoDup (keys [("a", JStr "x"); ("b", JDict [("c", JNull)]%list)])
  ∧ keys (deep_merge [("b", JDict [("d", JInt 1)]%list); ("e", JNull)]
                     [("a", JStr "x"); ("b", JDict [("c", JNull)]%list)])
    = ["b"; "e"; "a"].
Proof.
  assert (NoDup (keys [("a", JStr "x"); ("b", JDict [("c", JNull)]%list)]))
    as Hu by (apply (bool_decide_unpack _); by vm_compute).
  split; [exact Hu|].
  exact (proj1 (proj2 (deep_merge_members
                         [("b", JDict [("d", JInt 1)]%list); ("e", JNull)]
                         _ Hu))).
Defined.

Lemma unique_keys_dict d :
  unique_keys (JDict d)
  ↔ NoDup (keys d) ∧ Forall (λ kv, unique_keys kv.2) d.
Proof.
  cbn [unique_keys]. apply and_iff_compat_l.
  induction d as [|[k v] d IH]; cbn [foldr].
  - split; [by intros|done].
  - rewrite Forall_cons, IH. done.
Qed.

Lemma foldl_fixed {A B} (f : A → B → A) (l : list B) a :
  Forall (λ b, f a b = a) l → foldl f a l = a.
Proof.
  induction 1 as [|b l Hb _ IH]; cbn; [done|]. by rewrite Hb.
Qed.

(** Merging a dict into itself changes nothing. *)
Lemma deep_merge_self v :
  unique_keys v →
  match v with JDict d => deep_merge d d = d | _ => True end.
Proof.
  induction v as [v Hv|d IH] using json_dict_ind; [by destruct v|].
  intros [Hd Hsub]%unique_keys_dict.
  rewrite deep_merge_eq. apply foldl_fixed.
  apply Forall_forall. intros [k v] Hin.
  rewrite (dict_get_elem_of d k v) by done.
  apply dict_set_same. rewrite (dict_get_elem_of d k v) by done.
  f_equal. rewrite Forall_forall in IH, Hsub.
  specialize (IH _ Hin (Hsub _ Hin)). cbn [snd] in IH.
  destruct v; try done. cbn [merged_value]. by rewrite IH.
Qed.

Lemma deep_merge_absorbs v :
  unique_keys v →
  match v with
  | JDict u => ∀ base, deep_merge (deep_merge base u) u = deep_merge base u
  | _ => True
  end.
Proof.
  induction v as [v Hv|u IH] using json_dict_ind; [by destruct v|].
  intros Huk base. pose proof Huk as [Hu Hsub]%unique_keys_dict.
  rewrite (deep_merge_eq (deep_merge base u)). apply foldl_fixed.
  apply Forall_forall. intros [k v] Hin.
  pose proof (deep_merge_get base u k Hu) as Hget.
  rewrite (dict_get_elem_of u k v) in Hget by done.
  rewrite Hget. apply dict_set_same. rewrite Hget. f_equal.
  rewrite Forall_forall in IH, Hsub.
  specialize (IH _ Hin (Hsub _ Hin)). cbn [snd] in IH.
  pose proof (deep_merge_self v (Hsub _ Hin)) as Hself.
  destruct v as [ | | | | | |uu];
    destruct (dict_get base k) as [[ | | | | | |r]|]; cbn [merged_value];
    by rewrite ?IH, ?Hself.
Qed.

(** X20: applying the same updates a second time changes nothing, and
    merging a dict into itself gives it back, when the keys of the
    updates are pairwise distinct in each of their dicts. *)
Theorem deep_merge_twice base updates :
  unique_keys (JDict updates) →
  deep_merge (deep_merge base updates) updates = deep_merge base updates
  ∧ deep_merge updates updates = updates.
Proof.
  intros Hu. split.
  - by apply (deep_merge_absorbs (JDict updates)).
  - by apply (deep_merge_self (JDict updates)).
Qed.

Lemma deep_merge_twice_witness :
  unique_keys (JDict [("a", JStr "x"); ("b", JDict [("c", JNull)]%list)])
  ∧ deep_merge
      (deep_merge [("b", JStr "y")]%list
                  [("a", JStr "x"); ("b", JDict [("c", JNull)]%list)])
      [("a", JStr "x"); ("b", JDict [("c", JNull)]%list)]
    = deep_merge [("b", JStr "y")]%list
                 [("a", JStr "x"); ("b", JDict [("c", JNull)]%list)].
Proof.
  assert (unique_keys
            (JDict [("a", JStr "x"); ("b", JDict [("c", JNull)]%list)]))
    as Hu.
  { cbn. repeat split; apply (bool_decide_unpack _); by vm_compute. }
  split; [exact Hu|].
  exact (proj1 (deep_merge_twice [("b", JStr "y")]%list _ Hu)).
Defined.

(** X21: updates take precedence.  A value of [updates] that is no
    dict is found in the result under the same path of keys, whatever
    [base] holds there. *)
Theorem deep_merge_keeps_update_leaves base updates path v :
  unique_keys (JDict updates) →
  path ≠ [] →
  get_path (JDict updates) path = Some v →
  is_dict v = false →
  get_path (JDict (deep_merge base updates)) path = Some v.
Proof.
  intros Hu Hpath Hget Hv. revert base updates Hu Hpath Hget.
  induction path as [|k path IH]; intros base updates Hu Hpath; [done|].
  apply unique_keys_dict in Hu as [Hu Hsub]. cbn [get_path].
  rewrite deep_merge_get by done.
  destruct (dict_get updates k) as [w|] eqn:Hk; [|done].
  apply dict_get_Some in Hk. rewrite Forall_forall in Hsub.
  specialize (Hsub _ Hk). cbn in Hsub.
  destruct path as [|k' path].
  - cbn. intros [= ->]. f_equal.
    destruct v; try done; by destruct (dict_get base k) as [[]|].
  - destruct w as [ | | | | | |uu]; try done.
    intros Hget.
    destruct (dict_get base k) as [[ | | | | | |r]|]; try done.
    apply IH; done.
Qed.

Lemma deep_merge_keeps_update_leaves_witness :
  unique_keys (JDict [("a", JStr "x"); ("b", JDict [("c", JNull)]%list)])
  ∧ ["b"; "c"] ≠ []
  ∧ get_path (JDict [("a", JStr "x"); ("b", JDict [("c", JNull)]%list)])
             ["b"; "c"] = Some JNull
  ∧ is_dict JNull = false
  ∧ get_path
      (JDict (deep_merge [("b", JDict [("c", JInt 1)]%list)]%list
                [("a", JStr "x"); ("b", JDict [("c", JNull)]%list)]))
      ["b"; "c"] = Some JNull.
Proof.
  assert (unique_keys
            (JDict [("a", JStr "x"); ("b", JDict [("c", JNull)]%list)]))
    as Hu.
  { cbn. repeat split; apply (bool_decide_unpack _); by vm_compute. }
  split; [exact Hu|]. split; [done|]. split; [reflexivity|].
  split; [reflexivity|].
  by apply (deep_merge_keeps_update_leaves
              [("b", JDict [("c", JInt 1)]%list)]%list _ ["b"; "c"] JNull Hu).
Defined.

(** *** [flatten_dict] *)

(** [flatten_dict] unfolds to the loop of the source. *)
Lemma flatten_dict_eq d parent_key sep :
  flatten_dict d parent_key sep
  = dict_of_items (flat_map (flatten_member parent_key sep) d).
Proof.
  unfold flatten_dict. cbn [flatten_items]. f_equal.
  apply flat_map_ext. intros [k v]. unfold flatten_member. by destruct v.
Qed.

Lemma dict_set_Forall (P : string * json → Prop) d k v :
  Forall P d → (∀ k', P (k', v)) → Forall P (dict_set d k v).
Proof.
  intros Hd Hv. induction Hd as [|[k0 v0] d H0 Hd IH]; cbn.
  - by apply Forall_singleton.
  - case_decide; apply Forall_cons; split; done.
Qed.

Lemma dict_of_items_from_Forall (P : string * json → Prop) d items :
  (∀ k k' v, P (k, v) → P (k', v)) →
  Forall P d → Forall P items →
  Forall P (foldl (λ d '(k, v), dict_set d k v) d items).
Proof.
  intros HP Hd Hitems. revert d Hd.
  induction Hitems as [|[k v] items Hkv _ IH]; intros d Hd; cbn; [done|].
  apply IH, dict_set_Forall; [done|]. intros k'. by apply (HP k).
Qed.

Lemma dict_of_items_from_NoDup d items :
  NoDup (keys d) →
  NoDup (keys (foldl (λ d '(k, v), dict_set d k v) d items)).
Proof.
  revert d. induction items as [|[k v] items IH]; intros d Hd; cbn; [done|].
  by apply IH, NoDup_keys_dict_set.
Qed.

Lemma dict_of_items_NoDup items :
  NoDup (keys (dict_of_items items)).
Proof. apply dict_of_items_from_NoDup. cbn. apply NoDup_nil_2. Qed.

(** X22: a flattened dict is flat and well formed: none of its values
    is a dict and its keys are pairwise distinct, whatever the dict,
    the parent key and the separator. *)
Theorem flatten_dict_is_flat d parent_key sep :
  Forall (λ kv, is_dict kv.2 = false) (flatten_dict d parent_key sep)
  ∧ NoDup (keys (flatten_dict d parent_key sep)).
Proof.
  split.
  - revert parent_key.
    change (∀ parent_key,
              (λ v, match v with
                    | JDict d =>
                        Forall (λ kv, is_dict kv.2 = false)
                               (flatten_dict d parent_key sep)
                    | _ => True
                    end) (JDict d)).
    induction (JDict d) as [v Hv|d' IH] using json_dict_ind;
      intros parent_key; [by destruct v|].
    rewrite flatten_dict_eq.
    apply dict_of_items_from_Forall; [done|apply Forall_nil_2|].
    apply Forall_flat_map. rewrite Forall_forall in IH.
    apply Forall_forall. intros [k v] Hin. unfold flatten_member. cbn [fst snd].
    specialize (IH _ Hin (new_key parent_key sep k)). cbn [snd] in IH.
    destruct v; try (by apply Forall_singleton). done.
  - rewrite flatten_dict_eq. apply dict_of_items_NoDup.
Qed.

(** *** [unflatten_dict] *)

(** [unflatten_dict] unfolds to the loop of the source. *)
Lemma unflatten_dict_eq d sep :
  unflatten_dict d sep = foldl (unflatten_step sep) (Value []) d.
Proof. unfold unflatten_dict. apply foldl_step_ext. by intros r [k v]. Qed.

Lemma unflatten_step_Error sep e items :
  foldl (unflatten_step sep) (Error e) items = Error e.
Proof. induction items as [|kv items IH]; cbn; [done|]. exact IH. Qed.

Lemma assign_at_update_at current parts last value :
  assign_at current parts last value
  = update_at parts (λ c, Value (dict_set c last value)) current.
Proof.
  revert current. induction parts as [|part parts IH]; intros current; cbn.
  - done.
  - destruct (default (JDict []) (dict_get current part)); try done.
    by rewrite IH.
Qed.

Lemma update_at_app p q f current :
  update_at (p ++ q) f current = update_at p (update_at q f) current.
Proof.
  revert current. induction p as [|part p IH]; intros current; cbn.
  - done.
  - destruct (default (JDict []) (dict_get current part)); try done.
    by rewrite IH.
Qed.

(** A walk that meets a value that is no dict raises [TypeError]. *)
Lemma update_at_blocked q q' f current v :
  q ≠ [] →
  get_path (JDict current) q = Some v →
  is_dict v = false →
  update_at (q ++ q') f current = Error TypeError.
Proof.
  revert current. induction q as [|part q IH]; intros current Hq; [done|].
  cbn. destruct (dict_get current part) as [w|]; [|done]. cbn.
  destruct q as [|part' q].
  - cbn. intros [= ->] Hv. by destruct v.
  - intros Hget Hv. destruct w as [ | | | | | |inner]; try done.
    by rewrite (IH inner).
Qed.

(** X23: [unflatten_dict] raises [TypeError] when the parts of a key
    lead through a member that the earlier keys have set to a value
    that is no dict, such as the key [a.b] after the key [a] with a
    string; the keys after it are not looked at. *)
Theorem unflatten_dict_blocked d sep key value rest result q q' v :
  unflatten_dict d sep = Value result →
  str_split key sep = Value (q ++ q') →
  q ≠ [] → q' ≠ [] →
  get_path (JDict result) q = Some v →
  is_dict v = false →
  unflatten_dict (d ++ (key, value) :: rest) sep = Error TypeError.
Proof.
  intros Hd Hsplit Hq Hq' Hget Hv.
  rewrite unflatten_dict_eq in *. rewrite foldl_app, Hd. cbn [foldl].
  replace (unflatten_step sep (Value result) (key, value))
    with (Error (A := dict) TypeError);
    [apply unflatten_step_Error|].
  unfold unflatten_step. cbn [py_bind fst snd]. rewrite Hsplit.
  cbn [py_bind]. rewrite assign_at_update_at.
  destruct (exists_last Hq') as (q0 & part & ->).
  rewrite app_assoc, removelast_last.
  symmetry. by eapply update_at_blocked.
Qed.

Lemma unflatten_dict_blocked_witness :
  unflatten_dict [("a", JStr "x")]%list "." = Value [("a", JStr "x")]%list
  ∧ str_split "a.b" "." = Value (["a"]%list ++ ["b"]%list)
  ∧ ["a"]%list ≠ [] ∧ ["b"]%list ≠ []
  ∧ get_path (JDict [("a", JStr "x")]%list) ["a"]%list = Some (JStr "x")
  ∧ is_dict (JStr "x") = false
  ∧ unflatten_dict ([("a", JStr "x")]%list ++ ("a.b", JStr "y") :: [])
                   "."
    = Error TypeError.
Proof.
  repeat (split; [done|]).
  by apply (unflatten_dict_blocked _ _ _ _ _ [("a", JStr "x")]%list
              ["a"]%list ["b"]%list (JStr "x")).
Defined.

(** *** Keys joined and split at ['.'] *)

Lemma string_app_assoc (a b c : string) : (a +:+ b) +:+ c = a +:+ b +:+ c.
Proof.
  induction a as [|x a IH]; [done|].
  change (String x ((a +:+ b) +:+ c) = String x (a +:+ b +:+ c)).
  by rewrite IH.
Qed.

Lemma string_app_nil (a b : string) : a +:+ b = "" → a = "" ∧ b = "".
Proof. by destruct a. Qed.

Lemma join_snoc p k :
  p ≠ [] → String.concat "." (p ++ [k]) = String.concat "." p +:+ "." +:+ k.
Proof.
  induction p as [|a p IH]; [done|]. intros _. destruct p as [|b p].
  - done.
  - change (a +:+ "." +:+ String.concat "." ((b :: p) ++ [k])
            = (a +:+ "." +:+ String.concat "." (b :: p)) +:+ "." +:+ k).
    rewrite IH by done. by rewrite !string_app_assoc.
Qed.

Lemma new_key_join p k :
  (p ≠ [] → String.concat "." p ≠ "") →
  new_key (String.concat "." p) "." k = String.concat "." (p ++ [k]).
Proof.
  intros Hp. unfold new_key. destruct p as [|a p].
  - done.
  - rewrite decide_False by (by apply Hp). by rewrite join_snoc.
Qed.

Lemma join_snoc_not_empty p k :
  (p = [] → k ≠ "") → String.concat "." (p ++ [k]) ≠ "".
Proof.
  destruct p as [|a p]; intros Hk.
  - by apply Hk.
  - rewrite join_snoc by done.
    intros [_ [[=] _]%string_app_nil]%string_app_nil.
Qed.

Lemma prefix_dot a s :
  String.prefix "." (String a s) = bool_decide ("."%char = a).
Proof.
  change (String.prefix "." (String a s))
    with (if ascii_dec "." a then String.prefix "" s else false).
  destruct (ascii_dec "." a).
  - rewrite bool_decide_eq_true_2 by done. by destruct s.
  - by rewrite bool_decide_eq_false_2.
Qed.

Lemma split_from_char a s :
  split_from "." (String a s) 0
  = if decide ("."%char = a) then "" :: split_from "." s 0
    else match split_from "." s 0 with
         | w :: ws => String a w :: ws
         | [] => [String a ""]%list
         end.
Proof.
  cbn [split_from]. rewrite prefix_dot.
  by destruct (decide ("."%char = a));
    [rewrite bool_decide_eq_true_2|rewrite bool_decide_eq_false_2].
Qed.

Lemma dot_free_String a k :
  dot_free (String a k) ↔ "."%char ≠ a ∧ dot_free k.
Proof.
  unfold dot_free. cbn [contains_char].
  destruct (decide ("."%char = a)) as [Ha|Ha];
    [split; [done|by intros [? _]]|split; [done|by intros [_ ?]]].
Qed.

Lemma split_from_dot_free k : dot_free k → split_from "." k 0 = [k]%list.
Proof.
  induction k as [|a k IH]; [done|].
  intros [Ha Hk]%dot_free_String. rewrite split_from_char.
  rewrite decide_False by done. by rewrite IH.
Qed.

Lemma split_from_dot_app k s :
  dot_free k →
  split_from "." (k +:+ "." +:+ s) 0 = k :: split_from "." s 0.
Proof.
  induction k as [|a k IH].
  - intros _. change ("" +:+ "." +:+ s) with (String "." s).
    rewrite split_from_char. by rewrite decide_True.
  - intros [Ha Hk]%dot_free_String.
    change (String a k +:+ "." +:+ s) with (String a (k +:+ "." +:+ s)).
    rewrite split_from_char, decide_False by done. by rewrite IH.
Qed.

Lemma split_from_join parts :
  parts ≠ [] → Forall dot_free parts →
  split_from "." (String.concat "." parts) 0 = parts.
Proof.
  induction parts as [|k parts IH]; [done|]. intros _ Hparts.
  apply Forall_cons in Hparts as [Hk Hparts].
  destruct parts as [|k' parts].
  - by apply split_from_dot_free.
  - change (String.concat "." (k :: k' :: parts))
      with (k +:+ "." +:+ String.concat "." (k' :: parts)).
    rewrite split_from_dot_app by done. by rewrite IH.
Qed.

Lemma join_inj p q :
  p ≠ [] → q ≠ [] → Forall dot_free p → Forall dot_free q →
  String.concat "." p = String.concat "." q → p = q.
Proof.
  intros Hp Hq Hfp Hfq Heq.
  rewrite <- (split_from_join p), <- (split_from_join q) by done.
  by rewrite Heq.
Qed.

(** *** The keys of a flattened dict *)

Lemma nests_cleanly_dict d :
  nests_cleanly (JDict d)
  ↔ NoDup (keys d)
    ∧ Forall (λ kv, dot_free kv.1 ∧ kv.2 ≠ JDict [] ∧ nests_cleanly kv.2) d.
Proof.
  cbn [nests_cleanly]. apply and_iff_compat_l.
  induction d as [|[k v] d IH]; cbn [foldr].
  - split; [by intros|done].
  - rewrite Forall_cons, IH. cbn [fst snd]. tauto.
Qed.

Lemma dict_of_items_from_id d items :
  NoDup (keys (d ++ items)) →
  foldl (λ d '(k, v), dict_set d k v) d items = d ++ items.
Proof.
  revert d. induction items as [|[k v] items IH]; intros d Hd; cbn.
  - by rewrite app_nil_r.
  - assert (k ∉ keys d) as Hk.
    { unfold keys in Hd. rewrite fmap_app in Hd.
      apply NoDup_app in Hd as (_ & Hd & _). intros Hin.
      apply (Hd _ Hin). cbn. apply elem_of_cons. by left. }
    rewrite dict_set_fresh by done. rewrite IH; rewrite <- app_assoc; done.
Qed.

Lemma dict_of_items_id items :
  NoDup (keys items) → dict_of_items items = items.
Proof. intros. by apply (dict_of_items_from_id []). Qed.

Lemma keys_app (d1 d2 : dict) : keys (d1 ++ d2) = keys d1 ++ keys d2.
Proof. apply fmap_app. Qed.

Lemma keys_flat_map (f : string * json → dict) members key :
  key ∈ keys (flat_map f members) →
  ∃ kv it, kv ∈ members ∧ it ∈ f kv ∧ it.1 = key.
Proof.
  intros (it & -> & Hit)%list_elem_of_fmap_1.
  apply list_elem_of_In, in_flat_map in Hit as (kv & Hkv & Hit).
  exists kv, it. by rewrite !list_elem_of_In.
Qed.

(** The items of different members have different keys. *)
Lemma flat_map_NoDup p (f : string * json → dict) members :
  Forall dot_free p →
  NoDup (keys members) →
  Forall (λ kv,
            dot_free kv.1
            ∧ NoDup (keys (f kv))
            ∧ Forall (λ it, ∃ q, Forall dot_free q
                                 ∧ it.1 = String.concat "." (p ++ kv.1 :: q))
                     (f kv))
         members →
  NoDup (keys (flat_map f members)).
Proof.
  intros Hp. induction members as [|[k v] members IH]; intros Hnd Hall.
  - cbn. apply NoDup_nil_2.
  - cbn in Hnd. apply NoDup_cons in Hnd as [Hk Hnd].
    apply Forall_cons in Hall as [(Hdf & Hfk & Hshape) Hall].
    cbn [flat_map]. rewrite keys_app. apply NoDup_app.
    split; [done|]. split; [|by apply IH].
    intros key (it & -> & Hit)%list_elem_of_fmap_1
           (kv' & it' & Hkv' & Hit' & Heq)%keys_flat_map.
    rewrite Forall_forall in Hshape, Hall.
    destruct (Hshape _ Hit) as (q & Hq & Hkey).
    destruct (Hall _ Hkv') as (Hdf' & _ & Hshape').
    rewrite Forall_forall in Hshape'.
    destruct (Hshape' _ Hit') as (q' & Hq' & Hkey').
    cbn [fst] in Hkey. rewrite Heq, Hkey in Hkey'.
    apply join_inj in Hkey'.
    + apply app_inv_head in Hkey'. injection Hkey' as Hkk _.
      apply Hk. rewrite Hkk. unfold keys.
      by apply (list_elem_of_fmap_2 fst).
    + by destruct p.
    + by destruct p.
    + apply Forall_app. split; [done|]. by apply Forall_cons.
    + apply Forall_app. split; [done|]. by apply Forall_cons.
Qed.

Lemma below_top_member p members k d :
  below_top p members → (k, JDict d) ∈ members → ∀ members',
  below_top (p ++ [k]) members'.
Proof.
  intros [Hp Htop] Hin members'. split.
  - intros _. apply join_snoc_not_empty. intros ->.
    specialize (Htop eq_refl). rewrite Forall_forall in Htop.
    by apply (Htop _ Hin).
  - by destruct p.
Qed.

(** Under the conditions of a clean nesting the items collected by
    [flatten_dict] have pairwise distinct keys, so [dict(items)] keeps
    them all, and each key is the path to its value joined with
    ['.']. *)
Lemma flatten_dict_clean v :
  nests_cleanly v →
  match v with
  | JDict d =>
      ∀ p, Forall dot_free p → below_top p d →
           flatten_dict d (String.concat "." p) "."
           = flat_map (flatten_member (String.concat "." p) ".") d
           ∧ Forall (λ it, ∃ q, q ≠ [] ∧ Forall dot_free q
                                ∧ it.1 = String.concat "." (p ++ q))
                    (flatten_dict d (String.concat "." p) ".")
  | _ => True
  end.
Proof.
  induction v as [v Hv|d IH] using json_dict_ind; [by destruct v|].
  intros [Hnd Hd]%nests_cleanly_dict p Hp Hbelow.
  assert (Forall (λ kv,
            dot_free kv.1
            ∧ NoDup (keys (flatten_member (String.concat "." p) "." kv))
            ∧ Forall (λ it, ∃ q, Forall dot_free q
                                 ∧ it.1 = String.concat "." (p ++ kv.1 :: q))
                     (flatten_member (String.concat "." p) "." kv)) d)
    as Hmembers.
  { rewrite Forall_forall in IH, Hd. apply Forall_forall.
    intros [k v] Hin. destruct (Hd _ Hin) as (Hk & Hne & Hv).
    cbn [fst snd] in *. split; [done|].
    unfold flatten_member. cbn [fst snd].
    rewrite new_key_join by apply Hbelow.
    specialize (IH _ Hin Hv). cbn [snd] in IH.
    destruct v as [ | | | | | |d'].
    1-6: split; [apply NoDup_singleton|];
      apply Forall_singleton; exists []; split; [done|];
      by rewrite cons_middle.
    destruct (IH (p ++ [k])) as [_ Hshape].
    { apply Forall_app. split; [done|]. by apply Forall_singleton. }
    { by eapply below_top_member. }
    split; [rewrite flatten_dict_eq; apply dict_of_items_NoDup|].
    eapply Forall_impl; [exact Hshape|].
    intros it (q & _ & Hq & ->). exists q. split; [done|].
    by rewrite <- app_assoc. }
  assert (NoDup (keys (flat_map (flatten_member (String.concat "." p) ".") d)))
    as Hitems by (by apply (flat_map_NoDup p)).
  assert (flatten_dict d (String.concat "." p) "."
          = flat_map (flatten_member (String.concat "." p) ".") d) as Heq.
  { rewrite flatten_dict_eq. by apply dict_of_items_id. }
  split; [done|]. rewrite Heq.
  apply Forall_flat_map. eapply Forall_impl; [exact Hmembers|].
  intros [k v] (Hk & _ & Hshape). eapply Forall_impl; [exact Hshape|].
  intros it (q & Hq & ->). exists (k :: q). split; [done|].
  split; [by apply Forall_cons|done].
Qed.

(** *** From the flattened dict back to the nested one *)

Lemma dict_set_set d k v w : dict_set (dict_set d k v) k w = dict_set d k w.
Proof.
  induction d as [|[k0 v0] d IH]; cbn.
  - by rewrite decide_True.
  - destruct (decide (k0 = k)) as [->|Hk]; cbn.
    + by rewrite decide_True.
    + by rewrite decide_False, IH.
Qed.

Lemma update_at_ext p f g current :
  (∀ c, dict_at current p = Some c → f c = g c) →
  update_at p f current = update_at p g current.
Proof.
  revert current. induction p as [|part p IH]; intros current Hfg; cbn in *.
  - by apply Hfg.
  - destruct (default (JDict []) (dict_get current part)); try done.
    by rewrite (IH _ Hfg).
Qed.

Lemma update_at_compose p f g current :
  py_bind (update_at p f current) (update_at p g)
  = update_at p (λ c, py_bind (f c) g) current.
Proof.
  revert current. induction p as [|part p IH]; intros current;
    cbn [update_at]; [done|].
  destruct (default (JDict []) (dict_get current part))
    as [ | | | | | |inner]; try done.
  rewrite <- IH. destruct (update_at p f inner) as [inner1|]; [|done].
  cbn [py_bind update_at]. rewrite dict_get_set.
  destruct (decide (part = part)); [|done].
  cbn [default from_option id]. destruct (update_at p g inner1) as [inner2|]; [|done].
  cbn [py_bind]. by rewrite dict_set_set.
Qed.

Lemma dict_at_update_at p f current result :
  update_at p f current = Value result →
  ∃ c c1, dict_at current p = Some c ∧ f c = Value c1
          ∧ dict_at result p = Some c1.
Proof.
  revert current result.
  induction p as [|part p IH]; intros current result; cbn [update_at dict_at].
  - intros Hf. by exists current, result.
  - destruct (default (JDict []) (dict_get current part))
      as [ | | | | | |inner]; try done.
    destruct (update_at p f inner) as [inner1|] eqn:Hinner; [|done].
    cbn [py_bind]. intros [= <-].
    destruct (IH _ _ Hinner) as (c & c1 & Hc & Hfc & Hc1).
    exists c, c1. split; [done|]. split; [done|].
    rewrite dict_get_set. by destruct (decide (part = part)).
Qed.

Lemma dict_at_snoc_fresh current p k c inner :
  dict_at current p = Some c → k ∉ keys c →
  dict_at current (p ++ [k]) = Some inner → inner = [].
Proof.
  revert current. induction p as [|part p IH]; intros current; cbn.
  - intros [= ->] Hk. rewrite (proj2 (dict_get_None c k) Hk). cbn.
    by intros [= <-].
  - destruct (default (JDict []) (dict_get current part)); try done.
    apply IH.
Qed.

Lemma removelast_snoc {A} (l : list A) x : removelast (l ++ [x]) = l.
Proof.
  induction l as [|a l IH]; [done|]. cbn.
  destruct (l ++ [x]) eqn:E; [by destruct l|]. by rewrite <- IH.
Qed.

Lemma last_snoc {A} (l : list A) x d : List.last (l ++ [x]) d = x.
Proof.
  induction l as [|a l IH]; [done|]. cbn.
  destruct (l ++ [x]) eqn:E; [by destruct l|]. done.
Qed.

(** One item whose key is a joined path is stored at that path. *)
Lemma unflatten_step_item p k v result :
  Forall dot_free p → dot_free k →
  unflatten_step "." (Value result) (String.concat "." (p ++ [k]), v)
  = update_at p (λ c, Value (dict_set c k v)) result.
Proof.
  intros Hp Hk. unfold unflatten_step, str_split. cbn [py_bind fst snd].
  rewrite decide_False by done. cbn [py_bind].
  rewrite split_from_join.
  - by rewrite removelast_snoc, last_snoc, assign_at_update_at.
  - by destruct p.
  - apply Forall_app. split; [done|]. by apply Forall_singleton.
Qed.

Lemma unflatten_members p fs :
  Forall dot_free p → below_top p fs → NoDup (keys fs) →
  Forall (λ kv, dot_free kv.1 ∧ kv.2 ≠ JDict [] ∧ nests_cleanly kv.2) fs →
  Forall (λ kv, nests_cleanly kv.2 → grafts kv.2) fs →
  fs ≠ [] →
  ∀ result,
    (∀ c, dict_at result p = Some c → ∀ k, k ∈ keys fs → k ∉ keys c) →
    foldl (unflatten_step ".") (Value result)
          (flat_map (flatten_member (String.concat "." p) ".") fs)
    = update_at p (λ c, Value (c ++ fs)) result.
Proof.
  intros Hp. induction fs as [|[k v] fs IH]; [done|].
  intros Hbelow Hnd Hclean Hgrafts _ result Hfresh.
  cbn in Hnd. apply NoDup_cons in Hnd as [Hk Hnd].
  apply Forall_cons in Hclean as [(Hdk & Hne & Hv) Hclean].
  apply Forall_cons in Hgrafts as [Hgraft Hgrafts]. cbn [fst snd] in *.
  assert (∀ c, dict_at result p = Some c → k ∉ keys c) as Hkc.
  { intros c Hc. apply (Hfresh c Hc). cbn. apply elem_of_cons. by left. }
  assert (foldl (unflatten_step ".") (Value result)
                (flatten_member (String.concat "." p) "." (k, v))
          = update_at p (λ c, Value (c ++ [(k, v)]%list)) result) as Hfirst.
  { unfold flatten_member. cbn [fst snd].
    rewrite new_key_join by apply Hbelow.
    destruct v as [ | | | | | |d'].
    1-6: cbn [foldl]; rewrite unflatten_step_item by done;
      apply update_at_ext; intros c Hc;
      by rewrite dict_set_fresh by (by apply Hkc).
    specialize (Hgraft Hv). cbn [grafts] in Hgraft.
    rewrite (Hgraft) .
    - rewrite update_at_app. apply update_at_ext. intros c Hc.
      cbn [update_at]. rewrite (proj2 (dict_get_None c k)) by (by apply Hkc).
      cbn [default from_option id py_bind app].
      by rewrite dict_set_fresh by (by apply Hkc).
    - by intros ->.
    - apply Forall_app. split; [done|]. by apply Forall_singleton.
    - eapply below_top_member; [exact Hbelow|]. apply elem_of_cons. by left.
    - intros c' Hc' k' _.
      destruct (dict_at result p) as [c|] eqn:Hc.
      + rewrite (dict_at_snoc_fresh result p k c c' Hc) by (by auto).
        apply not_elem_of_nil.
      + exfalso. clear -Hc Hc'. revert result Hc Hc'.
        induction p as [|part p IHp]; intros result; cbn; [done|].
        destruct (default (JDict []) (dict_get result part)); try done.
        apply IHp. }
  cbn [flat_map]. rewrite foldl_app, Hfirst.
  destruct fs as [|kv' fs'] eqn:Hfs; [done|]. rewrite <- Hfs in *.
  assert (update_at p (λ c, Value (c ++ (k, v) :: fs)) result
          = py_bind (update_at p (λ c, Value (c ++ [(k, v)]%list)) result)
                    (update_at p (λ c, Value (c ++ fs)))) as ->.
  { rewrite update_at_compose. apply update_at_ext. intros c _.
    cbn [py_bind]. by rewrite <- app_assoc. }
  destruct (update_at p (λ c, Value (c ++ [(k, v)]%list)) result)
    as [result1|e] eqn:Hresult1; cbn [py_bind].
  - apply IH; try done.
    + destruct Hbelow as [Hb1 Hb2]. split; [done|]. intros Hnil.
      specialize (Hb2 Hnil). by apply Forall_cons in Hb2 as [_ ?].
    + by rewrite Hfs.
    + intros c1 Hc1 k' Hk'.
      destruct (dict_at_update_at _ _ _ _ Hresult1)
        as (c & c1' & Hc & [= <-] & Hc1').
      rewrite Hc1' in Hc1. injection Hc1 as <-.
      rewrite keys_app. rewrite not_elem_of_app. split.
      * apply (Hfresh c Hc). cbn. apply elem_of_cons. by right.
      * cbn. rewrite list_elem_of_singleton. by intros ->.
  - apply unflatten_step_Error.
Qed.

Lemma flattened_grafts v : nests_cleanly v → grafts v.
Proof.
  induction v as [v Hv|d IH] using json_dict_ind; [by destruct v|].
  intros Hclean Hne p result Hp Hbelow Hfresh.
  destruct (flatten_dict_clean (JDict d) Hclean p Hp Hbelow) as [-> _].
  apply nests_cleanly_dict in Hclean as [Hnd Hd].
  by apply unflatten_members.
Qed.

(** X24: flattening and unflattening with ['.'] gives the dict back,
    members in their order, when in each of its dicts, at every depth,
    the keys are pairwise distinct and free of ['.'] and no value is an
    empty dict, and when no dict is stored under the empty key at the
    top. *)
Theorem unflatten_flatten d :
  nests_cleanly (JDict d) →
  (∀ d', ("", JDict d') ∉ d) →
  unflatten_dict (flatten_dict d "" ".") "." = Value d.
Proof.
  intros Hclean Htop. rewrite unflatten_dict_eq.
  destruct d as [|kv d]; [done|].
  apply (flattened_grafts (JDict (kv :: d)) Hclean) with (p := []).
  - done.
  - apply Forall_nil_2.
  - split; [done|]. intros _. apply Forall_forall.
    intros [k v] Hin Hv. cbn [fst snd] in *. intros ->.
    destruct v; try done. by apply (Htop members).
  - intros c [= <-] k _. apply not_elem_of_nil.
Qed.

Lemma unflatten_flatten_witness :
  nests_cleanly
    (JDict [("menu", JDict [("file", JStr "File");
                            ("edit", JDict [("undo", JStr "Undo")]%list)]);
            ("title", JStr "SLMS")])
  ∧ (∀ d', ("", JDict d')
           ∉ [("menu", JDict [("file", JStr "File");
                              ("edit", JDict [("undo", JStr "Undo")]%list)]);
              ("title", JStr "SLMS")])
  ∧ unflatten_dict
      (flatten_dict
         [("menu", JDict [("file", JStr "File");
                          ("edit", JDict [("undo", JStr "Undo")]%list)]);
          ("title", JStr "SLMS")] "" ".") "."
    = Value [("menu", JDict [("file", JStr "File");
                             ("edit", JDict [("undo", JStr "Undo")]%list)]);
             ("title", JStr "SLMS")].
Proof.
  assert (nests_cleanly
    (JDict [("menu", JDict [("file", JStr "File");
                            ("edit", JDict [("undo", JStr "Undo")]%list)]);
            ("title", JStr "SLMS")])) as Hclean.
  { cbn [nests_cleanly foldr].
    repeat split; try done; apply (bool_decide_unpack _); by vm_compute. }
  assert (∀ d', ("", JDict d')
           ∉ [("menu", JDict [("file", JStr "File");
                              ("edit", JDict [("undo", JStr "Undo")]%list)]);
              ("title", JStr "SLMS")]) as Htop.
  { intros d'. rewrite !not_elem_of_cons. repeat split; try done.
    apply not_elem_of_nil. }
  split; [exact Hclean|]. split; [exact Htop|].
  exact (unflatten_flatten _ Hclean Htop).
Defined.

(** *** The items of a flattened dict *)

Lemma elem_of_flat_map (f : string * json → dict) members it :
  it ∈ flat_map f members ↔ ∃ kv, kv ∈ members ∧ it ∈ f kv.
Proof.
  rewrite list_elem_of_In, in_flat_map.
  split; intros (kv & Hkv & Hit); exists kv.
  - by split; apply list_elem_of_In.
  - by split; apply list_elem_of_In.
Qed.

Lemma flatten_dict_items v :
  nests_cleanly v →
  match v with
  | JDict d =>
      ∀ p, Forall dot_free p → below_top p d →
           ∀ key w,
             (key, w) ∈ flatten_dict d (String.concat "." p) "."
             ↔ ∃ q, q ≠ [] ∧ key = String.concat "." (p ++ q)
                    ∧ get_path (JDict d) q = Some w ∧ is_dict w = false
  | _ => True
  end.
Proof.
  induction v as [v Hv|d IH] using json_dict_ind; [by destruct v|].
  intros Hclean p Hp Hbelow key w.
  destruct (flatten_dict_clean (JDict d) Hclean p Hp Hbelow) as [-> _].
  apply nests_cleanly_dict in Hclean as [Hnd Hd].
  rewrite Forall_forall in IH, Hd. rewrite elem_of_flat_map. split.
  - intros ([k u] & Hin & Hit). destruct (Hd _ Hin) as (Hk & _ & Hu).
    cbn [fst snd] in *. unfold flatten_member in Hit. cbn [fst snd] in Hit.
    rewrite new_key_join in Hit by apply Hbelow.
    specialize (IH _ Hin Hu). cbn [snd] in IH.
    destruct u as [ | | | | | |d'].
    1-6: apply list_elem_of_singleton in Hit as [= -> ->];
      exists [k]%list; split; [done|]; split; [done|];
      cbn [get_path]; by rewrite (dict_get_elem_of d k _ Hnd Hin).
    apply (IH (p ++ [k])) in Hit as (q & Hq & -> & Hget & Hw).
    + exists (k :: q). split; [done|]. split; [by rewrite <- app_assoc|].
      cbn [get_path]. by rewrite (dict_get_elem_of d k _ Hnd Hin).
    + apply Forall_app. split; [done|]. by apply Forall_singleton.
    + by eapply below_top_member.
  - intros (q & Hq & -> & Hget & Hw). destruct q as [|k q]; [done|].
    cbn [get_path] in Hget.
    destruct (dict_get d k) as [u|] eqn:Hk; [|done].
    apply dict_get_Some in Hk. exists (k, u). split; [done|].
    destruct (Hd _ Hk) as (Hdk & _ & Hu). cbn [fst snd] in *.
    unfold flatten_member. cbn [fst snd].
    rewrite new_key_join by apply Hbelow.
    specialize (IH _ Hk Hu). cbn [snd] in IH.
    destruct q as [|k' q].
    + injection Hget as ->. destruct w; try done;
        by apply list_elem_of_singleton.
    + destruct u as [ | | | | | |d']; try done.
      apply (IH (p ++ [k])).
      * apply Forall_app. split; [done|]. by apply Forall_singleton.
      * by eapply below_top_member.
      * exists (k' :: q). split; [done|]. by rewrite <- app_assoc.
Qed.

(** X25: the items of a flattened dict are the leaves of the dict: a
    key and a value form an item of [flatten_dict d] exactly when the
    key is a non-empty path of keys joined with ['.'] and the value is
    what the path leads to in [d], a value that is no dict.  This holds
    under the conditions of the round trip. *)
Theorem flatten_dict_leaves d key w :
  nests_cleanly (JDict d) →
  (∀ d', ("", JDict d') ∉ d) →
  (key, w) ∈ flatten_dict d "" "."
  ↔ ∃ path, path ≠ [] ∧ key = String.concat "." path
            ∧ get_path (JDict d) path = Some w ∧ is_dict w = false.
Proof.
  intros Hclean Htop.
  apply (flatten_dict_items (JDict d) Hclean []).
  - apply Forall_nil_2.
  - split; [done|]. intros _. apply Forall_forall.
    intros [k v] Hin Hv. cbn [fst snd] in *. intros ->.
    destruct v; try done. by apply (Htop members).
Qed.

Lemma flatten_dict_leaves_witness :
  nests_cleanly
    (JDict [("menu", JDict [("file", JStr "File")]%list);
            ("title", JStr "SLMS")])
  ∧ (∀ d', ("", JDict d')
           ∉ [("menu", JDict [("file", JStr "File")]%list);
              ("title", JStr "SLMS")])
  ∧ (("menu.file", JStr "File")
     ∈ flatten_dict [("menu", JDict [("file", JStr "File")]%list);
                     ("title", JStr "SLMS")] "" "."
     ↔ ∃ path, path ≠ [] ∧ "menu.file" = String.concat "." path
               ∧ get_path
                   (JDict [("menu", JDict [("file", JStr "File")]%list);
                           ("title", JStr "SLMS")]) path
                 = Some (JStr "File")
               ∧ is_dict (JStr "File") = false).
Proof.
  assert (nests_cleanly
    (JDict [("menu", JDict [("file", JStr "File")]%list);
            ("title", JStr "SLMS")])) as Hclean.
  { cbn [nests_cleanly foldr].
    repeat split; try done; apply (bool_decide_unpack _); by vm_compute. }
  assert (∀ d', ("", JDict d')
           ∉ [("menu", JDict [("file", JStr "File")]%list);
              ("title", JStr "SLMS")]) as Htop.
  { intros d'. rewrite !not_elem_of_cons. repeat split; try done.
    apply not_elem_of_nil. }
  split; [exact Hclean|]. split; [exact Htop|].
  exact (flatten_dict_leaves _ "menu.file" (JStr "File") Hclean Htop).
Defined.

End TranslationTools.
